(** * DAIO reward system: a shallow embedding of [daio_reward_system.py]
      and [quantum_ai_utils.py], and the properties of its reward
      computation, wallet set, batch check and command loop.

    Python floats are IEEE 754 binary64 numbers: they are embedded as Rocq's
    primitive floats, whose operations round exactly as Python's do.  The
    three external collaborators (the Solana RPC client, the Aer simulator
    and the language-model client) are a record of operations over an
    abstract world; every one of them may raise. *)

From Stdlib Require Import ZArith Lia List Ascii String.
From Stdlib Require Import Floats.PrimFloat Numbers.Cyclic.Int63.Uint63.
From stdpp Require Import gmap strings list.

Local Open Scope string_scope.
Local Open Scope Z_scope.

(** ** Python strings

    A string is a sequence of code points.  The program is embedded over
    the strings of code points below 256 (Latin-1), one [ascii] each;
    [Unicode], below, has the operations of the command loop on every code
    point. *)

Module PyStr.

Definition chars (s : string) : list ascii := list_ascii_of_string s.
Definition of_chars (l : list ascii) : string := string_of_list_ascii l.

Definition ord (c : ascii) : Z := Z.of_N (N_of_ascii c).

(** [str.isspace] on one code point below 256. *)
Definition isspace (c : ascii) : bool :=
  let n := ord c in
  ((9 <=? n) && (n <=? 13)) || ((28 <=? n) && (n <=? 32))
  || (n =? 133) || (n =? 160).

(** [str.isupper] on one code point below 256: A-Z and the Latin-1
    capitals, the multiplication sign (215) apart. *)
Definition isupper (c : ascii) : bool :=
  let n := ord c in
  ((65 <=? n) && (n <=? 90))
  || ((192 <=? n) && (n <=? 222) && negb (n =? 215)).

(** [str.lower] on one code point: every capital has its small letter 32
    places further. *)
Definition lower_char (c : ascii) : ascii :=
  if isupper c then ascii_of_N (N_of_ascii c + 32) else c.

Definition lower (s : string) : string :=
  of_chars (map lower_char (chars s)).

Fixpoint drop_while {A} (p : A -> bool) (l : list A) : list A :=
  match l with
  | [] => []
  | x :: l' => if p x then drop_while p l' else l
  end.

Definition strip_chars (l : list ascii) : list ascii :=
  rev (drop_while isspace (rev (drop_while isspace l))).

(** [s.strip()] *)
Definition strip (s : string) : string := of_chars (strip_chars (chars s)).

(** [s[n:]] *)
Definition slice_from (n : nat) (s : string) : string :=
  of_chars (drop n (chars s)).

(** [s.startswith(p)] *)
Definition startswith (p s : string) : bool := String.prefix p s.

Definition has_upper (s : string) : bool := existsb isupper (chars s).

End PyStr.

(** ** Python strings, every code point

    A [str] is a sequence of code points, and [str.lower], [str.isupper],
    [str.isspace] and [str.strip] read the character database of the
    interpreter.  The tables below are the ones of Unicode 14.0.0 (CPython
    3.11), as runs [(first, last, step)] of code points; a run of
    [lower_table] also carries the lower case of its first code point, and
    the other code points of the run lie as far from their lower case as
    the first one does. *)

Module Unicode.

Local Open Scope N_scope.

Definition space_table : list (N * N * N) :=
  [(0x9, 0xD, 1); (0x1C, 0x20, 1); (0x85, 0x85, 1); (0xA0, 0xA0, 1); (0x1680,
   0x1680, 1); (0x2000, 0x200A, 1); (0x2028, 0x2029, 1); (0x202F, 0x202F, 1);
   (0x205F, 0x205F, 1); (0x3000, 0x3000, 1)]%N.

Definition upper_table : list (N * N * N) :=
  [(0x41, 0x5A, 1); (0xC0, 0xD6, 1); (0xD8, 0xDE, 1); (0x100, 0x136, 2);
   (0x139, 0x147, 2); (0x14A, 0x178, 2); (0x179, 0x17D, 2); (0x181, 0x182, 1);
   (0x184, 0x186, 2); (0x187, 0x189, 2); (0x18A, 0x18B, 1); (0x18E, 0x191, 1);
   (0x193, 0x194, 1); (0x196, 0x198, 1); (0x19C, 0x19D, 1); (0x19F, 0x1A0, 1);
   (0x1A2, 0x1A6, 2); (0x1A7, 0x1A9, 2); (0x1AC, 0x1AE, 2); (0x1AF, 0x1B1, 2);
   (0x1B2, 0x1B3, 1); (0x1B5, 0x1B7, 2); (0x1B8, 0x1B8, 1); (0x1BC, 0x1BC, 1);
   (0x1C4, 0x1C4, 1); (0x1C7, 0x1C7, 1); (0x1CA, 0x1CA, 1); (0x1CD, 0x1DB, 2);
   (0x1DE, 0x1EE, 2); (0x1F1, 0x1F1, 1); (0x1F4, 0x1F6, 2); (0x1F7, 0x1F8, 1);
   (0x1FA, 0x232, 2); (0x23A, 0x23B, 1); (0x23D, 0x23E, 1); (0x241, 0x243, 2);
   (0x244, 0x246, 1); (0x248, 0x24E, 2); (0x370, 0x372, 2); (0x376, 0x376, 1);
   (0x37F, 0x37F, 1); (0x386, 0x388, 2); (0x389, 0x38A, 1); (0x38C, 0x38E, 2);
   (0x38F, 0x391, 2); (0x392, 0x3A1, 1); (0x3A3, 0x3AB, 1); (0x3CF, 0x3CF, 1);
   (0x3D2, 0x3D4, 1); (0x3D8, 0x3EE, 2); (0x3F4, 0x3F4, 1); (0x3F7, 0x3F9, 2);
   (0x3FA, 0x3FA, 1); (0x3FD, 0x42F, 1); (0x460, 0x480, 2); (0x48A, 0x4C0, 2);
   (0x4C1, 0x4CD, 2); (0x4D0, 0x52E, 2); (0x531, 0x556, 1); (0x10A0, 0x10C5,
   1); (0x10C7, 0x10C7, 1); (0x10CD, 0x10CD, 1); (0x13A0, 0x13F5, 1); (0x1C90,
   0x1CBA, 1); (0x1CBD, 0x1CBF, 1); (0x1E00, 0x1E94, 2); (0x1E9E, 0x1EFE, 2);
   (0x1F08, 0x1F0F, 1); (0x1F18, 0x1F1D, 1); (0x1F28, 0x1F2F, 1); (0x1F38,
   0x1F3F, 1); (0x1F48, 0x1F4D, 1); (0x1F59, 0x1F5F, 2); (0x1F68, 0x1F6F, 1);
   (0x1FB8, 0x1FBB, 1); (0x1FC8, 0x1FCB, 1); (0x1FD8, 0x1FDB, 1); (0x1FE8,
   0x1FEC, 1); (0x1FF8, 0x1FFB, 1); (0x2102, 0x2102, 1); (0x2107, 0x2107, 1);
   (0x210B, 0x210D, 1); (0x2110, 0x2112, 1); (0x2115, 0x2115, 1); (0x2119,
   0x211D, 1); (0x2124, 0x212A, 2); (0x212B, 0x212D, 1); (0x2130, 0x2133, 1);
   (0x213E, 0x213F, 1); (0x2145, 0x2145, 1); (0x2160, 0x216F, 1); (0x2183,
   0x2183, 1); (0x24B6, 0x24CF, 1); (0x2C00, 0x2C2F, 1); (0x2C60, 0x2C62, 2);
   (0x2C63, 0x2C64, 1); (0x2C67, 0x2C6D, 2); (0x2C6E, 0x2C70, 1); (0x2C72,
   0x2C72, 1); (0x2C75, 0x2C75, 1); (0x2C7E, 0x2C80, 1); (0x2C82, 0x2CE2, 2);
   (0x2CEB, 0x2CED, 2); (0x2CF2, 0x2CF2, 1); (0xA640, 0xA66C, 2); (0xA680,
   0xA69A, 2); (0xA722, 0xA72E, 2); (0xA732, 0xA76E, 2); (0xA779, 0xA77D, 2);
   (0xA77E, 0xA786, 2); (0xA78B, 0xA78D, 2); (0xA790, 0xA792, 2); (0xA796,
   0xA7AA, 2); (0xA7AB, 0xA7AE, 1); (0xA7B0, 0xA7B4, 1); (0xA7B6, 0xA7C4, 2);
   (0xA7C5, 0xA7C7, 1); (0xA7C9, 0xA7C9, 1); (0xA7D0, 0xA7D0, 1); (0xA7D6,
   0xA7D8, 2); (0xA7F5, 0xA7F5, 1); (0xFF21, 0xFF3A, 1); (0x10400, 0x10427, 1);
   (0x104B0, 0x104D3, 1); (0x10570, 0x1057A, 1); (0x1057C, 0x1058A, 1);
   (0x1058C, 0x10592, 1); (0x10594, 0x10595, 1); (0x10C80, 0x10CB2, 1);
   (0x118A0, 0x118BF, 1); (0x16E40, 0x16E5F, 1); (0x1D400, 0x1D419, 1);
   (0x1D434, 0x1D44D, 1); (0x1D468, 0x1D481, 1); (0x1D49C, 0x1D49E, 2);
   (0x1D49F, 0x1D49F, 1); (0x1D4A2, 0x1D4A2, 1); (0x1D4A5, 0x1D4A6, 1);
   (0x1D4A9, 0x1D4AC, 1); (0x1D4AE, 0x1D4B5, 1); (0x1D4D0, 0x1D4E9, 1);
   (0x1D504, 0x1D505, 1); (0x1D507, 0x1D50A, 1); (0x1D50D, 0x1D514, 1);
   (0x1D516, 0x1D51C, 1); (0x1D538, 0x1D539, 1); (0x1D53B, 0x1D53E, 1);
   (0x1D540, 0x1D544, 1); (0x1D546, 0x1D546, 1); (0x1D54A, 0x1D550, 1);
   (0x1D56C, 0x1D585, 1); (0x1D5A0, 0x1D5B9, 1); (0x1D5D4, 0x1D5ED, 1);
   (0x1D608, 0x1D621, 1); (0x1D63C, 0x1D655, 1); (0x1D670, 0x1D689, 1);
   (0x1D6A8, 0x1D6C0, 1); (0x1D6E2, 0x1D6FA, 1); (0x1D71C, 0x1D734, 1);
   (0x1D756, 0x1D76E, 1); (0x1D790, 0x1D7A8, 1); (0x1D7CA, 0x1D7CA, 1);
   (0x1E900, 0x1E921, 1); (0x1F130, 0x1F149, 1); (0x1F150, 0x1F169, 1);
   (0x1F170, 0x1F189, 1)]%N.

Definition cased_table : list (N * N * N) :=
  [(0x41, 0x5A, 1); (0x61, 0x7A, 1); (0xAA, 0xAA, 1); (0xB5, 0xB5, 1); (0xBA,
   0xBA, 1); (0xC0, 0xD6, 1); (0xD8, 0xF6, 1); (0xF8, 0x1BA, 1); (0x1BC, 0x1BF,
   1); (0x1C4, 0x293, 1); (0x295, 0x2B8, 1); (0x2C0, 0x2C1, 1); (0x2E0, 0x2E4,
   1); (0x345, 0x345, 1); (0x370, 0x373, 1); (0x376, 0x377, 1); (0x37A, 0x37D,
   1); (0x37F, 0x37F, 1); (0x386, 0x388, 2); (0x389, 0x38A, 1); (0x38C, 0x38E,
   2); (0x38F, 0x3A1, 1); (0x3A3, 0x3F5, 1); (0x3F7, 0x481, 1); (0x48A, 0x52F,
   1); (0x531, 0x556, 1); (0x560, 0x588, 1); (0x10A0, 0x10C5, 1); (0x10C7,
   0x10C7, 1); (0x10CD, 0x10CD, 1); (0x10D0, 0x10FA, 1); (0x10FD, 0x10FF, 1);
   (0x13A0, 0x13F5, 1); (0x13F8, 0x13FD, 1); (0x1C80, 0x1C88, 1); (0x1C90,
   0x1CBA, 1); (0x1CBD, 0x1CBF, 1); (0x1D00, 0x1DBF, 1); (0x1E00, 0x1F15, 1);
   (0x1F18, 0x1F1D, 1); (0x1F20, 0x1F45, 1); (0x1F48, 0x1F4D, 1); (0x1F50,
   0x1F57, 1); (0x1F59, 0x1F5F, 2); (0x1F60, 0x1F7D, 1); (0x1F80, 0x1FB4, 1);
   (0x1FB6, 0x1FBC, 1); (0x1FBE, 0x1FBE, 1); (0x1FC2, 0x1FC4, 1); (0x1FC6,
   0x1FCC, 1); (0x1FD0, 0x1FD3, 1); (0x1FD6, 0x1FDB, 1); (0x1FE0, 0x1FEC, 1);
   (0x1FF2, 0x1FF4, 1); (0x1FF6, 0x1FFC, 1); (0x2071, 0x2071, 1); (0x207F,
   0x207F, 1); (0x2090, 0x209C, 1); (0x2102, 0x2102, 1); (0x2107, 0x2107, 1);
   (0x210A, 0x2113, 1); (0x2115, 0x2115, 1); (0x2119, 0x211D, 1); (0x2124,
   0x212A, 2); (0x212B, 0x212D, 1); (0x212F, 0x2134, 1); (0x2139, 0x2139, 1);
   (0x213C, 0x213F, 1); (0x2145, 0x2149, 1); (0x214E, 0x214E, 1); (0x2160,
   0x217F, 1); (0x2183, 0x2184, 1); (0x24B6, 0x24E9, 1); (0x2C00, 0x2CE4, 1);
   (0x2CEB, 0x2CEE, 1); (0x2CF2, 0x2CF3, 1); (0x2D00, 0x2D25, 1); (0x2D27,
   0x2D27, 1); (0x2D2D, 0x2D2D, 1); (0xA640, 0xA66D, 1); (0xA680, 0xA69D, 1);
   (0xA722, 0xA787, 1); (0xA78B, 0xA78E, 1); (0xA790, 0xA7CA, 1); (0xA7D0,
   0xA7D1, 1); (0xA7D3, 0xA7D5, 2); (0xA7D6, 0xA7D9, 1); (0xA7F5, 0xA7F6, 1);
   (0xA7F8, 0xA7FA, 1); (0xAB30, 0xAB5A, 1); (0xAB5C, 0xAB68, 1); (0xAB70,
   0xABBF, 1); (0xFB00, 0xFB06, 1); (0xFB13, 0xFB17, 1); (0xFF21, 0xFF3A, 1);
   (0xFF41, 0xFF5A, 1); (0x10400, 0x1044F, 1); (0x104B0, 0x104D3, 1); (0x104D8,
   0x104FB, 1); (0x10570, 0x1057A, 1); (0x1057C, 0x1058A, 1); (0x1058C,
   0x10592, 1); (0x10594, 0x10595, 1); (0x10597, 0x105A1, 1); (0x105A3,
   0x105B1, 1); (0x105B3, 0x105B9, 1); (0x105BB, 0x105BC, 1); (0x10780,
   0x10780, 1); (0x10783, 0x10785, 1); (0x10787, 0x107B0, 1); (0x107B2,
   0x107BA, 1); (0x10C80, 0x10CB2, 1); (0x10CC0, 0x10CF2, 1); (0x118A0,
   0x118DF, 1); (0x16E40, 0x16E7F, 1); (0x1D400, 0x1D454, 1); (0x1D456,
   0x1D49C, 1); (0x1D49E, 0x1D49F, 1); (0x1D4A2, 0x1D4A2, 1); (0x1D4A5,
   0x1D4A6, 1); (0x1D4A9, 0x1D4AC, 1); (0x1D4AE, 0x1D4B9, 1); (0x1D4BB,
   0x1D4BD, 2); (0x1D4BE, 0x1D4C3, 1); (0x1D4C5, 0x1D505, 1); (0x1D507,
   0x1D50A, 1); (0x1D50D, 0x1D514, 1); (0x1D516, 0x1D51C, 1); (0x1D51E,
   0x1D539, 1); (0x1D53B, 0x1D53E, 1); (0x1D540, 0x1D544, 1); (0x1D546,
   0x1D546, 1); (0x1D54A, 0x1D550, 1); (0x1D552, 0x1D6A5, 1); (0x1D6A8,
   0x1D6C0, 1); (0x1D6C2, 0x1D6DA, 1); (0x1D6DC, 0x1D6FA, 1); (0x1D6FC,
   0x1D714, 1); (0x1D716, 0x1D734, 1); (0x1D736, 0x1D74E, 1); (0x1D750,
   0x1D76E, 1); (0x1D770, 0x1D788, 1); (0x1D78A, 0x1D7A8, 1); (0x1D7AA,
   0x1D7C2, 1); (0x1D7C4, 0x1D7CB, 1); (0x1DF00, 0x1DF09, 1); (0x1DF0B,
   0x1DF1E, 1); (0x1E900, 0x1E943, 1); (0x1F130, 0x1F149, 1); (0x1F150,
   0x1F169, 1); (0x1F170, 0x1F189, 1)]%N.

Definition case_ignorable_table : list (N * N * N) :=
  [(0x27, 0x27, 1); (0x2E, 0x2E, 1); (0x3A, 0x3A, 1); (0x5E, 0x60, 2); (0xA8,
   0xA8, 1); (0xAD, 0xAF, 2); (0xB4, 0xB4, 1); (0xB7, 0xB8, 1); (0x2B0, 0x36F,
   1); (0x374, 0x375, 1); (0x37A, 0x37A, 1); (0x384, 0x385, 1); (0x387, 0x387,
   1); (0x483, 0x489, 1); (0x559, 0x559, 1); (0x55F, 0x55F, 1); (0x591, 0x5BD,
   1); (0x5BF, 0x5C1, 2); (0x5C2, 0x5C4, 2); (0x5C5, 0x5C7, 2); (0x5F4, 0x5F4,
   1); (0x600, 0x605, 1); (0x610, 0x61A, 1); (0x61C, 0x61C, 1); (0x640, 0x640,
   1); (0x64B, 0x65F, 1); (0x670, 0x670, 1); (0x6D6, 0x6DD, 1); (0x6DF, 0x6E8,
   1); (0x6EA, 0x6ED, 1); (0x70F, 0x711, 2); (0x730, 0x74A, 1); (0x7A6, 0x7B0,
   1); (0x7EB, 0x7F5, 1); (0x7FA, 0x7FA, 1); (0x7FD, 0x7FD, 1); (0x816, 0x82D,
   1); (0x859, 0x85B, 1); (0x888, 0x888, 1); (0x890, 0x891, 1); (0x898, 0x89F,
   1); (0x8C9, 0x902, 1); (0x93A, 0x93C, 2); (0x941, 0x948, 1); (0x94D, 0x94D,
   1); (0x951, 0x957, 1); (0x962, 0x963, 1); (0x971, 0x971, 1); (0x981, 0x981,
   1); (0x9BC, 0x9BC, 1); (0x9C1, 0x9C4, 1); (0x9CD, 0x9CD, 1); (0x9E2, 0x9E3,
   1); (0x9FE, 0x9FE, 1); (0xA01, 0xA02, 1); (0xA3C, 0xA3C, 1); (0xA41, 0xA42,
   1); (0xA47, 0xA48, 1); (0xA4B, 0xA4D, 1); (0xA51, 0xA51, 1); (0xA70, 0xA71,
   1); (0xA75, 0xA75, 1); (0xA81, 0xA82, 1); (0xABC, 0xABC, 1); (0xAC1, 0xAC5,
   1); (0xAC7, 0xAC8, 1); (0xACD, 0xACD, 1); (0xAE2, 0xAE3, 1); (0xAFA, 0xAFF,
   1); (0xB01, 0xB01, 1); (0xB3C, 0xB3C, 1); (0xB3F, 0xB41, 2); (0xB42, 0xB44,
   1); (0xB4D, 0xB4D, 1); (0xB55, 0xB56, 1); (0xB62, 0xB63, 1); (0xB82, 0xB82,
   1); (0xBC0, 0xBC0, 1); (0xBCD, 0xBCD, 1); (0xC00, 0xC00, 1); (0xC04, 0xC04,
   1); (0xC3C, 0xC3E, 2); (0xC3F, 0xC40, 1); (0xC46, 0xC48, 1); (0xC4A, 0xC4D,
   1); (0xC55, 0xC56, 1); (0xC62, 0xC63, 1); (0xC81, 0xC81, 1); (0xCBC, 0xCBC,
   1); (0xCBF, 0xCBF, 1); (0xCC6, 0xCC6, 1); (0xCCC, 0xCCD, 1); (0xCE2, 0xCE3,
   1); (0xD00, 0xD01, 1); (0xD3B, 0xD3C, 1); (0xD41, 0xD44, 1); (0xD4D, 0xD4D,
   1); (0xD62, 0xD63, 1); (0xD81, 0xD81, 1); (0xDCA, 0xDCA, 1); (0xDD2, 0xDD4,
   1); (0xDD6, 0xDD6, 1); (0xE31, 0xE31, 1); (0xE34, 0xE3A, 1); (0xE46, 0xE4E,
   1); (0xEB1, 0xEB1, 1); (0xEB4, 0xEBC, 1); (0xEC6, 0xEC8, 2); (0xEC9, 0xECD,
   1); (0xF18, 0xF19, 1); (0xF35, 0xF39, 2); (0xF71, 0xF7E, 1); (0xF80, 0xF84,
   1); (0xF86, 0xF87, 1); (0xF8D, 0xF97, 1); (0xF99, 0xFBC, 1); (0xFC6, 0xFC6,
   1); (0x102D, 0x1030, 1); (0x1032, 0x1037, 1); (0x1039, 0x103A, 1); (0x103D,
   0x103E, 1); (0x1058, 0x1059, 1); (0x105E, 0x1060, 1); (0x1071, 0x1074, 1);
   (0x1082, 0x1082, 1); (0x1085, 0x1086, 1); (0x108D, 0x108D, 1); (0x109D,
   0x109D, 1); (0x10FC, 0x10FC, 1); (0x135D, 0x135F, 1); (0x1712, 0x1714, 1);
   (0x1732, 0x1733, 1); (0x1752, 0x1753, 1); (0x1772, 0x1773, 1); (0x17B4,
   0x17B5, 1); (0x17B7, 0x17BD, 1); (0x17C6, 0x17C6, 1); (0x17C9, 0x17D3, 1);
   (0x17D7, 0x17D7, 1); (0x17DD, 0x17DD, 1); (0x180B, 0x180F, 1); (0x1843,
   0x1843, 1); (0x1885, 0x1886, 1); (0x18A9, 0x18A9, 1); (0x1920, 0x1922, 1);
   (0x1927, 0x1928, 1); (0x1932, 0x1932, 1); (0x1939, 0x193B, 1); (0x1A17,
   0x1A18, 1); (0x1A1B, 0x1A1B, 1); (0x1A56, 0x1A58, 2); (0x1A59, 0x1A5E, 1);
   (0x1A60, 0x1A62, 2); (0x1A65, 0x1A6C, 1); (0x1A73, 0x1A7C, 1); (0x1A7F,
   0x1A7F, 1); (0x1AA7, 0x1AA7, 1); (0x1AB0, 0x1ACE, 1); (0x1B00, 0x1B03, 1);
   (0x1B34, 0x1B36, 2); (0x1B37, 0x1B3A, 1); (0x1B3C, 0x1B3C, 1); (0x1B42,
   0x1B42, 1); (0x1B6B, 0x1B73, 1); (0x1B80, 0x1B81, 1); (0x1BA2, 0x1BA5, 1);
   (0x1BA8, 0x1BA9, 1); (0x1BAB, 0x1BAD, 1); (0x1BE6, 0x1BE8, 2); (0x1BE9,
   0x1BE9, 1); (0x1BED, 0x1BEF, 2); (0x1BF0, 0x1BF1, 1); (0x1C2C, 0x1C33, 1);
   (0x1C36, 0x1C37, 1); (0x1C78, 0x1C7D, 1); (0x1CD0, 0x1CD2, 1); (0x1CD4,
   0x1CE0, 1); (0x1CE2, 0x1CE8, 1); (0x1CED, 0x1CED, 1); (0x1CF4, 0x1CF4, 1);
   (0x1CF8, 0x1CF9, 1); (0x1D2C, 0x1D6A, 1); (0x1D78, 0x1D78, 1); (0x1D9B,
   0x1DFF, 1); (0x1FBD, 0x1FBF, 2); (0x1FC0, 0x1FC1, 1); (0x1FCD, 0x1FCF, 1);
   (0x1FDD, 0x1FDF, 1); (0x1FED, 0x1FEF, 1); (0x1FFD, 0x1FFE, 1); (0x200B,
   0x200F, 1); (0x2018, 0x2019, 1); (0x2024, 0x2024, 1); (0x2027, 0x2027, 1);
   (0x202A, 0x202E, 1); (0x2060, 0x2064, 1); (0x2066, 0x206F, 1); (0x2071,
   0x2071, 1); (0x207F, 0x207F, 1); (0x2090, 0x209C, 1); (0x20D0, 0x20F0, 1);
   (0x2C7C, 0x2C7D, 1); (0x2CEF, 0x2CF1, 1); (0x2D6F, 0x2D6F, 1); (0x2D7F,
   0x2D7F, 1); (0x2DE0, 0x2DFF, 1); (0x2E2F, 0x2E2F, 1); (0x3005, 0x3005, 1);
   (0x302A, 0x302D, 1); (0x3031, 0x3035, 1); (0x303B, 0x303B, 1); (0x3099,
   0x309E, 1); (0x30FC, 0x30FE, 1); (0xA015, 0xA015, 1); (0xA4F8, 0xA4FD, 1);
   (0xA60C, 0xA60C, 1); (0xA66F, 0xA672, 1); (0xA674, 0xA67D, 1); (0xA67F,
   0xA67F, 1); (0xA69C, 0xA69F, 1); (0xA6F0, 0xA6F1, 1); (0xA700, 0xA721, 1);
   (0xA770, 0xA770, 1); (0xA788, 0xA78A, 1); (0xA7F2, 0xA7F4, 1); (0xA7F8,
   0xA7F9, 1); (0xA802, 0xA802, 1); (0xA806, 0xA806, 1); (0xA80B, 0xA80B, 1);
   (0xA825, 0xA826, 1); (0xA82C, 0xA82C, 1); (0xA8C4, 0xA8C5, 1); (0xA8E0,
   0xA8F1, 1); (0xA8FF, 0xA8FF, 1); (0xA926, 0xA92D, 1); (0xA947, 0xA951, 1);
   (0xA980, 0xA982, 1); (0xA9B3, 0xA9B3, 1); (0xA9B6, 0xA9B9, 1); (0xA9BC,
   0xA9BD, 1); (0xA9CF, 0xA9CF, 1); (0xA9E5, 0xA9E6, 1); (0xAA29, 0xAA2E, 1);
   (0xAA31, 0xAA32, 1); (0xAA35, 0xAA36, 1); (0xAA43, 0xAA43, 1); (0xAA4C,
   0xAA4C, 1); (0xAA70, 0xAA70, 1); (0xAA7C, 0xAA7C, 1); (0xAAB0, 0xAAB2, 2);
   (0xAAB3, 0xAAB4, 1); (0xAAB7, 0xAAB8, 1); (0xAABE, 0xAABF, 1); (0xAAC1,
   0xAAC1, 1); (0xAADD, 0xAADD, 1); (0xAAEC, 0xAAED, 1); (0xAAF3, 0xAAF4, 1);
   (0xAAF6, 0xAAF6, 1); (0xAB5B, 0xAB5F, 1); (0xAB69, 0xAB6B, 1); (0xABE5,
   0xABE5, 1); (0xABE8, 0xABE8, 1); (0xABED, 0xABED, 1); (0xFB1E, 0xFB1E, 1);
   (0xFBB2, 0xFBC2, 1); (0xFE00, 0xFE0F, 1); (0xFE13, 0xFE13, 1); (0xFE20,
   0xFE2F, 1); (0xFE52, 0xFE52, 1); (0xFE55, 0xFE55, 1); (0xFEFF, 0xFEFF, 1);
   (0xFF07, 0xFF07, 1); (0xFF0E, 0xFF0E, 1); (0xFF1A, 0xFF1A, 1); (0xFF3E,
   0xFF40, 2); (0xFF70, 0xFF70, 1); (0xFF9E, 0xFF9F, 1); (0xFFE3, 0xFFE3, 1);
   (0xFFF9, 0xFFFB, 1); (0x101FD, 0x101FD, 1); (0x102E0, 0x102E0, 1); (0x10376,
   0x1037A, 1); (0x10780, 0x10785, 1); (0x10787, 0x107B0, 1); (0x107B2,
   0x107BA, 1); (0x10A01, 0x10A03, 1); (0x10A05, 0x10A06, 1); (0x10A0C,
   0x10A0F, 1); (0x10A38, 0x10A3A, 1); (0x10A3F, 0x10A3F, 1); (0x10AE5,
   0x10AE6, 1); (0x10D24, 0x10D27, 1); (0x10EAB, 0x10EAC, 1); (0x10F46,
   0x10F50, 1); (0x10F82, 0x10F85, 1); (0x11001, 0x11001, 1); (0x11038,
   0x11046, 1); (0x11070, 0x11070, 1); (0x11073, 0x11074, 1); (0x1107F,
   0x11081, 1); (0x110B3, 0x110B6, 1); (0x110B9, 0x110BA, 1); (0x110BD,
   0x110BD, 1); (0x110C2, 0x110C2, 1); (0x110CD, 0x110CD, 1); (0x11100,
   0x11102, 1); (0x11127, 0x1112B, 1); (0x1112D, 0x11134, 1); (0x11173,
   0x11173, 1); (0x11180, 0x11181, 1); (0x111B6, 0x111BE, 1); (0x111C9,
   0x111CC, 1); (0x111CF, 0x111CF, 1); (0x1122F, 0x11231, 1); (0x11234,
   0x11236, 2); (0x11237, 0x11237, 1); (0x1123E, 0x1123E, 1); (0x112DF,
   0x112DF, 1); (0x112E3, 0x112EA, 1); (0x11300, 0x11301, 1); (0x1133B,
   0x1133C, 1); (0x11340, 0x11340, 1); (0x11366, 0x1136C, 1); (0x11370,
   0x11374, 1); (0x11438, 0x1143F, 1); (0x11442, 0x11444, 1); (0x11446,
   0x11446, 1); (0x1145E, 0x1145E, 1); (0x114B3, 0x114B8, 1); (0x114BA,
   0x114BA, 1); (0x114BF, 0x114C0, 1); (0x114C2, 0x114C3, 1); (0x115B2,
   0x115B5, 1); (0x115BC, 0x115BD, 1); (0x115BF, 0x115C0, 1); (0x115DC,
   0x115DD, 1); (0x11633, 0x1163A, 1); (0x1163D, 0x1163F, 2); (0x11640,
   0x11640, 1); (0x116AB, 0x116AD, 2); (0x116B0, 0x116B5, 1); (0x116B7,
   0x116B7, 1); (0x1171D, 0x1171F, 1); (0x11722, 0x11725, 1); (0x11727,
   0x1172B, 1); (0x1182F, 0x11837, 1); (0x11839, 0x1183A, 1); (0x1193B,
   0x1193C, 1); (0x1193E, 0x1193E, 1); (0x11943, 0x11943, 1); (0x119D4,
   0x119D7, 1); (0x119DA, 0x119DB, 1); (0x119E0, 0x119E0, 1); (0x11A01,
   0x11A0A, 1); (0x11A33, 0x11A38, 1); (0x11A3B, 0x11A3E, 1); (0x11A47,
   0x11A47, 1); (0x11A51, 0x11A56, 1); (0x11A59, 0x11A5B, 1); (0x11A8A,
   0x11A96, 1); (0x11A98, 0x11A99, 1); (0x11C30, 0x11C36, 1); (0x11C38,
   0x11C3D, 1); (0x11C3F, 0x11C3F, 1); (0x11C92, 0x11CA7, 1); (0x11CAA,
   0x11CB0, 1); (0x11CB2, 0x11CB3, 1); (0x11CB5, 0x11CB6, 1); (0x11D31,
   0x11D36, 1); (0x11D3A, 0x11D3C, 2); (0x11D3D, 0x11D3F, 2); (0x11D40,
   0x11D45, 1); (0x11D47, 0x11D47, 1); (0x11D90, 0x11D91, 1); (0x11D95,
   0x11D97, 2); (0x11EF3, 0x11EF4, 1); (0x13430, 0x13438, 1); (0x16AF0,
   0x16AF4, 1); (0x16B30, 0x16B36, 1); (0x16B40, 0x16B43, 1); (0x16F4F,
   0x16F4F, 1); (0x16F8F, 0x16F9F, 1); (0x16FE0, 0x16FE1, 1); (0x16FE3,
   0x16FE4, 1); (0x1AFF0, 0x1AFF3, 1); (0x1AFF5, 0x1AFFB, 1); (0x1AFFD,
   0x1AFFE, 1); (0x1BC9D, 0x1BC9E, 1); (0x1BCA0, 0x1BCA3, 1); (0x1CF00,
   0x1CF2D, 1); (0x1CF30, 0x1CF46, 1); (0x1D167, 0x1D169, 1); (0x1D173,
   0x1D182, 1); (0x1D185, 0x1D18B, 1); (0x1D1AA, 0x1D1AD, 1); (0x1D242,
   0x1D244, 1); (0x1DA00, 0x1DA36, 1); (0x1DA3B, 0x1DA6C, 1); (0x1DA75,
   0x1DA75, 1); (0x1DA84, 0x1DA84, 1); (0x1DA9B, 0x1DA9F, 1); (0x1DAA1,
   0x1DAAF, 1); (0x1E000, 0x1E006, 1); (0x1E008, 0x1E018, 1); (0x1E01B,
   0x1E021, 1); (0x1E023, 0x1E024, 1); (0x1E026, 0x1E02A, 1); (0x1E130,
   0x1E13D, 1); (0x1E2AE, 0x1E2AE, 1); (0x1E2EC, 0x1E2EF, 1); (0x1E8D0,
   0x1E8D6, 1); (0x1E944, 0x1E94B, 1); (0x1F3FB, 0x1F3FF, 1); (0xE0001,
   0xE0001, 1); (0xE0020, 0xE007F, 1); (0xE0100, 0xE01EF, 1)]%N.

Definition lower_table : list (N * N * N * N) :=
  [(0x41, 0x5A, 1, 0x61); (0xC0, 0xD6, 1, 0xE0); (0xD8, 0xDE, 1, 0xF8); (0x100,
   0x12E, 2, 0x101); (0x132, 0x136, 2, 0x133); (0x139, 0x147, 2, 0x13A);
   (0x14A, 0x176, 2, 0x14B); (0x178, 0x178, 1, 0xFF); (0x179, 0x17D, 2, 0x17A);
   (0x181, 0x181, 1, 0x253); (0x182, 0x184, 2, 0x183); (0x186, 0x186, 1,
   0x254); (0x187, 0x187, 1, 0x188); (0x189, 0x18A, 1, 0x256); (0x18B, 0x18B,
   1, 0x18C); (0x18E, 0x18E, 1, 0x1DD); (0x18F, 0x18F, 1, 0x259); (0x190,
   0x190, 1, 0x25B); (0x191, 0x191, 1, 0x192); (0x193, 0x193, 1, 0x260);
   (0x194, 0x194, 1, 0x263); (0x196, 0x196, 1, 0x269); (0x197, 0x197, 1,
   0x268); (0x198, 0x198, 1, 0x199); (0x19C, 0x19C, 1, 0x26F); (0x19D, 0x19D,
   1, 0x272); (0x19F, 0x19F, 1, 0x275); (0x1A0, 0x1A4, 2, 0x1A1); (0x1A6,
   0x1A6, 1, 0x280); (0x1A7, 0x1A7, 1, 0x1A8); (0x1A9, 0x1A9, 1, 0x283);
   (0x1AC, 0x1AC, 1, 0x1AD); (0x1AE, 0x1AE, 1, 0x288); (0x1AF, 0x1AF, 1,
   0x1B0); (0x1B1, 0x1B2, 1, 0x28A); (0x1B3, 0x1B5, 2, 0x1B4); (0x1B7, 0x1B7,
   1, 0x292); (0x1B8, 0x1B8, 1, 0x1B9); (0x1BC, 0x1BC, 1, 0x1BD); (0x1C4,
   0x1C4, 1, 0x1C6); (0x1C5, 0x1C5, 1, 0x1C6); (0x1C7, 0x1C7, 1, 0x1C9);
   (0x1C8, 0x1C8, 1, 0x1C9); (0x1CA, 0x1CA, 1, 0x1CC); (0x1CB, 0x1DB, 2,
   0x1CC); (0x1DE, 0x1EE, 2, 0x1DF); (0x1F1, 0x1F1, 1, 0x1F3); (0x1F2, 0x1F4,
   2, 0x1F3); (0x1F6, 0x1F6, 1, 0x195); (0x1F7, 0x1F7, 1, 0x1BF); (0x1F8,
   0x21E, 2, 0x1F9); (0x220, 0x220, 1, 0x19E); (0x222, 0x232, 2, 0x223);
   (0x23A, 0x23A, 1, 0x2C65); (0x23B, 0x23B, 1, 0x23C); (0x23D, 0x23D, 1,
   0x19A); (0x23E, 0x23E, 1, 0x2C66); (0x241, 0x241, 1, 0x242); (0x243, 0x243,
   1, 0x180); (0x244, 0x244, 1, 0x289); (0x245, 0x245, 1, 0x28C); (0x246,
   0x24E, 2, 0x247); (0x370, 0x372, 2, 0x371); (0x376, 0x376, 1, 0x377);
   (0x37F, 0x37F, 1, 0x3F3); (0x386, 0x386, 1, 0x3AC); (0x388, 0x38A, 1,
   0x3AD); (0x38C, 0x38C, 1, 0x3CC); (0x38E, 0x38F, 1, 0x3CD); (0x391, 0x3A1,
   1, 0x3B1); (0x3A4, 0x3AB, 1, 0x3C4); (0x3CF, 0x3CF, 1, 0x3D7); (0x3D8,
   0x3EE, 2, 0x3D9); (0x3F4, 0x3F4, 1, 0x3B8); (0x3F7, 0x3F7, 1, 0x3F8);
   (0x3F9, 0x3F9, 1, 0x3F2); (0x3FA, 0x3FA, 1, 0x3FB); (0x3FD, 0x3FF, 1,
   0x37B); (0x400, 0x40F, 1, 0x450); (0x410, 0x42F, 1, 0x430); (0x460, 0x480,
   2, 0x461); (0x48A, 0x4BE, 2, 0x48B); (0x4C0, 0x4C0, 1, 0x4CF); (0x4C1,
   0x4CD, 2, 0x4C2); (0x4D0, 0x52E, 2, 0x4D1); (0x531, 0x556, 1, 0x561);
   (0x10A0, 0x10C5, 1, 0x2D00); (0x10C7, 0x10C7, 1, 0x2D27); (0x10CD, 0x10CD,
   1, 0x2D2D); (0x13A0, 0x13EF, 1, 0xAB70); (0x13F0, 0x13F5, 1, 0x13F8);
   (0x1C90, 0x1CBA, 1, 0x10D0); (0x1CBD, 0x1CBF, 1, 0x10FD); (0x1E00, 0x1E94,
   2, 0x1E01); (0x1E9E, 0x1E9E, 1, 0xDF); (0x1EA0, 0x1EFE, 2, 0x1EA1); (0x1F08,
   0x1F0F, 1, 0x1F00); (0x1F18, 0x1F1D, 1, 0x1F10); (0x1F28, 0x1F2F, 1,
   0x1F20); (0x1F38, 0x1F3F, 1, 0x1F30); (0x1F48, 0x1F4D, 1, 0x1F40); (0x1F59,
   0x1F5F, 2, 0x1F51); (0x1F68, 0x1F6F, 1, 0x1F60); (0x1F88, 0x1F8F, 1,
   0x1F80); (0x1F98, 0x1F9F, 1, 0x1F90); (0x1FA8, 0x1FAF, 1, 0x1FA0); (0x1FB8,
   0x1FB9, 1, 0x1FB0); (0x1FBA, 0x1FBB, 1, 0x1F70); (0x1FBC, 0x1FBC, 1,
   0x1FB3); (0x1FC8, 0x1FCB, 1, 0x1F72); (0x1FCC, 0x1FCC, 1, 0x1FC3); (0x1FD8,
   0x1FD9, 1, 0x1FD0); (0x1FDA, 0x1FDB, 1, 0x1F76); (0x1FE8, 0x1FE9, 1,
   0x1FE0); (0x1FEA, 0x1FEB, 1, 0x1F7A); (0x1FEC, 0x1FEC, 1, 0x1FE5); (0x1FF8,
   0x1FF9, 1, 0x1F78); (0x1FFA, 0x1FFB, 1, 0x1F7C); (0x1FFC, 0x1FFC, 1,
   0x1FF3); (0x2126, 0x2126, 1, 0x3C9); (0x212A, 0x212A, 1, 0x6B); (0x212B,
   0x212B, 1, 0xE5); (0x2132, 0x2132, 1, 0x214E); (0x2160, 0x216F, 1, 0x2170);
   (0x2183, 0x2183, 1, 0x2184); (0x24B6, 0x24CF, 1, 0x24D0); (0x2C00, 0x2C2F,
   1, 0x2C30); (0x2C60, 0x2C60, 1, 0x2C61); (0x2C62, 0x2C62, 1, 0x26B);
   (0x2C63, 0x2C63, 1, 0x1D7D); (0x2C64, 0x2C64, 1, 0x27D); (0x2C67, 0x2C6B, 2,
   0x2C68); (0x2C6D, 0x2C6D, 1, 0x251); (0x2C6E, 0x2C6E, 1, 0x271); (0x2C6F,
   0x2C6F, 1, 0x250); (0x2C70, 0x2C70, 1, 0x252); (0x2C72, 0x2C72, 1, 0x2C73);
   (0x2C75, 0x2C75, 1, 0x2C76); (0x2C7E, 0x2C7F, 1, 0x23F); (0x2C80, 0x2CE2, 2,
   0x2C81); (0x2CEB, 0x2CED, 2, 0x2CEC); (0x2CF2, 0x2CF2, 1, 0x2CF3); (0xA640,
   0xA66C, 2, 0xA641); (0xA680, 0xA69A, 2, 0xA681); (0xA722, 0xA72E, 2,
   0xA723); (0xA732, 0xA76E, 2, 0xA733); (0xA779, 0xA77B, 2, 0xA77A); (0xA77D,
   0xA77D, 1, 0x1D79); (0xA77E, 0xA786, 2, 0xA77F); (0xA78B, 0xA78B, 1,
   0xA78C); (0xA78D, 0xA78D, 1, 0x265); (0xA790, 0xA792, 2, 0xA791); (0xA796,
   0xA7A8, 2, 0xA797); (0xA7AA, 0xA7AA, 1, 0x266); (0xA7AB, 0xA7AB, 1, 0x25C);
   (0xA7AC, 0xA7AC, 1, 0x261); (0xA7AD, 0xA7AD, 1, 0x26C); (0xA7AE, 0xA7AE, 1,
   0x26A); (0xA7B0, 0xA7B0, 1, 0x29E); (0xA7B1, 0xA7B1, 1, 0x287); (0xA7B2,
   0xA7B2, 1, 0x29D); (0xA7B3, 0xA7B3, 1, 0xAB53); (0xA7B4, 0xA7C2, 2, 0xA7B5);
   (0xA7C4, 0xA7C4, 1, 0xA794); (0xA7C5, 0xA7C5, 1, 0x282); (0xA7C6, 0xA7C6, 1,
   0x1D8E); (0xA7C7, 0xA7C9, 2, 0xA7C8); (0xA7D0, 0xA7D0, 1, 0xA7D1); (0xA7D6,
   0xA7D8, 2, 0xA7D7); (0xA7F5, 0xA7F5, 1, 0xA7F6); (0xFF21, 0xFF3A, 1,
   0xFF41); (0x10400, 0x10427, 1, 0x10428); (0x104B0, 0x104D3, 1, 0x104D8);
   (0x10570, 0x1057A, 1, 0x10597); (0x1057C, 0x1058A, 1, 0x105A3); (0x1058C,
   0x10592, 1, 0x105B3); (0x10594, 0x10595, 1, 0x105BB); (0x10C80, 0x10CB2, 1,
   0x10CC0); (0x118A0, 0x118BF, 1, 0x118C0); (0x16E40, 0x16E5F, 1, 0x16E60);
   (0x1E900, 0x1E921, 1, 0x1E922)]%N.

Definition in_run (c : N) (r : N * N * N) : bool :=
  let '(first, last, step) := r in
  if first <=? c then
    if c <=? last then (c - first) mod step =? 0 else false
  else false.

Definition member (c : N) (table : list (N * N * N)) : bool :=
  existsb (in_run c) table.

(** [chr(c).isspace()], which is also what [str.strip] removes. *)
Definition isspace (c : N) : bool := member c space_table.

(** [chr(c).isupper()] *)
Definition isupper (c : N) : bool := member c upper_table.

(** The properties Cased and Case_Ignorable, which the rule of the final
    sigma reads. *)
Definition cased (c : N) : bool := member c cased_table.
Definition case_ignorable (c : N) : bool := member c case_ignorable_table.

Fixpoint lookup_lower (c : N) (table : list (N * N * N * N)) : option N :=
  match table with
  | [] => None
  | (first, last, step, target) :: table' =>
      if in_run c (first, last, step) then Some (target + (c - first))
      else lookup_lower c table'
  end.

(** [chr(c).lower()] for a code point other than the capital sigma: one
    code point, but two for the capital I with a dot above (U+0130). *)
Definition lower_char (c : N) : list N :=
  if c =? 0x130 then [0x69; 0x307]
  else match lookup_lower c lower_table with
       | Some l => [l]
       | None => [c]
       end.

Fixpoint drop_while (p : N -> bool) (s : list N) : list N :=
  match s with
  | [] => []
  | c :: s' => if p c then drop_while p s' else s
  end.

(** The nearest code point that is not case-ignorable is cased. *)
Definition next_is_cased (s : list N) : bool :=
  match drop_while case_ignorable s with
  | c :: _ => cased c
  | [] => false
  end.

(** The capital sigma (U+03A3) becomes the final small sigma after a cased
    letter that no cased letter follows, and the small sigma otherwise;
    [before] is what precedes it, nearest code point first. *)
Definition lower_sigma (before after : list N) : N :=
  if next_is_cased before && negb (next_is_cased after) then 0x3C2
  else 0x3C3.

Fixpoint lower_from (before s : list N) : list N :=
  match s with
  | [] => []
  | c :: s' =>
      ((if c =? 0x3A3 then [lower_sigma before s'] else lower_char c)
       ++ lower_from (c :: before) s')%list
  end.

(** [s.lower()] *)
Definition lower (s : list N) : list N := lower_from [] s.

(** [s.strip()] *)
Definition strip (s : list N) : list N :=
  rev (drop_while isspace (rev (drop_while isspace s))).

(** [s[n:]] *)
Definition slice_from (n : nat) (s : list N) : list N := drop n s.

(** [s.startswith(p)] *)
Fixpoint startswith (p s : list N) : bool :=
  match p, s with
  | [], _ => true
  | a :: p', b :: s' => (a =? b) && startswith p' s'
  | _ :: _, [] => false
  end.

Definition has_upper (s : list N) : bool := existsb isupper s.

(** The code points of a string of the Latin-1 embedding. *)
Definition of_str (s : string) : list N := map N_of_ascii (PyStr.chars s).

(** The code points of a run, and the checks that go through a whole
    table. *)
Fixpoint run_members (first step : N) (n : nat) : list N :=
  match n with
  | O => []
  | S n' => first :: run_members (first + step) step n'
  end.

Definition members (r : N * N * N) : list N :=
  let '(first, last, step) := r in
  run_members first step (S (N.to_nat ((last - first) / step))).

Definition table_all (p : N -> bool) (table : list (N * N * N)) : bool :=
  forallb (fun r => let '(_, _, step) := r in
                    negb (step =? 0) && forallb p (members r)) table.

Definition lower_table_all (p : N -> N -> bool)
    (table : list (N * N * N * N)) : bool :=
  forallb (fun r => let '(first, last, step, target) := r in
                    negb (step =? 0)
                    && forallb (fun c => p c (target + (c - first)))
                         (members (first, last, step))) table.

(** A code point that the rule of the final sigma stops at and does not
    count as a letter. *)
Definition inert (c : N) : bool := negb (case_ignorable c) && negb (cased c).

(** [s.rstrip()] *)
Definition rstrip (s : list N) : list N := rev (drop_while isspace (rev s)).

(** What follows a sigma is inert at its head, or is nothing. *)
Definition tail_inert (t : list N) : Prop :=
  match t with
  | [] => True
  | w :: _ => inert w = true
  end.

(** The last code point, if there is one, is no white space. *)
Definition ends_nonspace (s : list N) : Prop :=
  match last s with
  | Some c => isspace c = false
  | None => True
  end.

(** A code point that is the lower case of one code point only when it is
    the whole lower case of it: not the first half of the lower case of
    U+0130, and no small sigma. *)
Definition plain (w : N) : Prop := w <> 0x69 /\ w <> 0x3C2 /\ w <> 0x3C3.

End Unicode.

(** ** Python floats *)

Module PyFloat.

(** [float(z)], exact for the integers of magnitude below 2^53 that the
    program converts (remainders modulo 365, 16 and 100, counts of
    shots). *)
Definition of_int (z : Z) : float :=
  if z <? 0 then PrimFloat.opp (PrimFloat.of_uint63 (Uint63.of_Z (- z)))
  else PrimFloat.of_uint63 (Uint63.of_Z z).

(** [a / b] on two ints: the true quotient rounded once, which for such
    small operands is the float division of the converted operands. *)
Definition int_truediv (a b : Z) : float :=
  PrimFloat.div (of_int a) (of_int b).

(** [np.pi] *)
Definition pi : float := 0x1.921fb54442d18p+1%float.

End PyFloat.

(** ** Exceptions, printed output and the state of a run *)

Inductive exn : Type :=
| KeyError (key : string)
| ValueError (msg : string)
| IndexError (msg : string)
| TypeError (msg : string)
| ExternalError (msg : string).

(** [str(e)] *)
Definition str_exn (e : exn) : string :=
  match e with
  | KeyError k => "'" ++ k ++ "'"
  | ValueError m | IndexError m | TypeError m | ExternalError m => m
  end.

Inductive result (A : Type) : Type :=
| Ok (a : A)
| Raise (e : exn).
Arguments Ok {A} a.
Arguments Raise {A} e.

(** ** Dates

    A [datetime] is the reading of a clock, in seconds, and the offset of
    that clock from UTC when the datetime is aware of one; a [timedelta] is
    a number of seconds. *)
Record datetime : Type := {
  dt_clock : Z;
  dt_utcoffset : option Z
}.

(** [a - b]: the instants are compared when both datetimes are aware, the
    readings when both are naive; one of each is a [TypeError]. *)
Definition datetime_sub (a b : datetime) : result Z :=
  match dt_utcoffset a, dt_utcoffset b with
  | Some offset_a, Some offset_b =>
      Ok ((dt_clock a - offset_a) - (dt_clock b - offset_b))
  | None, None => Ok (dt_clock a - dt_clock b)
  | _, _ =>
      Raise (TypeError "can't subtract offset-naive and offset-aware datetimes")
  end.

(** [delta.days] *)
Definition timedelta_days (delta : Z) : Z := delta / 86400.

(** One entry of [holding_info] (lines 88-93). *)
Record holding : Type := {
  token_account : string;
  mint_address : string;
  holding_duration_days : Z;
  acquisition_date : string
}.

(** The two dicts [get_token_holding_duration] returns: the one with the
    key ["error"], and the one with ["wallet_address"] and ["holdings"]. *)
Inductive holding_info : Type :=
| HoldingError (error : string)
| Holdings (wallet_address : string) (holdings : list holding).

(** The dict [calculate_rewards] returns (lines 135-142). *)
Record rewards : Type := {
  r_tier : string;
  r_base_multiplier : float;
  r_quantum_boost : float;
  r_final_multiplier : float;
  r_holding_days : Z;
  r_quantum_seed : Z
}.

(** Values stored in the dict [analyze_holding_pattern] returns. *)
Inductive pyval : Type :=
| PyStrV (s : string)
| PyFloatV (f : float).

(** What a run writes to standard output, one item per [print] (the
    holding and reward blocks of lines 170-173 and 176-180 are one item
    each), and a mark for each entry into [analyze_holding_pattern]. *)
Inductive output : Type :=
| Line (s : string)
| ScheduledCheckHeader
| AnalysisLine (v : pyval)
| ConfidenceLine (v : pyval)
| HoldingLines (h : holding)
| RewardLines (r : rewards)
| EnterAnalyze (wallet_data : holding_info).

(** ** The external collaborators

    A quantum circuit is its qubits, its classical registers (their sizes,
    in the order in which they were added) and the list of the gates the
    program appends to it. *)

Inductive gate : Type :=
| H (q : nat)
| X (q : nat)
| CX (control target : nat)
| RX (theta : float) (q : nat)
| RY (phi : float) (q : nat)
| Measure (q c : nat)
| Barrier.

Record circuit : Type := {
  num_qubits : nat;
  cregs : list nat;
  gates : list gate
}.

Definition num_clbits (qc : circuit) : nat := foldr Nat.add 0%nat (cregs qc).

(** [QuantumCircuit(n, m)]: one classical register of [m] bits. *)
Definition QuantumCircuit (n m : nat) : circuit :=
  {| num_qubits := n; cregs := [m]; gates := [] |}.

(** [qc.h(i)], [qc.cx(i, j)], [qc.measure(q, c)] and the like. *)
Definition append (qc : circuit) (gs : list gate) : circuit :=
  {| num_qubits := num_qubits qc; cregs := cregs qc; gates := gates qc ++ gs |}.

(** [qc.measure_all()]: a new classical register with one bit per qubit is
    added to the circuit, behind the registers it has, and after a barrier
    each qubit is measured into its bit of that register. *)
Definition measure_all (qc : circuit) : circuit :=
  {| num_qubits := num_qubits qc;
     cregs := cregs qc ++ [num_qubits qc];
     gates := gates qc ++ Barrier
                :: map (fun q => Measure q (num_clbits qc + q))
                     (seq 0 (num_qubits qc)) |}.

(** [result.get_counts(qc)]: a dict from outcome strings to numbers of
    shots, in insertion order. *)
Definition counts : Type := list (string * Z).

(** [account_info['result']['value']]: the owner of the account and the
    mint recorded in its parsed data. *)
Record account_value : Type := {
  av_owner : string;
  av_mint : string
}.

(** The content of the one message [analyze_holding_pattern] sends: the
    wallet, the number of holdings and their durations (lines 85-89). *)
Record prompt : Type := {
  p_wallet : string;
  p_total : nat;
  p_durations : list Z
}.

(** Every operation takes the world and returns the next one, with either
    the message of the exception it raised or its value. *)
Record Services (World : Type) : Type := {
  (** [client.get_token_accounts_by_owner]: the pubkeys of the accounts *)
  get_token_accounts_by_owner : string -> World -> (string + list string) * World;
  (** [client.get_account_info]: [None] when the value is empty *)
  get_account_info : string -> World -> (string + option account_value) * World;
  (** [client.get_signature_for_address]: the block times, latest first *)
  get_signature_for_address : string -> World -> (string + list Z) * World;
  (** line 84, inside [datetime.fromtimestamp]: the reading of the local
      clock at a time stamp; raises out of the range of the platform *)
  localtime : Z -> World -> (string + Z) * World;
  (** line 92, [acquisition_time.isoformat()], from the reading *)
  isoformat : Z -> string;
  (** [execute(qc, backend, shots).result().get_counts(qc)] *)
  execute : circuit -> Z -> World -> (string + counts) * World;
  (** [anthropic.messages.create(...)], awaited: the message content *)
  messages_create : prompt -> World -> (string + string) * World
}.
Arguments get_token_accounts_by_owner {World}.
Arguments get_account_info {World}.
Arguments get_signature_for_address {World}.
Arguments localtime {World}.
Arguments isoformat {World}.
Arguments execute {World}.
Arguments messages_create {World}.

(** ** The state of a run and the monad of the program *)

Record state (World : Type) : Type := mkState {
  wallets_to_track : gset string;
  world : World;
  stdout : list output
}.
Arguments mkState {World}.
Arguments wallets_to_track {World}.
Arguments world {World}.
Arguments stdout {World}.

Definition M (World A : Type) : Type :=
  state World -> result A * state World.

Definition ret {World A} (a : A) : M World A := fun st => (Ok a, st).

Definition bind {World A B} (m : M World A) (k : A -> M World B) : M World B :=
  fun st =>
    match m st with
    | (Ok a, st') => k a st'
    | (Raise e, st') => (Raise e, st')
    end.

Definition raise {World A} (e : exn) : M World A := fun st => (Raise e, st).

(** [try: body except Exception as e: handler(e)] *)
Definition try_except {World A} (body : M World A) (handler : exn -> M World A)
  : M World A :=
  fun st =>
    match body st with
    | (Ok a, st') => (Ok a, st')
    | (Raise e, st') => handler e st'
    end.

(** [print(...)] *)
Definition print {World} (o : output) : M World unit :=
  fun st => (Ok tt, mkState (wallets_to_track st) (world st) (stdout st ++ [o])).

(** A call to an external operation; what it raises is an [ExternalError]. *)
Definition call {World A} (op : World -> (string + A) * World) : M World A :=
  fun st =>
    match op (world st) with
    | (inr a, w) => (Ok a, mkState (wallets_to_track st) w (stdout st))
    | (inl msg, w) =>
        (Raise (ExternalError msg), mkState (wallets_to_track st) w (stdout st))
    end.

(** Reading and updating [self.wallets_to_track]. *)
Definition get_wallets {World} : M World (gset string) :=
  fun st => (Ok (wallets_to_track st), st).

Definition update_wallets {World} (f : gset string -> gset string) : M World unit :=
  fun st => (Ok tt, mkState (f (wallets_to_track st)) (world st) (stdout st)).

#[global] Instance M_ret {World} : MRet (M World) := fun A a => ret a.
#[global] Instance M_bind {World} : MBind (M World) := fun A B k m => bind m k.

(** [for x in xs: body(x)] *)
Fixpoint for_each {World A} (body : A -> M World unit) (xs : list A)
  : M World unit :=
  match xs with
  | [] => ret tt
  | x :: xs' => body x;; for_each body xs'
  end.

(** ** [quantum_ai_utils.py] *)

(** [int(s, 2)].  White space around the literal is dropped; a sign and the
    prefix [0b] or [0B], with one underscore after it, may come first; then
    come binary digits, with single underscores between them.  Anything else
    is a [ValueError], whose message quotes the string (as [repr] does for a
    string of digits, letters and blanks). *)
Fixpoint int_base2_digits (acc : Z) (after_digit : bool) (l : list ascii)
  : option Z :=
  match l with
  | [] => if after_digit then Some acc else None
  | c :: l' =>
      if Ascii.eqb c "0"%char then int_base2_digits (2 * acc) true l'
      else if Ascii.eqb c "1"%char then int_base2_digits (2 * acc + 1) true l'
      else if Ascii.eqb c "_"%char
      then (if after_digit then int_base2_digits acc false l' else None)
      else None
  end.

Definition int_base2_sign (l : list ascii) : bool * list ascii :=
  match l with
  | c :: l' =>
      if Ascii.eqb c "-"%char then (true, l')
      else if Ascii.eqb c "+"%char then (false, l')
      else (false, l)
  | [] => (false, l)
  end.

Definition int_base2_prefix (l : list ascii) : list ascii :=
  match l with
  | z :: b :: l' =>
      if Ascii.eqb z "0"%char && (Ascii.eqb b "b"%char || Ascii.eqb b "B"%char)
      then match l' with
           | u :: l'' => if Ascii.eqb u "_"%char then l'' else l'
           | [] => l'
           end
      else l
  | _ => l
  end.

Definition int_base2_value (s : string) : option Z :=
  let '(negative, l) := int_base2_sign (PyStr.strip_chars (PyStr.chars s)) in
  match int_base2_digits 0 false (int_base2_prefix l) with
  | Some z => Some (if negative then - z else z)
  | None => None
  end.

Definition int_base2 (s : string) : result Z :=
  match int_base2_value s with
  | Some z => Ok z
  | None =>
      Raise (ValueError ("invalid literal for int() with base 2: '" ++ s ++ "'"))
  end.

(** [counts.get(key, default)] *)
Fixpoint counts_get (c : counts) (key : string) (default : Z) : Z :=
  match c with
  | [] => default
  | (k, v) :: c' => if String.eqb k key then v else counts_get c' key default
  end.

Module QuantumAIUtils.

(** Lines 17-32: the circuit built from the first four characters. *)
Definition seed_gate (i : nat) (char : ascii) : gate :=
  if PyStr.ord char mod 2 =? 0 then H i else X i.

Definition seed_circuit (wallet_address : string) : circuit :=
  let qc := QuantumCircuit 4 4 in
  let qc := append qc (imap seed_gate (take 4 (PyStr.chars wallet_address))) in
  let qc := append qc [CX 0 1; CX 1 2; CX 2 3] in
  measure_all qc.

(** Lines 48-63: the circuit of the boost. *)
Definition boost_circuit (holding_days quantum_seed : Z) : circuit :=
  let theta :=
    PrimFloat.div
      (PrimFloat.mul PyFloat.pi (PyFloat.of_int (holding_days mod 365)))
      (PyFloat.of_int 365) in
  let phi :=
    PrimFloat.div
      (PrimFloat.mul PyFloat.pi (PyFloat.of_int (quantum_seed mod 16)))
      (PyFloat.of_int 16) in
  append (QuantumCircuit 3 1)
    [RX theta 0; RY phi 1; CX 0 2; CX 1 2; Measure 2 0].

(** Lines 71-74: the boost read off the counts. *)
Definition boost_of_counts (c : counts) : float :=
  let prob_one := PyFloat.int_truediv (counts_get c "1" 0) 100 in
  PrimFloat.add 1%float (PrimFloat.mul 0.5%float prob_one).

Section WithServices.
Context {World : Type} (svc : Services World).

Definition generate_quantum_seed (wallet_address : string) : M World Z :=
  c ← call (execute svc (seed_circuit wallet_address) 1);
  match c with
  | [] => raise (IndexError "list index out of range")
  | (binary_result, _) :: _ =>
      match int_base2 binary_result with
      | Ok z => mret z
      | Raise e => raise e
      end
  end.

Definition quantum_boost_multiplier (holding_days quantum_seed : Z)
  : M World float :=
  c ← call (execute svc (boost_circuit holding_days quantum_seed) 100);
  mret (boost_of_counts c).

Definition analyze_holding_pattern (wallet_data : holding_info)
  : M World (gmap string pyval) :=
  print (EnterAnalyze wallet_data);;
  match wallet_data with
  | HoldingError _ | Holdings _ [] =>
      mret {[ "analysis" := PyStrV "No holdings found to analyze." ]}
  | Holdings wallet_address holdings =>
      let holding_description :=
        {| p_wallet := wallet_address;
           p_total := length holdings;
           p_durations := map holding_duration_days holdings |} in
      message ← call (messages_create svc holding_description);
      seed ← generate_quantum_seed wallet_address;
      mret (<[ "quantum_confidence" :=
                 PyFloatV (PyFloat.int_truediv (seed mod 100) 100) ]>
              {[ "analysis" := PyStrV message ]})
  end.

End WithServices.

End QuantumAIUtils.

(** ** [daio_reward_system.py] *)

Module DAIORewardSystem.

Definition deployer_address : string :=
  "GF6AF7pJZnKNeZvLQ8Jwx7j2uSWSNRZMgan3BCbHbVSr".

(** Line 53, [datetime.fromisoformat("2025-01-03T17:17:01-08:00")]: an
    aware datetime, eight hours behind UTC. *)
Definition current_time : datetime :=
  {| dt_clock := 1735924621; dt_utcoffset := Some (-28800) |}.

Definition newline : string := String (ascii_of_nat 10) "".

(** Lines 117-129: tier and base multiplier. *)
Definition base_tier (holding_duration_days : Z) : string * float :=
  if holding_duration_days >=? 365 then ("Diamond", 2%float)
  else if holding_duration_days >=? 180 then ("Gold", 1.5%float)
  else if holding_duration_days >=? 90 then ("Silver", 1.25%float)
  else ("Bronze", 1%float).

Section WithServices.
Context {World : Type} (svc : Services World).

Definition add_wallet_to_track (wallet_address : string) : M World unit :=
  update_wallets (fun s => {[ wallet_address ]} ∪ s);;
  print (Line ("Now tracking wallet: " ++ wallet_address)).

Definition remove_wallet_to_track (wallet_address : string) : M World unit :=
  update_wallets (fun s => s ∖ {[ wallet_address ]});;
  print (Line ("Stopped tracking wallet: " ++ wallet_address)).

(** [datetime.fromtimestamp(t)]: a naive datetime, the reading of the local
    clock. *)
Definition fromtimestamp (t : Z) : M World datetime :=
  clock ← call (localtime svc t);
  mret {| dt_clock := clock; dt_utcoffset := None |}.

(** The result of a pure operation, in the monad. *)
Definition lift_result {A} (r : result A) : M World A :=
  match r with
  | Ok a => mret a
  | Raise e => raise e
  end.

(** Lines 57-93: the loop over the token accounts, [holding_info]
    growing at its end. *)
Fixpoint scan_accounts (accounts : list string) (holding_info : list holding)
  : M World (list holding) :=
  match accounts with
  | [] => mret holding_info
  | account_pubkey :: rest =>
      account_info ← call (get_account_info svc account_pubkey);
      match account_info with
      | None => scan_accounts rest holding_info
      | Some token_data =>
          let mint_address := av_mint token_data in
          mint_info ← call (get_account_info svc mint_address);
          match mint_info with
          | None => scan_accounts rest holding_info
          | Some mint_value =>
              let token_creator := av_owner mint_value in
              if negb (String.eqb token_creator deployer_address)
              then scan_accounts rest holding_info
              else
                history ← call (get_signature_for_address svc account_pubkey);
                match last history with
                | None => scan_accounts rest holding_info
                | Some block_time =>
                    acquisition_time ← fromtimestamp block_time;
                    holding_duration ←
                      lift_result (datetime_sub current_time acquisition_time);
                    scan_accounts rest
                      (holding_info ++
                         [{| token_account := account_pubkey;
                             mint_address := mint_address;
                             holding_duration_days :=
                               timedelta_days holding_duration;
                             acquisition_date :=
                               isoformat svc (dt_clock acquisition_time) |}])
                end
          end
      end
  end.

(** Lines 43-98: the body of the [try]. *)
Definition holding_duration_body (wallet_address : string)
  : M World holding_info :=
  token_accounts ← call (get_token_accounts_by_owner svc wallet_address);
  match token_accounts with
  | [] => mret (HoldingError "No token accounts found for this wallet")
  | _ =>
      holding_info ← scan_accounts token_accounts [];
      mret (Holdings wallet_address holding_info)
  end.

Definition get_token_holding_duration (wallet_address : string)
  : M World holding_info :=
  try_except (holding_duration_body wallet_address)
    (fun e => mret (HoldingError
                      ("Error checking token holding duration: " ++ str_exn e))).

Definition calculate_rewards (holding_duration_days : Z)
    (wallet_address : string) : M World rewards :=
  quantum_seed ← QuantumAIUtils.generate_quantum_seed svc wallet_address;
  let '(tier, base_multiplier) := base_tier holding_duration_days in
  quantum_boost ←
    QuantumAIUtils.quantum_boost_multiplier svc holding_duration_days quantum_seed;
  let final_multiplier := PrimFloat.mul base_multiplier quantum_boost in
  mret {| r_tier := tier;
          r_base_multiplier := base_multiplier;
          r_quantum_boost := quantum_boost;
          r_final_multiplier := final_multiplier;
          r_holding_days := holding_duration_days;
          r_quantum_seed := quantum_seed |}.

(** [d[key]] *)
Definition getitem (d : gmap string pyval) (key : string) : M World pyval :=
  match d !! key with
  | Some v => mret v
  | None => raise (KeyError key)
  end.

(** Lines 169-180: one holding of a wallet. *)
Definition report_holding (wallet : string) (h : holding) : M World unit :=
  print (HoldingLines h);;
  rewards ← calculate_rewards (holding_duration_days h) wallet;
  print (RewardLines rewards).

(** Lines 153-180: the body of the loop over the wallets; [continue] is
    the return of the body. *)
Definition check_wallet (wallet : string) : M World unit :=
  print (Line (newline ++ "Checking wallet: " ++ wallet));;
  holding_info ← get_token_holding_duration wallet;
  match holding_info with
  | HoldingError error => print (Line ("Error: " ++ error))
  | Holdings _ [] =>
      print (Line "No tokens from the DAIO deployer found in this wallet.")
  | Holdings _ holdings =>
      ai_analysis ← QuantumAIUtils.analyze_holding_pattern svc holding_info;
      analysis ← getitem ai_analysis "analysis";
      print (AnalysisLine analysis);;
      quantum_confidence ← getitem ai_analysis "quantum_confidence";
      print (ConfidenceLine quantum_confidence);;
      for_each (report_holding wallet) holdings
  end.

(** The wallets are visited in the order in which the set lists them. *)
Definition check_all_wallets : M World unit :=
  print ScheduledCheckHeader;;
  wallets ← get_wallets;
  match elements wallets with
  | [] => print (Line "No wallets are currently being tracked.")
  | wallets => for_each check_wallet wallets
  end.

(** What one pass of the [while True] loop of [main] decides. *)
Inductive control : Type := Continue | Break.

(** Lines 198-229: one pass of the command loop, on the line that
    [input] returned.  [check_all_wallets] is a coroutine function and
    [main] does not await it: the call of line 218, and the one that
    [schedule.run_pending] makes, build a coroutine whose body never
    runs. *)
Definition main_iteration (line : string) : M World control :=
  try_except
    (let command := PyStr.lower (PyStr.strip line) in
     if String.eqb command "exit" then mret Break
     else if PyStr.startswith "add " command then
       let wallet := PyStr.strip (PyStr.slice_from 4 command) in
       add_wallet_to_track wallet;; mret Continue
     else if PyStr.startswith "remove " command then
       let wallet := PyStr.strip (PyStr.slice_from 7 command) in
       remove_wallet_to_track wallet;; mret Continue
     else if String.eqb command "list" then
       print (Line (newline ++ "Tracked wallets:"));;
       wallets ← get_wallets;
       for_each (fun wallet => print (Line wallet)) (elements wallets);;
       mret Continue
     else if String.eqb command "check" then mret Continue
     else print (Line "Invalid command. Please try again.");; mret Continue)
    (fun e => print (Line ("Error: " ++ str_exn e));; mret Continue).

End WithServices.

End DAIORewardSystem.

(** ** The outcomes a circuit can be measured in

    The simulator is external; what it can report is fixed by the gates.
    On a basis state, [X] flips its qubit and [CX] flips the target when the
    control is set; [H] on a qubit that is 0 or 1 leaves both values
    possible, and so may a rotation; a measurement copies its qubit into its
    classical bit.  A set of basis states is carried through the gates, with
    the classical bits: it contains every outcome of positive probability,
    and is exactly that set when each [H] is the first gate on its qubit,
    as in the seed circuit. *)

Module Outcomes.

(** The qubits and the classical bits. *)
Definition basis : Type := (list bool * list bool)%type.

Definition gate_step (g : gate) (b : basis) : list basis :=
  let '(qs, cs) := b in
  match g with
  | H q | RX _ q | RY _ q => [(<[q := false]> qs, cs); (<[q := true]> qs, cs)]
  | X q => [(alter negb q qs, cs)]
  | CX c t =>
      match qs !! c with
      | Some true => [(alter negb t qs, cs)]
      | _ => [(qs, cs)]
      end
  | Measure q c =>
      match qs !! q with
      | Some v => [(qs, <[c := v]> cs)]
      | None => [(qs, cs)]
      end
  | Barrier => [(qs, cs)]
  end.

Fixpoint run (gs : list gate) (b : basis) : list basis :=
  match gs with
  | [] => [b]
  | g :: gs' => b' ← gate_step g b; run gs' b'
  end.

(** The digits of one register, its last bit first. *)
Definition digits (bits : list bool) : list ascii :=
  rev (map (fun x : bool => if x then "1" else "0")%char bits).

(** The key of an outcome, as [get_counts] writes it: the registers from the
    last one added to the first, a blank between two of them. *)
Fixpoint key_chars (sizes : list nat) (cs : list bool) : list ascii :=
  match sizes with
  | [] => []
  | [size] => digits (take size cs)
  | size :: sizes' =>
      key_chars sizes' (drop size cs) ++ " "%char :: digits (take size cs)
  end.

Definition key_of (qc : circuit) (b : basis) : string :=
  PyStr.of_chars (key_chars (cregs qc) (snd b)).

Definition possible_keys (qc : circuit) : list string :=
  map (key_of qc)
    (run (gates qc)
       (replicate (num_qubits qc) false, replicate (num_clbits qc) false)).

End Outcomes.

(** ** A concrete world for examples

    The simulator answers from a script, one entry per execution; the RPC
    node knows one token account, minted by the deployer; the language
    model fails for the wallet ["busy"]. *)

Module Demo.

Definition World : Type := list (string + counts).

Definition svc : Services World := {|
  get_token_accounts_by_owner := fun wallet w =>
    if String.eqb wallet "down" then (inl "rpc timeout", w)
    else if String.eqb wallet "empty" then (inr [], w)
    else (inr ["acct1"], w);
  get_account_info := fun pubkey w =>
    if String.eqb pubkey "acct1"
    then (inr (Some {| av_owner := "TokenkegQfeZyiNwAJbNbGKPFXCWuBvf9Ss623VQ5DA";
                       av_mint := "mint1" |}), w)
    else if String.eqb pubkey "mint1"
    then (inr (Some {| av_owner := DAIORewardSystem.deployer_address;
                       av_mint := "" |}), w)
    else (inr None, w);
  get_signature_for_address := fun _ w => (inr [1735000000; 1700000000], w);
  localtime := fun t w => (inr (t - 28800), w);
  isoformat := fun _ => "2023-11-14T22:13:20";
  execute := fun _ _ w =>
    match w with
    | [] => (inl "simulator unavailable", [])
    | answer :: w' => (answer, w')
    end;
  messages_create := fun p w =>
    if String.eqb (p_wallet p) "busy" then (inl "overloaded", w)
    else (inr "A loyal holder.", w)
|}.

(** The same node and clock, with a simulator and a language model that
    always fail. *)
Definition offline_svc : Services World := {|
  get_token_accounts_by_owner := get_token_accounts_by_owner svc;
  get_account_info := get_account_info svc;
  get_signature_for_address := get_signature_for_address svc;
  localtime := localtime svc;
  isoformat := isoformat svc;
  execute := fun _ _ w => (inl "simulator unavailable", w);
  messages_create := fun _ w => (inl "overloaded", w)
|}.

Definition start (wallets : gset string) (script : World) : state World :=
  mkState wallets script [].

(** One reward computation, as scripted: the execution of the seed circuit
    is answered with the key 0101, the key of a circuit with one classical
    register (the seed circuit has two, see [Outcomes]), and 37 of the 100
    shots of the boost circuit measure 1. *)
Definition boost_counts : counts := [("0", 63); ("1", 37)].

Definition reward_script : World := [inr [("0101", 1)]; inr boost_counts].

End Demo.

(** ** A simulator that samples

    The world is the entropy still to be consumed: each execution draws one
    number and reports, for all its shots, the possible outcome of the
    circuit at that index.  The other collaborators are those of [Demo]. *)

Module Sampler.

Definition World : Type := list nat.

Definition sample (c : circuit) (shots : Z) (w : World)
  : (string + counts) * World :=
  match w with
  | [] => (inl "out of entropy", [])
  | i :: w' =>
      let keys := Outcomes.possible_keys c in
      match keys !! (i mod length keys)%nat with
      | Some key => (inr [(key, shots)], w')
      | None => (inl "no outcome", w')
      end
  end.

Definition svc : Services World := {|
  get_token_accounts_by_owner := fun wallet w =>
    (fst (get_token_accounts_by_owner Demo.svc wallet []), w);
  get_account_info := fun pubkey w =>
    (fst (get_account_info Demo.svc pubkey []), w);
  get_signature_for_address := fun pubkey w =>
    (fst (get_signature_for_address Demo.svc pubkey []), w);
  localtime := fun t w => (fst (localtime Demo.svc t []), w);
  isoformat := isoformat Demo.svc;
  execute := sample;
  messages_create := fun p w => (fst (messages_create Demo.svc p []), w)
|}.

Definition start (entropy : World) : state World := mkState ∅ entropy [].

End Sampler.

(** ** Vocabulary of the properties *)

(** A simulator reports only outcomes that its circuit can be measured in. *)
Definition faithful {World} (svc : Services World) : Prop :=
  forall c shots w cs w',
    execute svc c shots w = (inr cs, w') ->
    forall key n, In (key, n) cs -> In key (Outcomes.possible_keys c).

(** The address as it was typed after a command word of [n] characters. *)
Definition typed_address (n : nat) (line : string) : string :=
  PyStr.strip (PyStr.slice_from n (PyStr.strip line)).

(** The two commands that take an address. *)
Inductive address_command : Type := AddCommand | RemoveCommand.

Definition command_word (c : address_command) : string :=
  match c with AddCommand => "add " | RemoveCommand => "remove " end.

Definition command_effect (c : address_command) (address : string)
    (wallets : gset string) : gset string :=
  match c with
  | AddCommand => {[ address ]} ∪ wallets
  | RemoveCommand => wallets ∖ {[ address ]}
  end.

Definition command_message (c : address_command) (address : string) : string :=
  match c with
  | AddCommand => "Now tracking wallet: " ++ address
  | RemoveCommand => "Stopped tracking wallet: " ++ address
  end.

(** Lines 203-212 on a line of code points: the command that takes an
    address, if the line is one, with the wallet it passes to
    [add_wallet_to_track] or to [remove_wallet_to_track]. *)
Definition cli_address (line : list N)
    : option (address_command * list N) :=
  let command := Unicode.lower (Unicode.strip line) in
  if bool_decide (command = Unicode.of_str "exit") then None
  else if Unicode.startswith (Unicode.of_str "add ") command then
    Some (AddCommand, Unicode.strip (Unicode.slice_from 4 command))
  else if Unicode.startswith (Unicode.of_str "remove ") command then
    Some (RemoveCommand, Unicode.strip (Unicode.slice_from 7 command))
  else None.

(** The address of a line of code points as it was typed after a command
    word of [n] characters. *)
Definition typed_code_points (n : nat) (line : list N) : list N :=
  Unicode.strip (Unicode.slice_from n (Unicode.strip line)).

(** A result that is not a [KeyError]. *)
Definition no_key_error {A} (r : result A) : Prop :=
  match r with
  | Raise (KeyError _) => False
  | _ => True
  end.

(** Every entry into [analyze_holding_pattern] recorded in the output was
    made with a dict that has holdings, and at least one. *)
Definition has_holdings (wallet_data : holding_info) : Prop :=
  match wallet_data with
  | Holdings _ (_ :: _) => True
  | _ => False
  end.

Definition analyses_have_holdings (out : list output) : Prop :=
  forall wallet_data, In (EnterAnalyze wallet_data) out -> has_holdings wallet_data.

(** A computation that prints nothing and raises no [KeyError]. *)
Definition silent {World A} (m : M World A) : Prop :=
  forall st r st',
    m st = (r, st') -> stdout st' = stdout st /\ no_key_error r.

(** A computation that raises no [KeyError] and enters the analysis only
    with holdings. *)
Definition safe {World A} (m : M World A) : Prop :=
  forall st r st',
    m st = (r, st') ->
    analyses_have_holdings (stdout st) ->
    analyses_have_holdings (stdout st') /\ no_key_error r.

(** The confidence is at least 0 and less than 1. *)
Definition confidence_in_range (f : float) : bool :=
  PrimFloat.leb 0%float f && PrimFloat.ltb f 1%float.

(** The state after [print(o)]. *)
Definition printed {World} (st : state World) (o : output) : state World :=
  mkState (wallets_to_track st) (world st) (stdout st ++ [o]).

(** Only [X] gates are applied: none of the first four characters has an
    even code point. *)
Definition odd_prefix (wallet : string) : Prop :=
  Forall (fun c => PyStr.ord c mod 2 <> 0) (take 4 (PyStr.chars wallet)).

(** The boost as a function of the number of shots that measured 1. *)
Definition boost_of_count (n : Z) : float :=
  PrimFloat.add 1%float (PrimFloat.mul 0.5%float (PyFloat.int_truediv n 100)).

Definition in_boost_range (v : float) : bool :=
  PrimFloat.leb 1%float v && PrimFloat.leb v 1.5%float.


(** The result is a [ValueError]. *)
Definition is_value_error {A} (r : result A) : bool :=
  match r with
  | Raise (ValueError _) => true
  | _ => false
  end.



(** ** A node without tokens of the deployer

    The collaborators of [Demo], but every account the node knows is owned
    by the system program, mints included. *)

Module Stranger.

Definition svc : Services Demo.World := {|
  get_token_accounts_by_owner := get_token_accounts_by_owner Demo.svc;
  get_account_info := fun _ w =>
    (inr (Some {| av_owner := "11111111111111111111111111111111";
                  av_mint := "mint9" |}), w);
  get_signature_for_address := get_signature_for_address Demo.svc;
  localtime := localtime Demo.svc;
  isoformat := isoformat Demo.svc;
  execute := execute Demo.svc;
  messages_create := messages_create Demo.svc
|}.

End Stranger.

(** ** Vocabulary of the further properties *)

(** A computation that touches the world only: the tracked wallets and the
    output are after it what they were before. *)
Definition world_only {World A} (m : M World A) : Prop :=
  forall st r st',
    m st = (r, st') ->
    wallets_to_track st' = wallets_to_track st /\ stdout st' = stdout st.

(** A computation that keeps the tracked wallets and only adds to the
    output. *)
Definition extends_output {World A} (m : M World A) : Prop :=
  forall st r st',
    m st = (r, st') ->
    wallets_to_track st' = wallets_to_track st /\
    exists out : list output, stdout st' = (stdout st ++ out)%list.

(** Two records of collaborators with the same RPC node and the same local
    clock; the simulators and the language models may differ. *)
Definition same_lookup {World} (svc svc' : Services World) : Prop :=
  (forall wallet w,
      get_token_accounts_by_owner svc wallet w
      = get_token_accounts_by_owner svc' wallet w) /\
  (forall pubkey w, get_account_info svc pubkey w = get_account_info svc' pubkey w) /\
  (forall pubkey w,
      get_signature_for_address svc pubkey w
      = get_signature_for_address svc' pubkey w) /\
  (forall t w, localtime svc t w = localtime svc' t w).

(** No account the node describes is owned by the deployer. *)
Definition no_deployer_mint {World} (svc : Services World) : Prop :=
  forall pubkey w value w',
    get_account_info svc pubkey w = (inr (Some value), w') ->
    av_owner value <> DAIORewardSystem.deployer_address.

(** The angle [np.pi * m / d] of a rotation lies in [0, pi). *)
Definition angle_of (m d : Z) : float :=
  PrimFloat.div (PrimFloat.mul PyFloat.pi (PyFloat.of_int m)) (PyFloat.of_int d).

Definition angle_in_range (d m : Z) : bool :=
  PrimFloat.leb 0%float (angle_of m d) && PrimFloat.ltb (angle_of m d) PyFloat.pi.

(** The boost does not decrease from [n1] to [n2] shots that measured 1. *)
Definition boost_pair_ordered (n1 n2 : Z) : bool :=
  if n1 <=? n2
  then PrimFloat.leb (boost_of_count n1) (boost_of_count n2)
  else true.


(** The code point is even: the seed circuit gets a Hadamard gate. *)
Definition even_code (c : ascii) : bool := PyStr.ord c mod 2 =? 0.

(** ** Finite checks on floats *)

Lemma forallb_Z_range (P : Z -> bool) (lo : Z) (n : nat) :
  forallb P (map (fun i => lo + Z.of_nat i) (seq 0 n)) = true ->
  forall z, lo <= z < lo + Z.of_nat n -> P z = true.
Proof.
  intros Hall z Hz.
  rewrite forallb_forall in Hall.
  apply Hall.
  apply in_map_iff.
  exists (Z.to_nat (z - lo)). split; [lia|].
  apply in_seq. lia.
Qed.

Lemma boost_of_count_range (n : Z) :
  0 <= n <= 100 -> in_boost_range (boost_of_count n) = true.
Proof.
  intros Hn.
  apply (forallb_Z_range (fun z => in_boost_range (boost_of_count z)) 0 101).
  - vm_compute. reflexivity.
  - lia.
Qed.


Lemma boost_of_counts_range (c : counts) :
  0 <= counts_get c "1" 0 <= 100 ->
  PrimFloat.leb 1%float (QuantumAIUtils.boost_of_counts c) = true /\
  PrimFloat.leb (QuantumAIUtils.boost_of_counts c) 1.5%float = true.
Proof.
  intros Hn.
  apply boost_of_count_range in Hn.
  unfold in_boost_range in Hn. apply andb_true_iff in Hn.
  exact Hn.
Qed.

(** ** Running the monad *)

Lemma bind_Ok {World A B} (m : M World A) (k : A -> M World B) st a st' :
  m st = (Ok a, st') -> (m ≫= k) st = k a st'.
Proof. intros Hm. unfold mbind, M_bind, bind. rewrite Hm. reflexivity. Qed.

Lemma bind_Raise_run {World A B} (m : M World A) (k : A -> M World B) st e st' :
  m st = (Raise e, st') -> (m ≫= k) st = (Raise e, st').
Proof. intros Hm. unfold mbind, M_bind, bind. rewrite Hm. reflexivity. Qed.

Lemma bind_inv_Ok {World A B} (m : M World A) (k : A -> M World B) st b st' :
  (m ≫= k) st = (Ok b, st') ->
  exists a st1, m st = (Ok a, st1) /\ k a st1 = (Ok b, st').
Proof.
  unfold mbind, M_bind, bind.
  destruct (m st) as [[a|e] st1]; intros Hk.
  - exists a, st1. split; [reflexivity|exact Hk].
  - discriminate.
Qed.

Lemma call_inv_Ok {World A} (op : World -> (string + A) * World) st a st' :
  call op st = (Ok a, st') ->
  op (world st) = (inr a, world st') /\
  wallets_to_track st' = wallets_to_track st /\ stdout st' = stdout st.
Proof.
  unfold call. destruct (op (world st)) as [[msg|a0] w]; intros Heq;
    inversion Heq; subst; simpl; auto.
Qed.

Section RewardProperties.
Context {World : Type} (svc : Services World).

Import DAIORewardSystem QuantumAIUtils.

Lemma generate_quantum_seed_returns wallet st key n rest w1 seed :
  execute svc (seed_circuit wallet) 1 (world st) = (inr ((key, n) :: rest), w1) ->
  int_base2 key = Ok seed ->
  generate_quantum_seed svc wallet st
    = (Ok seed, mkState (wallets_to_track st) w1 (stdout st)).
Proof.
  intros Hexec Hkey. unfold generate_quantum_seed.
  erewrite bind_Ok; [|unfold call; rewrite Hexec; reflexivity].
  cbv beta iota. rewrite Hkey. reflexivity.
Qed.

Lemma quantum_boost_multiplier_returns holding_days seed st c w2 :
  execute svc (boost_circuit holding_days seed) 100 (world st) = (inr c, w2) ->
  quantum_boost_multiplier svc holding_days seed st
    = (Ok (boost_of_counts c), mkState (wallets_to_track st) w2 (stdout st)).
Proof.
  intros Hexec. unfold quantum_boost_multiplier.
  erewrite bind_Ok; [|unfold call; rewrite Hexec; reflexivity].
  reflexivity.
Qed.





(** C2: whatever the holding days and the seed, when the hundred shots
    count between 0 and 100 outcomes 1, [quantum_boost_multiplier] returns
    a float between 1.0 and 1.5. *)
Theorem quantum_boost_multiplier_range holding_days quantum_seed st c w2 :
  execute svc (boost_circuit holding_days quantum_seed) 100 (world st)
    = (inr c, w2) ->
  0 <= counts_get c "1" 0 <= 100 ->
  exists v st',
    quantum_boost_multiplier svc holding_days quantum_seed st = (Ok v, st') /\
    PrimFloat.leb 1%float v = true /\ PrimFloat.leb v 1.5%float = true.
Proof.
  intros Hexec Hcount. eexists _, _. split.
  { apply quantum_boost_multiplier_returns. exact Hexec. }
  apply boost_of_counts_range. exact Hcount.
Qed.


End RewardProperties.



Lemma quantum_boost_multiplier_range_witness :
  exists v st',
    QuantumAIUtils.quantum_boost_multiplier Demo.svc 400 5
      (Demo.start ∅ [inr Demo.boost_counts]) = (Ok v, st') /\
    PrimFloat.leb 1%float v = true /\ PrimFloat.leb v 1.5%float = true.
Proof.
  apply (quantum_boost_multiplier_range Demo.svc 400 5
           (Demo.start ∅ [inr Demo.boost_counts]) Demo.boost_counts []).
  - reflexivity.
  - simpl. lia.
Defined.


(** ** The quantum seed *)

Lemma sampler_faithful : faithful Sampler.svc.
Proof.
  intros c shots w cs w' Hexec key n Hin.
  simpl in Hexec. unfold Sampler.sample in Hexec.
  destruct w as [|i w0]; [discriminate|].
  destruct (Outcomes.possible_keys c !! (i mod length (Outcomes.possible_keys c))%nat)
    as [k|] eqn:Hk; [|discriminate].
  inversion Hexec; subst.
  destruct Hin as [Heq|[]]. inversion Heq; subst.
  apply list_elem_of_In. eapply list_elem_of_lookup_2. exact Hk.
Qed.

Lemma seed_gate_odd (i : nat) (c : ascii) :
  PyStr.ord c mod 2 <> 0 -> QuantumAIUtils.seed_gate i c = X i.
Proof.
  intros Hodd. unfold QuantumAIUtils.seed_gate.
  destruct (Z.eqb_spec (PyStr.ord c mod 2) 0); [contradiction|reflexivity].
Qed.

Lemma odd_prefix_single_key (wallet : string) :
  odd_prefix wallet ->
  exists key, Outcomes.possible_keys (QuantumAIUtils.seed_circuit wallet) = [key].
Proof.
  unfold odd_prefix, Outcomes.possible_keys, QuantumAIUtils.seed_circuit.
  assert (Hlen : (length (take 4 (PyStr.chars wallet)) <= 4)%nat)
    by (rewrite length_take; lia).
  destruct (take 4 (PyStr.chars wallet)) as [|a [|b [|c [|d [|e l]]]]];
    intros Hodd; simpl in Hlen; try lia;
    repeat match goal with
           | Hf : Forall _ (_ :: _) |- _ => inversion Hf; subst; clear Hf
           end;
    cbn [imap compose]; rewrite ?seed_gate_odd by assumption;
    eexists; vm_compute; reflexivity.
Qed.

(** Whatever the address, no key that the seed circuit can be measured in
    is a literal of base 2: each holds the blank between its two
    registers. *)
Lemma seed_keys_are_no_literals (wallet : string) :
  forallb (fun key => is_value_error (int_base2 key))
    (Outcomes.possible_keys (QuantumAIUtils.seed_circuit wallet)) = true.
Proof.
  unfold Outcomes.possible_keys, QuantumAIUtils.seed_circuit.
  assert (Hlen : (length (take 4 (PyStr.chars wallet)) <= 4)%nat)
    by (rewrite length_take; lia).
  destruct (take 4 (PyStr.chars wallet)) as [|a [|b [|c [|d [|e l]]]]];
    simpl in Hlen; try lia;
    cbn [imap compose]; unfold QuantumAIUtils.seed_gate;
    repeat match goal with
           | |- context [PyStr.ord ?ch mod 2 =? 0] =>
               destruct (PyStr.ord ch mod 2 =? 0)
           end;
    vm_compute; reflexivity.
Qed.

Section SeedProperties.
Context {World : Type} (svc : Services World).

Import QuantumAIUtils.

Lemma generate_quantum_seed_run wallet st key n rest w1 :
  execute svc (seed_circuit wallet) 1 (world st) = (inr ((key, n) :: rest), w1) ->
  generate_quantum_seed svc wallet st
    = (int_base2 key, mkState (wallets_to_track st) w1 (stdout st)).
Proof.
  intros Hexec. unfold generate_quantum_seed.
  erewrite bind_Ok; [|unfold call; rewrite Hexec; reflexivity].
  cbv beta iota. destruct (int_base2 key); reflexivity.
Qed.

(** C6, the defect: on a simulator that reports only outcomes of the seed
    circuit, [generate_quantum_seed] never returns an integer.  The circuit
    has two classical registers, the one it was built with and the one that
    [measure_all] adds, so that every key holds a blank and [int(key, 2)]
    raises a [ValueError]; with no outcome reported the index fails, and a
    failure of the simulator is passed on. *)
Theorem generate_quantum_seed_never_returns wallet (st : state World) :
  faithful svc ->
  exists e st',
    generate_quantum_seed svc wallet st = (Raise e, st') /\
    match e with
    | ValueError _ | IndexError _ | ExternalError _ => True
    | _ => False
    end.
Proof.
  intros Hfaith.
  destruct (execute svc (seed_circuit wallet) 1 (world st)) as [[msg|cs] w1] eqn:Hexec.
  - eexists (ExternalError _), _. split; [|exact I].
    unfold generate_quantum_seed. apply bind_Raise_run.
    unfold call. rewrite Hexec. reflexivity.
  - destruct cs as [|[key n] rest].
    + eexists (IndexError _), _. split; [|exact I].
      unfold generate_quantum_seed.
      erewrite bind_Ok; [|unfold call; rewrite Hexec; reflexivity]. reflexivity.
    + pose proof (Hfaith _ _ _ _ _ Hexec key n (or_introl eq_refl)) as Hin.
      pose proof (seed_keys_are_no_literals wallet) as Hall.
      rewrite forallb_forall in Hall. apply Hall in Hin.
      rewrite (generate_quantum_seed_run _ _ _ _ _ _ Hexec).
      destruct (int_base2 key) as [z|[]]; try discriminate.
      eexists _, _. split; [reflexivity|exact I].
Qed.

End SeedProperties.

Lemma generate_quantum_seed_never_returns_witness :
  exists e st',
    QuantumAIUtils.generate_quantum_seed Sampler.svc
      "gf6af7pjznknezvlq8jwx7j2uswsnrzmgan3bcbhbvsr"
      (Sampler.start [2%nat]) = (Raise e, st') /\
    match e with
    | ValueError _ | IndexError _ | ExternalError _ => True
    | _ => False
    end.
Proof.
  apply (generate_quantum_seed_never_returns Sampler.svc
           "gf6af7pjznknezvlq8jwx7j2uswsnrzmgan3bcbhbvsr"
           (Sampler.start [2%nat])).
  exact sampler_faithful.
Defined.

(** The address of the deployer, in lower case as the command loop stores
    an address: the single shot measures 1001 on the four qubits, the key
    carries the four bits of the first register after a blank, and
    [int(key, 2)] raises. *)
Example generate_quantum_seed_of_an_address :
  QuantumAIUtils.seed_circuit "gf6af7pjznknezvlq8jwx7j2uswsnrzmgan3bcbhbvsr"
  = measure_all
      (append (QuantumCircuit 4 4)
         [X 0; H 1; H 2; X 3; CX 0 1; CX 1 2; CX 2 3]) /\
  fst (QuantumAIUtils.generate_quantum_seed Sampler.svc
         "gf6af7pjznknezvlq8jwx7j2uswsnrzmgan3bcbhbvsr"
         (Sampler.start [2%nat]))
  = Raise (ValueError "invalid literal for int() with base 2: '1001 0000'").
Proof. split; vm_compute; reflexivity. Qed.

Section SeedDeterminism.
Context {World : Type} (svc : Services World).

Import QuantumAIUtils.

(** C7, amended: on a simulator that reports only possible outcomes, two
    invocations of [generate_quantum_seed] with one address on which the
    simulator answers measure the same key, and so end the same way, when
    none of the first four characters of the address has an even code
    point. *)
Theorem generate_quantum_seed_deterministic_odd wallet st1 st2
    key1 n1 rest1 w1 key2 n2 rest2 w2 :
  faithful svc ->
  odd_prefix wallet ->
  execute svc (seed_circuit wallet) 1 (world st1)
    = (inr ((key1, n1) :: rest1), w1) ->
  execute svc (seed_circuit wallet) 1 (world st2)
    = (inr ((key2, n2) :: rest2), w2) ->
  key1 = key2 /\
  fst (generate_quantum_seed svc wallet st1)
    = fst (generate_quantum_seed svc wallet st2).
Proof.
  intros Hfaith Hodd Hexec1 Hexec2.
  destruct (odd_prefix_single_key wallet Hodd) as (key & Hkeys).
  pose proof (Hfaith _ _ _ _ _ Hexec1 key1 n1 (or_introl eq_refl)) as Hin1.
  pose proof (Hfaith _ _ _ _ _ Hexec2 key2 n2 (or_introl eq_refl)) as Hin2.
  rewrite Hkeys in Hin1, Hin2.
  destruct Hin1 as [<-|[]]. destruct Hin2 as [<-|[]].
  split; [reflexivity|].
  rewrite (generate_quantum_seed_run _ _ _ _ _ _ _ Hexec1),
    (generate_quantum_seed_run _ _ _ _ _ _ _ Hexec2).
  reflexivity.
Qed.

End SeedDeterminism.

Lemma generate_quantum_seed_deterministic_odd_witness :
  "0101 0000" = "0101 0000" /\
  fst (QuantumAIUtils.generate_quantum_seed Sampler.svc "AAAA"
         (Sampler.start [0%nat]))
  = fst (QuantumAIUtils.generate_quantum_seed Sampler.svc "AAAA"
           (Sampler.start [3%nat])).
Proof.
  apply (generate_quantum_seed_deterministic_odd Sampler.svc "AAAA"
           (Sampler.start [0%nat]) (Sampler.start [3%nat])
           "0101 0000" 1 [] [] "0101 0000" 1 [] []).
  - exact sampler_faithful.
  - unfold odd_prefix. vm_compute. repeat constructor; discriminate.
  - vm_compute. reflexivity.
  - vm_compute. reflexivity.
Defined.

(** C7 as stated fails: the address BBBB puts a Hadamard gate on each of the
    four qubits, every value of the measured register is a possible outcome,
    and two invocations in a row measure 0000 and then 1111.  They end
    differently, and neither returns an integer. *)
Lemma generate_quantum_seed_not_deterministic :
  In "0000 0000" (Outcomes.possible_keys (QuantumAIUtils.seed_circuit "BBBB")) /\
  In "1111 0000" (Outcomes.possible_keys (QuantumAIUtils.seed_circuit "BBBB")) /\
  exists st1 st2 r1 r2,
    QuantumAIUtils.generate_quantum_seed Sampler.svc "BBBB"
      (Sampler.start [0%nat; 8%nat]) = (r1, st1) /\
    QuantumAIUtils.generate_quantum_seed Sampler.svc "BBBB" st1 = (r2, st2) /\
    r1 = Raise (ValueError "invalid literal for int() with base 2: '0000 0000'") /\
    r2 = Raise (ValueError "invalid literal for int() with base 2: '1111 0000'") /\
    r1 <> r2.
Proof.
  split; [vm_compute; tauto|]. split; [vm_compute; tauto|].
  eexists (Sampler.start [8%nat]), (Sampler.start []), _, _.
  split; [vm_compute; reflexivity|]. split; [vm_compute; reflexivity|].
  split; [reflexivity|]. split; [reflexivity|]. discriminate.
Qed.

(** ** The set of tracked wallets *)

Lemma NoDup_count_occ_once (x : string) (l : list string) :
  NoDup l -> x ∈ l -> count_occ string_dec l x = 1%nat.
Proof.
  intros Hnd Hin.
  apply NoDup_ListNoDup in Hnd.
  apply (proj1 (List.NoDup_count_occ' string_dec l) Hnd).
  apply list_elem_of_In. exact Hin.
Qed.

Section WalletSet.
Context {World : Type} (svc : Services World).

Import DAIORewardSystem.

Lemma add_wallet_to_track_run (X : string) (st : state World) :
  add_wallet_to_track X st
    = (Ok tt, mkState ({[ X ]} ∪ wallets_to_track st) (world st)
                (stdout st ++ [Line ("Now tracking wallet: " ++ X)])).
Proof. reflexivity. Qed.

Lemma remove_wallet_to_track_run (Y : string) (st : state World) :
  remove_wallet_to_track Y st
    = (Ok tt, mkState (wallets_to_track st ∖ {[ Y ]}) (world st)
                (stdout st ++ [Line ("Stopped tracking wallet: " ++ Y)])).
Proof. reflexivity. Qed.

(** C5: the tracked wallets are a set.  [add_wallet_to_track] inserts the
    address and changes nothing when it is there already, so that after
    two additions the listing holds it exactly once;
    [remove_wallet_to_track] raises nothing, leaves a set without the
    address, removes nothing else, and changes nothing when the address
    was absent. *)
Theorem tracked_wallets_set_semantics (X Y : string) (st : state World) :
  let added := snd (add_wallet_to_track X st) in
  let added_twice := snd (add_wallet_to_track X added) in
  let removed := snd (remove_wallet_to_track Y st) in
  (forall Z, Z ∈ wallets_to_track added <-> (Z = X \/ Z ∈ wallets_to_track st)) /\
  (X ∈ wallets_to_track st -> wallets_to_track added = wallets_to_track st) /\
  wallets_to_track added_twice = wallets_to_track added /\
  count_occ string_dec (elements (wallets_to_track added_twice)) X = 1%nat /\
  fst (remove_wallet_to_track Y st) = Ok tt /\
  (Y ∉ elements (wallets_to_track removed)) /\
  (forall Z, Z ∈ wallets_to_track removed <-> (Z <> Y /\ Z ∈ wallets_to_track st)) /\
  (Y ∉ wallets_to_track st -> wallets_to_track removed = wallets_to_track st).
Proof.
  intros added added_twice removed.
  subst added added_twice removed.
  rewrite !add_wallet_to_track_run, remove_wallet_to_track_run.
  cbn [snd fst wallets_to_track].
  split; [|split; [|split; [|split; [|split; [|split; [|split]]]]]].
  - intros Z. rewrite elem_of_union, elem_of_singleton. reflexivity.
  - intros HX. apply subseteq_union_1_L, singleton_subseteq_l. exact HX.
  - rewrite (assoc_L (∪)), (idemp_L (∪)). reflexivity.
  - apply NoDup_count_occ_once; [apply NoDup_elements|].
    apply elem_of_elements, elem_of_union. left. apply elem_of_singleton.
    reflexivity.
  - reflexivity.
  - intros HY. apply elem_of_elements, elem_of_difference in HY as [_ HY].
    apply HY, elem_of_singleton. reflexivity.
  - intros Z. rewrite elem_of_difference, elem_of_singleton. tauto.
  - intros HY. apply difference_disjoint_L.
    apply disjoint_singleton_r. exact HY.
Qed.

End WalletSet.

(** ** The command loop *)

Lemma lower_char_isspace (c : ascii) :
  PyStr.isspace (PyStr.lower_char c) = PyStr.isspace c.
Proof. destruct c as [[] [] [] [] [] [] [] []]; reflexivity. Qed.

Lemma lower_char_not_upper (c : ascii) :
  PyStr.isupper (PyStr.lower_char c) = false.
Proof. destruct c as [[] [] [] [] [] [] [] []]; reflexivity. Qed.

Lemma drop_while_isspace_lower (l : list ascii) :
  PyStr.drop_while PyStr.isspace (map PyStr.lower_char l)
  = map PyStr.lower_char (PyStr.drop_while PyStr.isspace l).
Proof.
  induction l as [|c l IH]; [reflexivity|].
  simpl. rewrite lower_char_isspace.
  destruct (PyStr.isspace c); [exact IH|reflexivity].
Qed.

Lemma strip_chars_lower (l : list ascii) :
  PyStr.strip_chars (map PyStr.lower_char l)
  = map PyStr.lower_char (PyStr.strip_chars l).
Proof.
  unfold PyStr.strip_chars.
  rewrite drop_while_isspace_lower, <- List.map_rev,
    drop_while_isspace_lower, <- List.map_rev.
  reflexivity.
Qed.

Lemma chars_of_chars (l : list ascii) : PyStr.chars (PyStr.of_chars l) = l.
Proof. apply list_ascii_of_string_of_list_ascii. Qed.

(** Stripping and slicing commute with lowering. *)
Lemma strip_lower (s : string) :
  PyStr.strip (PyStr.lower s) = PyStr.lower (PyStr.strip s).
Proof.
  unfold PyStr.strip, PyStr.lower.
  rewrite !chars_of_chars, strip_chars_lower. reflexivity.
Qed.

Lemma slice_from_lower (n : nat) (s : string) :
  PyStr.slice_from n (PyStr.lower s) = PyStr.lower (PyStr.slice_from n s).
Proof.
  unfold PyStr.slice_from, PyStr.lower.
  rewrite !chars_of_chars, List.skipn_map. reflexivity.
Qed.

Lemma lower_has_no_upper (s : string) : PyStr.has_upper (PyStr.lower s) = false.
Proof.
  unfold PyStr.has_upper, PyStr.lower. rewrite chars_of_chars.
  induction (PyStr.chars s) as [|c l IH]; [reflexivity|].
  simpl. rewrite lower_char_not_upper. exact IH.
Qed.

Lemma lower_changes_upper (s : string) :
  PyStr.has_upper s = true -> PyStr.lower s <> s.
Proof.
  intros Hup Heq.
  rewrite <- Heq, lower_has_no_upper in Hup. discriminate.
Qed.

Lemma stored_address_lower (n : nat) (line : string) :
  PyStr.strip (PyStr.slice_from n (PyStr.lower (PyStr.strip line)))
  = PyStr.lower (typed_address n line).
Proof.
  unfold typed_address. rewrite slice_from_lower, strip_lower. reflexivity.
Qed.

Lemma prefix_head (a : ascii) (p s : string) :
  String.prefix (String a p) s = true ->
  exists s', s = String a s' /\ String.prefix p s' = true.
Proof.
  destruct s as [|b s']; simpl; [discriminate|].
  destruct (ascii_dec a b) as [<-|]; [eauto|discriminate].
Qed.

(** ** The batch check *)

Lemma bind_run {World A B} (m : M World A) (k : A -> M World B) st r st' :
  (m ≫= k) st = (r, st') ->
  (exists a st1, m st = (Ok a, st1) /\ k a st1 = (r, st')) \/
  (exists e, m st = (Raise e, st') /\ r = Raise e).
Proof.
  unfold mbind, M_bind, bind.
  destruct (m st) as [[a|e] st1]; intros Hk.
  - left. eauto.
  - right. inversion Hk; subst. eauto.
Qed.

Section Silent.
Context {World : Type}.

Lemma silent_ret {A} (a : A) : silent (mret a : M World A).
Proof.
  intros st r st' Hrun. inversion Hrun; subst. split; [reflexivity|exact I].
Qed.

Lemma silent_raise {A} (e : exn) :
  no_key_error (Raise e : result A) -> silent (raise e : M World A).
Proof.
  intros He st r st' Hrun. inversion Hrun; subst. split; [reflexivity|exact He].
Qed.

Lemma silent_call {A} (op : World -> (string + A) * World) : silent (call op).
Proof.
  intros st r st' Hrun. unfold call in Hrun.
  destruct (op (world st)) as [[msg|a] w]; inversion Hrun; subst;
    split; try reflexivity; exact I.
Qed.

Lemma silent_bind {A B} (m : M World A) (k : A -> M World B) :
  silent m -> (forall a, silent (k a)) -> silent (m ≫= k).
Proof.
  intros Hm Hk st r st' Hrun.
  apply bind_run in Hrun as [(a & st1 & Hma & Hka)|(e & Hme & ->)].
  - destruct (Hm _ _ _ Hma) as [Hout _].
    destruct (Hk a _ _ _ Hka) as [Hout' Hr].
    split; [congruence|exact Hr].
  - exact (Hm _ _ _ Hme).
Qed.

Lemma silent_safe {A} (m : M World A) : silent m -> safe m.
Proof.
  intros Hm st r st' Hrun Hinv.
  destruct (Hm _ _ _ Hrun) as [Hout Hr].
  rewrite Hout. auto.
Qed.

Lemma safe_ret {A} (a : A) : safe (mret a : M World A).
Proof. apply silent_safe, silent_ret. Qed.

Lemma safe_bind {A B} (m : M World A) (k : A -> M World B) :
  safe m -> (forall a, safe (k a)) -> safe (m ≫= k).
Proof.
  intros Hm Hk st r st' Hrun Hinv.
  apply bind_run in Hrun as [(a & st1 & Hma & Hka)|(e & Hme & ->)].
  - destruct (Hm _ _ _ Hma Hinv) as [Hinv1 _].
    exact (Hk a _ _ _ Hka Hinv1).
  - exact (Hm _ _ _ Hme Hinv).
Qed.

Lemma safe_print (o : output) :
  match o with EnterAnalyze d => has_holdings d | _ => True end ->
  safe (print o : M World unit).
Proof.
  intros Ho st r st' Hrun Hinv. inversion Hrun; subst. cbn [stdout].
  split; [|exact I].
  intros d Hin. apply in_app_or in Hin as [Hin|[Heq|[]]].
  - exact (Hinv d Hin).
  - subst o. exact Ho.
Qed.

Lemma safe_for_each {A} (body : A -> M World unit) (xs : list A) :
  (forall x, safe (body x)) -> safe (for_each body xs).
Proof.
  intros Hbody. induction xs as [|x xs IH]; cbn [for_each].
  - apply safe_ret.
  - apply safe_bind; [apply Hbody|intros _; exact IH].
Qed.

End Silent.

Lemma safe_bind_post {World A B} (P : A -> Prop) (m : M World A)
    (k : A -> M World B) :
  safe m ->
  (forall st a st', m st = (Ok a, st') -> P a) ->
  (forall a, P a -> safe (k a)) ->
  safe (m ≫= k).
Proof.
  intros Hm Hpost Hk st r st' Hrun Hinv.
  apply bind_run in Hrun as [(a & st1 & Hma & Hka)|(e & Hme & ->)].
  - destruct (Hm _ _ _ Hma Hinv) as [Hinv1 _].
    exact (Hk a (Hpost _ _ _ Hma) _ _ _ Hka Hinv1).
  - exact (Hm _ _ _ Hme Hinv).
Qed.

Lemma int_base2_no_key_error (s : string) : no_key_error (int_base2 s).
Proof.
  unfold int_base2. destruct (int_base2_value s); exact I.
Qed.

Lemma datetime_sub_no_key_error (a b : datetime) :
  no_key_error (datetime_sub a b).
Proof.
  unfold datetime_sub. destruct (dt_utcoffset a), (dt_utcoffset b); exact I.
Qed.

(** Line 86: [current_time] is aware and what [fromtimestamp] returns is
    naive, so the subtraction raises. *)
Lemma datetime_sub_current_naive (clock : Z) :
  datetime_sub DAIORewardSystem.current_time
    {| dt_clock := clock; dt_utcoffset := None |}
  = Raise (TypeError "can't subtract offset-naive and offset-aware datetimes").
Proof. reflexivity. Qed.

Lemma confidence_range (seed : Z) :
  confidence_in_range (PyFloat.int_truediv (seed mod 100) 100) = true.
Proof.
  apply (forallb_Z_range
           (fun z => confidence_in_range (PyFloat.int_truediv z 100)) 0 100).
  - vm_compute. reflexivity.
  - pose proof (Z.mod_pos_bound seed 100). lia.
Qed.

Section BatchCheck.
Context {World : Type} (svc : Services World).

Import DAIORewardSystem QuantumAIUtils.

Lemma generate_quantum_seed_silent wallet :
  silent (generate_quantum_seed svc wallet).
Proof.
  unfold generate_quantum_seed.
  apply silent_bind; [apply silent_call|].
  intros [|[key n] rest]; [apply silent_raise; exact I|].
  pose proof (int_base2_no_key_error key) as Hkey.
  destruct (int_base2 key) as [z|e]; [apply silent_ret|apply silent_raise; exact Hkey].
Qed.

Lemma quantum_boost_multiplier_silent holding_days seed :
  silent (quantum_boost_multiplier svc holding_days seed).
Proof.
  unfold quantum_boost_multiplier.
  apply silent_bind; [apply silent_call|]. intros c. apply silent_ret.
Qed.

Lemma calculate_rewards_silent days wallet :
  silent (calculate_rewards svc days wallet).
Proof.
  unfold calculate_rewards.
  apply silent_bind; [apply generate_quantum_seed_silent|]. intros seed.
  destruct (base_tier days) as [tier base].
  apply silent_bind; [apply quantum_boost_multiplier_silent|]. intros boost.
  apply silent_ret.
Qed.

Lemma scan_accounts_silent accounts holding_info :
  silent (scan_accounts svc accounts holding_info).
Proof.
  revert holding_info.
  induction accounts as [|account_pubkey rest IH]; intros holding_info;
    cbn [scan_accounts].
  - apply silent_ret.
  - apply silent_bind; [apply silent_call|]. intros [token_data|]; [|apply IH].
    apply silent_bind; [apply silent_call|]. intros [mint_value|]; [|apply IH].
    destruct (negb _); [apply IH|].
    apply silent_bind; [apply silent_call|]. intros history.
    destruct (last history); [|apply IH].
    apply silent_bind.
    { unfold fromtimestamp. apply silent_bind; [apply silent_call|].
      intros clock. apply silent_ret. }
    intros acquisition_time.
    apply silent_bind; [|intros holding_duration; apply IH].
    pose proof (datetime_sub_no_key_error current_time acquisition_time) as Hsub.
    destruct (datetime_sub current_time acquisition_time);
      [apply silent_ret|apply silent_raise; exact Hsub].
Qed.

Lemma holding_duration_body_silent wallet :
  silent (holding_duration_body svc wallet).
Proof.
  unfold holding_duration_body.
  apply silent_bind; [apply silent_call|]. intros [|account accounts].
  - apply silent_ret.
  - apply silent_bind; [apply scan_accounts_silent|]. intros hs. apply silent_ret.
Qed.

(** [get_token_holding_duration] raises nothing: what its body raises
    comes back as the dict with the key ["error"]. *)
Lemma get_token_holding_duration_total wallet st :
  exists holding_info st',
    get_token_holding_duration svc wallet st = (Ok holding_info, st') /\
    stdout st' = stdout st.
Proof.
  unfold get_token_holding_duration, try_except.
  destruct (holding_duration_body svc wallet st) as [[hi|e] st1] eqn:Hbody;
    destruct (holding_duration_body_silent wallet _ _ _ Hbody) as [Hout _];
    eexists _, _; split; try reflexivity; exact Hout.
Qed.

Lemma get_token_holding_duration_silent wallet :
  silent (get_token_holding_duration svc wallet).
Proof.
  intros st r st' Hrun.
  destruct (get_token_holding_duration_total wallet st) as (hi & st1 & Hok & Hout).
  rewrite Hok in Hrun. inversion Hrun; subst. split; [exact Hout|exact I].
Qed.

Lemma analyze_holding_pattern_safe wallet_data :
  has_holdings wallet_data -> safe (analyze_holding_pattern svc wallet_data).
Proof.
  intros Hhold. unfold analyze_holding_pattern.
  apply safe_bind; [apply safe_print; exact Hhold|]. intros _.
  destruct wallet_data as [err|wallet [|h hs]]; try contradiction.
  apply silent_safe.
  apply silent_bind; [apply silent_call|]. intros message.
  apply silent_bind; [apply generate_quantum_seed_silent|]. intros seed.
  apply silent_ret.
Qed.

Lemma analyze_holding_pattern_keys wallet h hs st d st' :
  analyze_holding_pattern svc (Holdings wallet (h :: hs)) st = (Ok d, st') ->
  exists message f,
    d !! "analysis" = Some (PyStrV message) /\
    d !! "quantum_confidence" = Some (PyFloatV f) /\
    confidence_in_range f = true.
Proof.
  unfold analyze_holding_pattern. intros Hrun.
  apply bind_inv_Ok in Hrun as ([] & st1 & _ & Hrun).
  apply bind_inv_Ok in Hrun as (message & st2 & _ & Hrun).
  apply bind_inv_Ok in Hrun as (seed & st3 & _ & Hrun).
  inversion Hrun; subst.
  exists message, (PyFloat.int_truediv (seed mod 100) 100).
  split; [|split].
  - rewrite lookup_insert_ne by discriminate. apply lookup_singleton_eq.
  - apply lookup_insert_eq.
  - apply confidence_range.
Qed.

End BatchCheck.

Section BatchProperties.
Context {World : Type} (svc : Services World).

Import DAIORewardSystem QuantumAIUtils.

Lemma getitem_present (d : gmap string pyval) (key : string) (v : pyval) :
  d !! key = Some v -> getitem d key = (mret v : M World pyval).
Proof. intros Hkey. unfold getitem. rewrite Hkey. reflexivity. Qed.

Lemma report_holding_safe wallet h : safe (report_holding svc wallet h).
Proof.
  unfold report_holding.
  apply safe_bind; [apply safe_print; exact I|]. intros _.
  apply safe_bind; [apply silent_safe, calculate_rewards_silent|]. intros r.
  apply safe_print. exact I.
Qed.

Lemma check_wallet_safe wallet : safe (check_wallet svc wallet).
Proof.
  unfold check_wallet.
  apply safe_bind; [apply safe_print; exact I|]. intros _.
  apply safe_bind; [apply silent_safe, get_token_holding_duration_silent|].
  intros [error|wallet' [|h hs]]; try (apply safe_print; exact I).
  apply (safe_bind_post
           (fun d => exists message f,
              d !! "analysis" = Some (PyStrV message) /\
              d !! "quantum_confidence" = Some (PyFloatV f) /\
              confidence_in_range f = true)).
  - apply analyze_holding_pattern_safe. exact I.
  - intros st d st' Hrun. eapply analyze_holding_pattern_keys. exact Hrun.
  - intros d (message & f & Hanalysis & Hconfidence & _).
    rewrite (getitem_present _ _ _ Hanalysis).
    apply safe_bind; [apply safe_ret|]. intros analysis.
    apply safe_bind; [apply safe_print; exact I|]. intros _.
    rewrite (getitem_present _ _ _ Hconfidence).
    apply safe_bind; [apply safe_ret|]. intros confidence.
    apply safe_bind; [apply safe_print; exact I|]. intros _.
    apply safe_for_each. intros h'. apply report_holding_safe.
Qed.

Lemma check_all_wallets_safe : safe (check_all_wallets svc).
Proof.
  unfold check_all_wallets.
  apply safe_bind; [apply safe_print; exact I|]. intros _.
  apply safe_bind.
  { apply silent_safe. intros st r st' Hrun. inversion Hrun; subst.
    split; [reflexivity|exact I]. }
  intros wallets. destruct (elements wallets) as [|w ws] eqn:Hws.
  - apply safe_print. exact I.
  - apply safe_for_each. intros w'. apply check_wallet_safe.
Qed.

(** C10: in [check_all_wallets] the reads of the keys ["analysis"] and
    ["quantum_confidence"] never fail.  No run raises a [KeyError], and
    [analyze_holding_pattern] is entered only with a dict that has at
    least one holding; on such a dict, what it returns holds both keys,
    the confidence being a float that is at least 0 and less than 1; and
    it does return when the language model and the simulator answer. *)
Theorem analysis_reads_never_fail :
  (forall st r st',
      check_all_wallets svc st = (r, st') ->
      analyses_have_holdings (stdout st) ->
      analyses_have_holdings (stdout st') /\ no_key_error r) /\
  (forall wallet h hs st d st',
      analyze_holding_pattern svc (Holdings wallet (h :: hs)) st = (Ok d, st') ->
      exists message f,
        d !! "analysis" = Some (PyStrV message) /\
        d !! "quantum_confidence" = Some (PyFloatV f) /\
        PrimFloat.leb 0%float f = true /\ PrimFloat.ltb f 1%float = true) /\
  (forall wallet h hs st message w1 key n rest w2 seed,
      messages_create svc
        {| p_wallet := wallet;
           p_total := length (h :: hs);
           p_durations := map holding_duration_days (h :: hs) |} (world st)
        = (inr message, w1) ->
      execute svc (seed_circuit wallet) 1 w1 = (inr ((key, n) :: rest), w2) ->
      int_base2 key = Ok seed ->
      exists d st',
        analyze_holding_pattern svc (Holdings wallet (h :: hs)) st = (Ok d, st')).
Proof.
  split; [exact check_all_wallets_safe|]. split.
  - intros wallet h hs st d st' Hrun.
    destruct (analyze_holding_pattern_keys svc _ _ _ _ _ _ Hrun)
      as (message & f & Ha & Hc & Hrange).
    unfold confidence_in_range in Hrange. apply andb_true_iff in Hrange.
    exists message, f. tauto.
  - intros wallet h hs st message w1 key n rest w2 seed Hllm Hexec Hkey.
    unfold analyze_holding_pattern.
    erewrite bind_Ok; [|reflexivity].
    erewrite bind_Ok; [|unfold call; cbn [world]; rewrite Hllm; reflexivity].
    erewrite bind_Ok;
      [|eapply generate_quantum_seed_returns; [cbn [world]; exact Hexec|exact Hkey]].
    eexists _, _. reflexivity.
Qed.

End BatchProperties.

Section BatchIsolation.
Context {World : Type} (svc : Services World).

Import DAIORewardSystem.

(** The loop over the token accounts never adds a holding: where it would,
    the subtraction of line 86 raises. *)
Lemma scan_accounts_adds_nothing accounts holding_info st hs st' :
  scan_accounts svc accounts holding_info st = (Ok hs, st') ->
  hs = holding_info.
Proof.
  revert holding_info st.
  induction accounts as [|account_pubkey rest IH]; intros holding_info st Hrun;
    cbn [scan_accounts] in Hrun.
  - inversion Hrun; subst. reflexivity.
  - apply bind_inv_Ok in Hrun as (account_info & st1 & _ & Hrun).
    destruct account_info as [token_data|]; [|eapply IH; exact Hrun].
    apply bind_inv_Ok in Hrun as (mint_info & st2 & _ & Hrun).
    destruct mint_info as [mint_value|]; [|eapply IH; exact Hrun].
    destruct (negb _); [eapply IH; exact Hrun|].
    apply bind_inv_Ok in Hrun as (history & st3 & _ & Hrun).
    destruct (last history) as [block_time|]; [|eapply IH; exact Hrun].
    apply bind_inv_Ok in Hrun as (acquisition_time & st4 & Htime & Hrun).
    unfold fromtimestamp in Htime.
    apply bind_inv_Ok in Htime as (clock & st5 & _ & Htime).
    inversion Htime; subst.
    rewrite datetime_sub_current_naive in Hrun.
    apply bind_inv_Ok in Hrun as (holding_duration & st6 & Hsub & _).
    discriminate.
Qed.

(** What [get_token_holding_duration] returns: the dict with the key
    ["error"], or the dict of the wallet with no holding. *)
Lemma get_token_holding_duration_shape wallet st info st' :
  get_token_holding_duration svc wallet st = (Ok info, st') ->
  (exists error, info = HoldingError error) \/ info = Holdings wallet [].
Proof.
  unfold get_token_holding_duration, try_except. intros Hrun.
  destruct (holding_duration_body svc wallet st) as [[info'|e] st1] eqn:Hbody;
    inversion Hrun; subst; [|eauto].
  unfold holding_duration_body in Hbody.
  apply bind_inv_Ok in Hbody as (accounts & st2 & _ & Hbody).
  destruct accounts as [|account accounts]; [inversion Hbody; subst; eauto|].
  apply bind_inv_Ok in Hbody as (hs & st3 & Hscan & Hbody).
  apply scan_accounts_adds_nothing in Hscan.
  inversion Hbody; subst. auto.
Qed.





End BatchIsolation.

(** ** Further properties of the reward computation *)

Lemma forallb_Z_range2 (P : Z -> Z -> bool) (lo1 lo2 : Z) (n1 n2 : nat) :
  forallb (fun z1 => forallb (P z1) (map (fun i => lo2 + Z.of_nat i) (seq 0 n2)))
    (map (fun i => lo1 + Z.of_nat i) (seq 0 n1)) = true ->
  forall z1 z2,
    lo1 <= z1 < lo1 + Z.of_nat n1 -> lo2 <= z2 < lo2 + Z.of_nat n2 ->
    P z1 z2 = true.
Proof.
  intros Hall z1 z2 Hz1 Hz2.
  apply (forallb_Z_range (P z1) lo2 n2); [|exact Hz2].
  apply (forallb_Z_range
           (fun z => forallb (P z) (map (fun i => lo2 + Z.of_nat i) (seq 0 n2)))
           lo1 n1 Hall z1 Hz1).
Qed.

Lemma boost_pair_ordered_all (n1 n2 : Z) :
  0 <= n1 <= 100 -> 0 <= n2 <= 100 -> boost_pair_ordered n1 n2 = true.
Proof.
  intros H1 H2.
  apply (forallb_Z_range2 boost_pair_ordered 0 0 101 101); [|lia|lia].
  vm_compute. reflexivity.
Qed.


Lemma angle_in_range_all (d m : Z) :
  (d = 365 \/ d = 16) -> 0 <= m < d -> angle_in_range d m = true.
Proof.
  intros [->| ->] Hm.
  - apply (forallb_Z_range (angle_in_range 365) 0 365); [vm_compute; reflexivity|lia].
  - apply (forallb_Z_range (angle_in_range 16) 0 16); [vm_compute; reflexivity|lia].
Qed.

Lemma imap_parity (f : nat -> ascii -> gate) (l1 l2 : list ascii) :
  (forall i c c', even_code c = even_code c' -> f i c = f i c') ->
  map even_code l1 = map even_code l2 ->
  imap f l1 = imap f l2.
Proof.
  revert f l2. induction l1 as [|c1 l1 IH]; intros f [|c2 l2] Hf Hmap;
    try discriminate; [reflexivity|].
  inversion Hmap as [[Hc Hl]]. cbn [imap]. f_equal.
  - apply Hf. exact Hc.
  - apply IH; [|exact Hl]. intros i c c' Hcc. apply Hf. exact Hcc.
Qed.

Lemma seed_circuit_parity (wallet1 wallet2 : string) :
  map even_code (take 4 (PyStr.chars wallet1))
    = map even_code (take 4 (PyStr.chars wallet2)) ->
  QuantumAIUtils.seed_circuit wallet1 = QuantumAIUtils.seed_circuit wallet2.
Proof.
  intros Hpar. unfold QuantumAIUtils.seed_circuit.
  rewrite (imap_parity QuantumAIUtils.seed_gate _ _) with (2 := Hpar);
    [reflexivity|].
  intros i c c' Hcc. unfold QuantumAIUtils.seed_gate.
  unfold even_code in Hcc. rewrite Hcc. reflexivity.
Qed.

Lemma boost_circuit_wraps (d s k j : Z) :
  QuantumAIUtils.boost_circuit (d + 365 * k) (s + 16 * j)
  = QuantumAIUtils.boost_circuit d s.
Proof.
  unfold QuantumAIUtils.boost_circuit.
  rewrite (Z.mul_comm 365 k), (Z.mul_comm 16 j), !Z_mod_plus_full.
  reflexivity.
Qed.

Section FurtherRewardProperties.
Context {World : Type} (svc : Services World).

Import DAIORewardSystem QuantumAIUtils.

(** X1: the boost grows with the number of shots that measured 1: of two
    executions the one with no fewer such shots returns no smaller a boost;
    with none of them the boost is exactly 1.0, with all hundred 1.5. *)
Theorem boost_monotone_in_count d1 s1 st1 c1 w1 d2 s2 st2 c2 w2 :
  execute svc (boost_circuit d1 s1) 100 (world st1) = (inr c1, w1) ->
  execute svc (boost_circuit d2 s2) 100 (world st2) = (inr c2, w2) ->
  0 <= counts_get c1 "1" 0 <= counts_get c2 "1" 0 ->
  counts_get c2 "1" 0 <= 100 ->
  exists v1 v2 st1' st2',
    quantum_boost_multiplier svc d1 s1 st1 = (Ok v1, st1') /\
    quantum_boost_multiplier svc d2 s2 st2 = (Ok v2, st2') /\
    PrimFloat.leb v1 v2 = true /\
    (counts_get c1 "1" 0 = 0 -> v1 = 1%float) /\
    (counts_get c2 "1" 0 = 100 -> v2 = 1.5%float).
Proof.
  intros Hexec1 Hexec2 Hle Hmax.
  eexists _, _, _, _.
  split; [apply quantum_boost_multiplier_returns; exact Hexec1|].
  split; [apply quantum_boost_multiplier_returns; exact Hexec2|].
  unfold boost_of_counts. fold (boost_of_count (counts_get c1 "1" 0)).
  fold (boost_of_count (counts_get c2 "1" 0)).
  split; [|split].
  - pose proof (boost_pair_ordered_all (counts_get c1 "1" 0)
                  (counts_get c2 "1" 0) ltac:(lia) ltac:(lia)) as Hpair.
    unfold boost_pair_ordered in Hpair.
    destruct (Z.leb_spec (counts_get c1 "1" 0) (counts_get c2 "1" 0)); [exact Hpair|lia].
  - intros ->. reflexivity.
  - intros ->. reflexivity.
Qed.

(** X2: the boost circuit sees the holding days modulo 365 and the seed
    modulo 16 only: 365 more days, or 16 more in the seed, give the same
    computation.  Its two rotation angles are at least 0 and less than pi,
    for negative inputs too. *)
Theorem quantum_boost_wraps_around (d s k j : Z) (st : state World) :
  quantum_boost_multiplier svc (d + 365 * k) (s + 16 * j) st
    = quantum_boost_multiplier svc d s st /\
  exists theta phi,
    gates (boost_circuit d s)
      = [RX theta 0; RY phi 1; CX 0 2; CX 1 2; Measure 2 0] /\
    PrimFloat.leb 0%float theta = true /\ PrimFloat.ltb theta PyFloat.pi = true /\
    PrimFloat.leb 0%float phi = true /\ PrimFloat.ltb phi PyFloat.pi = true.
Proof.
  split.
  - unfold quantum_boost_multiplier. rewrite boost_circuit_wraps. reflexivity.
  - exists (angle_of (d mod 365) 365), (angle_of (s mod 16) 16).
    split; [reflexivity|].
    pose proof (angle_in_range_all 365 (d mod 365) (or_introl eq_refl)
                  (Z.mod_pos_bound d 365 ltac:(lia))) as Htheta.
    pose proof (angle_in_range_all 16 (s mod 16) (or_intror eq_refl)
                  (Z.mod_pos_bound s 16 ltac:(lia))) as Hphi.
    unfold angle_in_range in Htheta, Hphi.
    apply andb_true_iff in Htheta, Hphi. tauto.
Qed.



(** X5: the seed depends on the wallet address through the parities of the
    code points of its first four characters only: two addresses that agree
    there run the same computation. *)
Theorem seed_depends_on_parities wallet1 wallet2 (st : state World) :
  map even_code (take 4 (PyStr.chars wallet1))
    = map even_code (take 4 (PyStr.chars wallet2)) ->
  generate_quantum_seed svc wallet1 st = generate_quantum_seed svc wallet2 st.
Proof.
  intros Hpar. unfold generate_quantum_seed.
  rewrite (seed_circuit_parity wallet1 wallet2 Hpar). reflexivity.
Qed.

End FurtherRewardProperties.

Lemma boost_monotone_in_count_witness :
  exists v1 v2 st1' st2',
    QuantumAIUtils.quantum_boost_multiplier Demo.svc 10 3
      (Demo.start ∅ [inr [("0", 100)]]) = (Ok v1, st1') /\
    QuantumAIUtils.quantum_boost_multiplier Demo.svc 400 5
      (Demo.start ∅ [inr Demo.boost_counts]) = (Ok v2, st2') /\
    PrimFloat.leb v1 v2 = true /\
    (counts_get [("0", 100)] "1" 0 = 0 -> v1 = 1%float) /\
    (counts_get Demo.boost_counts "1" 0 = 100 -> v2 = 1.5%float).
Proof.
  apply (boost_monotone_in_count Demo.svc 10 3 (Demo.start ∅ [inr [("0", 100)]])
           [("0", 100)] [] 400 5 (Demo.start ∅ [inr Demo.boost_counts])
           Demo.boost_counts []).
  - reflexivity.
  - reflexivity.
  - simpl. lia.
  - simpl. lia.
Defined.



Lemma seed_depends_on_parities_witness :
  QuantumAIUtils.generate_quantum_seed Sampler.svc "ABCDxyz" (Sampler.start [7%nat])
  = QuantumAIUtils.generate_quantum_seed Sampler.svc "GHIJ" (Sampler.start [7%nat]).
Proof.
  apply (seed_depends_on_parities Sampler.svc "ABCDxyz" "GHIJ"
           (Sampler.start [7%nat])).
  reflexivity.
Defined.

(** ** Further properties of the lookup and of the batch check *)

Section WorldOnly.
Context {World : Type}.

Lemma world_only_ret {A} (a : A) : world_only (mret a : M World A).
Proof. intros st r st' Hrun. inversion Hrun; subst. auto. Qed.

Lemma world_only_raise {A} (e : exn) : world_only (raise e : M World A).
Proof. intros st r st' Hrun. inversion Hrun; subst. auto. Qed.

Lemma world_only_call {A} (op : World -> (string + A) * World) :
  world_only (call op).
Proof.
  intros st r st' Hrun. unfold call in Hrun.
  destruct (op (world st)) as [[msg|a] w]; inversion Hrun; subst; auto.
Qed.

Lemma world_only_bind {A B} (m : M World A) (k : A -> M World B) :
  world_only m -> (forall a, world_only (k a)) -> world_only (m ≫= k).
Proof.
  intros Hm Hk st r st' Hrun.
  apply bind_run in Hrun as [(a & st1 & Hma & Hka)|(e & Hme & ->)].
  - destruct (Hm _ _ _ Hma) as [Hw Hout].
    destruct (Hk a _ _ _ Hka) as [Hw' Hout'].
    split; congruence.
  - exact (Hm _ _ _ Hme).
Qed.

Lemma world_only_try_except {A} (body : M World A) (handler : exn -> M World A) :
  world_only body -> (forall e, world_only (handler e)) ->
  world_only (try_except body handler).
Proof.
  intros Hbody Hhandler st r st' Hrun. unfold try_except in Hrun.
  destruct (body st) as [[a|e] st1] eqn:Hb; destruct (Hbody _ _ _ Hb) as [Hw Hout].
  - inversion Hrun; subst. auto.
  - destruct (Hhandler e _ _ _ Hrun) as [Hw' Hout']. split; congruence.
Qed.

Lemma world_only_extends {A} (m : M World A) : world_only m -> extends_output m.
Proof.
  intros Hm st r st' Hrun. destruct (Hm _ _ _ Hrun) as [Hw Hout].
  split; [exact Hw|]. exists []. rewrite Hout, app_nil_r. reflexivity.
Qed.

Lemma extends_print (o : output) : extends_output (print o : M World unit).
Proof.
  intros st r st' Hrun. inversion Hrun; subst. cbn [wallets_to_track stdout].
  split; [reflexivity|]. exists [o]. reflexivity.
Qed.

Lemma extends_bind {A B} (m : M World A) (k : A -> M World B) :
  extends_output m -> (forall a, extends_output (k a)) ->
  extends_output (m ≫= k).
Proof.
  intros Hm Hk st r st' Hrun.
  apply bind_run in Hrun as [(a & st1 & Hma & Hka)|(e & Hme & ->)].
  - destruct (Hm _ _ _ Hma) as [Hw (out1 & Hout1)].
    destruct (Hk a _ _ _ Hka) as [Hw' (out2 & Hout2)].
    split; [congruence|]. exists (out1 ++ out2)%list.
    rewrite Hout2, Hout1, app_assoc. reflexivity.
  - exact (Hm _ _ _ Hme).
Qed.

Lemma extends_for_each {A} (body : A -> M World unit) (xs : list A) :
  (forall x, extends_output (body x)) -> extends_output (for_each body xs).
Proof.
  intros Hbody. induction xs as [|x xs IH]; cbn [for_each].
  - apply world_only_extends, world_only_ret.
  - apply extends_bind; [apply Hbody|intros _; exact IH].
Qed.

End WorldOnly.

Section LookupProperties.
Context {World : Type} (svc : Services World).

Import DAIORewardSystem QuantumAIUtils.

Lemma scan_accounts_world_only accounts holding_info :
  world_only (scan_accounts svc accounts holding_info).
Proof.
  revert holding_info.
  induction accounts as [|account_pubkey rest IH]; intros holding_info;
    cbn [scan_accounts].
  - apply world_only_ret.
  - apply world_only_bind; [apply world_only_call|].
    intros [token_data|]; [|apply IH].
    apply world_only_bind; [apply world_only_call|].
    intros [mint_value|]; [|apply IH].
    destruct (negb _); [apply IH|].
    apply world_only_bind; [apply world_only_call|]. intros history.
    destruct (last history); [|apply IH].
    apply world_only_bind.
    { unfold fromtimestamp. apply world_only_bind; [apply world_only_call|].
      intros clock. apply world_only_ret. }
    intros acquisition_time.
    apply world_only_bind; [|intros holding_duration; apply IH].
    destruct (datetime_sub current_time acquisition_time);
      [apply world_only_ret|apply world_only_raise].
Qed.

Lemma holding_duration_body_world_only wallet :
  world_only (holding_duration_body svc wallet).
Proof.
  unfold holding_duration_body.
  apply world_only_bind; [apply world_only_call|]. intros [|account accounts].
  - apply world_only_ret.
  - apply world_only_bind; [apply scan_accounts_world_only|].
    intros hs. apply world_only_ret.
Qed.

Lemma get_token_holding_duration_world_only wallet :
  world_only (get_token_holding_duration svc wallet).
Proof.
  unfold get_token_holding_duration.
  apply world_only_try_except; [apply holding_duration_body_world_only|].
  intros e. apply world_only_ret.
Qed.

(** Without a mint of the deployer the loop adds nothing. *)
Lemma scan_accounts_no_deployer accounts holding_info st hs st' :
  no_deployer_mint svc ->
  scan_accounts svc accounts holding_info st = (Ok hs, st') ->
  hs = holding_info.
Proof.
  intros Hforeign. revert holding_info st.
  induction accounts as [|account_pubkey rest IH]; intros holding_info st Hrun;
    cbn [scan_accounts] in Hrun.
  - inversion Hrun; subst. reflexivity.
  - apply bind_inv_Ok in Hrun as (account_info & st1 & _ & Hrun).
    destruct account_info as [token_data|]; [|eapply IH; exact Hrun].
    apply bind_inv_Ok in Hrun as (mint_info & st2 & Hmint & Hrun).
    destruct mint_info as [mint_value|]; [|eapply IH; exact Hrun].
    apply call_inv_Ok in Hmint as (Hmint & _ & _).
    apply Hforeign in Hmint.
    destruct (String.eqb_spec (av_owner mint_value) deployer_address) as [Heq|Hne];
      [contradiction|].
    cbn [negb] in Hrun. eapply IH. exact Hrun.
Qed.

(** X6: [get_token_holding_duration] never raises, whatever the RPC node
    does: it returns a dict, prints nothing and leaves the tracked wallets
    as they were; the dict with holdings names the wallet it was asked
    about. *)
Theorem get_token_holding_duration_never_raises wallet (st : state World) :
  exists info st',
    get_token_holding_duration svc wallet st = (Ok info, st') /\
    stdout st' = stdout st /\
    wallets_to_track st' = wallets_to_track st /\
    match info with
    | Holdings wallet_address _ => wallet_address = wallet
    | HoldingError _ => True
    end.
Proof.
  destruct (get_token_holding_duration svc wallet st) as [r st'] eqn:Hrun.
  destruct (get_token_holding_duration_world_only wallet _ _ _ Hrun) as [Hw Hout].
  unfold get_token_holding_duration, try_except in Hrun.
  destruct (holding_duration_body svc wallet st) as [[info|e] st1] eqn:Hbody;
    inversion Hrun; subst; eexists _, _; repeat split; try assumption.
  unfold holding_duration_body in Hbody.
  apply bind_inv_Ok in Hbody as (accounts & st2 & _ & Hbody).
  destruct accounts as [|account accounts]; [inversion Hbody; subst; exact I|].
  apply bind_inv_Ok in Hbody as (hs & st3 & _ & Hbody).
  inversion Hbody; subst. reflexivity.
Qed.


(** X8: when no account that the node describes is owned by the deployer,
    checking a wallet prints the line that names it and one more, the
    error of the lookup or the notice that no token of the deployer was
    found; the analysis and the rewards are not reached, and nothing is
    raised. *)
Theorem no_deployer_tokens_no_rewards wallet (st : state World) :
  no_deployer_mint svc ->
  exists second st',
    check_wallet svc wallet st = (Ok tt, st') /\
    stdout st'
      = (stdout st ++ [Line (newline ++ "Checking wallet: " ++ wallet);
                       Line second])%list /\
    (second = "No tokens from the DAIO deployer found in this wallet." \/
     exists error, second = "Error: " ++ error).
Proof.
  intros Hforeign. unfold check_wallet.
  set (st0 := printed st (Line (newline ++ "Checking wallet: " ++ wallet))).
  destruct (get_token_holding_duration svc wallet st0) as [r st1] eqn:Hrun.
  destruct (get_token_holding_duration_world_only wallet _ _ _ Hrun) as [_ Hout].
  assert (Hshape : (exists error, r = Ok (HoldingError error)) \/
                   r = Ok (Holdings wallet [])).
  { unfold get_token_holding_duration, try_except in Hrun.
    destruct (holding_duration_body svc wallet st0) as [[info|e] st2] eqn:Hbody;
      inversion Hrun; subst; [|eauto].
    unfold holding_duration_body in Hbody.
    apply bind_inv_Ok in Hbody as (accounts & st3 & _ & Hbody).
    destruct accounts as [|account accounts]; [inversion Hbody; subst; eauto|].
    apply bind_inv_Ok in Hbody as (hs & st4 & Hscan & Hbody).
    apply (scan_accounts_no_deployer _ _ _ _ _ Hforeign) in Hscan.
    inversion Hbody; subst. auto. }
  erewrite bind_Ok; [|reflexivity]. fold st0.
  destruct Hshape as [(error & ->)| ->];
    (erewrite bind_Ok; [|exact Hrun]); cbn [print stdout];
    eexists _, _; (split; [reflexivity|]); cbn [stdout];
    rewrite Hout; unfold st0; cbn [printed stdout];
    rewrite <- app_assoc; (split; [reflexivity|]); eauto.
Qed.

End LookupProperties.


(** A wallet that holds a token of the deployer, with a history: the lookup
    returns the error of the subtraction. *)
Example lookup_of_a_holder :
  fst (DAIORewardSystem.get_token_holding_duration Demo.svc "calm"
         (Demo.start ∅ []))
  = Ok (HoldingError
          ("Error checking token holding duration: "
           ++ "can't subtract offset-naive and offset-aware datetimes")).
Proof. vm_compute. reflexivity. Qed.

Lemma stranger_no_deployer_mint : no_deployer_mint Stranger.svc.
Proof.
  intros pubkey w value w' Hinfo. simpl in Hinfo.
  inversion Hinfo; subst. simpl. discriminate.
Qed.

Lemma no_deployer_tokens_no_rewards_witness :
  exists second st',
    DAIORewardSystem.check_wallet Stranger.svc "calm" (Demo.start ∅ [])
      = (Ok tt, st') /\
    stdout st'
      = [Line (DAIORewardSystem.newline ++ "Checking wallet: " ++ "calm");
         Line second] /\
    (second = "No tokens from the DAIO deployer found in this wallet." \/
     exists error, second = "Error: " ++ error).
Proof.
  apply (no_deployer_tokens_no_rewards Stranger.svc "calm" (Demo.start ∅ [])).
  exact stranger_no_deployer_mint.
Defined.

Section AnalysisProperties.
Context {World : Type} (svc : Services World).

Import DAIORewardSystem QuantumAIUtils.

(** X9: on a dict without holdings (the dict with the key ["error"], or an
    empty list of holdings) [analyze_holding_pattern] returns at once, with
    no call to the language model or to the simulator, a dict that holds
    the key ["analysis"] only: reading ["quantum_confidence"] from it
    raises a [KeyError]. *)
Theorem analyze_without_holdings wallet_data (st st1 : state World) :
  ~ has_holdings wallet_data ->
  exists d,
    analyze_holding_pattern svc wallet_data st
      = (Ok d, printed st (EnterAnalyze wallet_data)) /\
    d !! "analysis" = Some (PyStrV "No holdings found to analyze.") /\
    d !! "quantum_confidence" = None /\
    getitem d "quantum_confidence" st1
      = (Raise (KeyError "quantum_confidence"), st1).
Proof.
  intros Hnone.
  exists {[ "analysis" := PyStrV "No holdings found to analyze." ]}.
  assert (Hquiet : ({[ "analysis" := PyStrV "No holdings found to analyze." ]}
                      : gmap string pyval) !! "quantum_confidence" = None)
    by (apply lookup_singleton_ne; discriminate).
  split; [|split; [apply lookup_singleton_eq|split; [exact Hquiet|]]].
  - destruct wallet_data as [error|wallet [|h hs]]; try reflexivity.
    exfalso. apply Hnone. exact I.
  - unfold getitem. rewrite Hquiet. reflexivity.
Qed.

(** X11: when the execution of the seed circuit fails, or reports no
    outcome, [calculate_rewards] raises (the error of the simulator, or an
    [IndexError]) right after that execution: the boost circuit is not
    executed and nothing is printed. *)
Theorem seed_failure_stops_rewards days wallet (st : state World) answer w1 :
  execute svc (seed_circuit wallet) 1 (world st) = (answer, w1) ->
  match answer with inr (_ :: _) => False | _ => True end ->
  calculate_rewards svc days wallet st
    = (Raise match answer with
             | inl msg => ExternalError msg
             | inr _ => IndexError "list index out of range"
             end,
       mkState (wallets_to_track st) w1 (stdout st)).
Proof.
  intros Hexec Hbad. unfold calculate_rewards.
  apply bind_Raise_run. unfold generate_quantum_seed.
  destruct answer as [msg|[|[key n] rest]]; try contradiction.
  - apply bind_Raise_run. unfold call. rewrite Hexec. reflexivity.
  - erewrite bind_Ok; [|unfold call; rewrite Hexec; reflexivity]. reflexivity.
Qed.

End AnalysisProperties.

Lemma analyze_without_holdings_witness :
  exists d,
    QuantumAIUtils.analyze_holding_pattern Demo.svc (HoldingError "rpc timeout")
      (Demo.start ∅ [])
      = (Ok d, printed (Demo.start ∅ []) (EnterAnalyze (HoldingError "rpc timeout"))) /\
    d !! "analysis" = Some (PyStrV "No holdings found to analyze.") /\
    d !! "quantum_confidence" = None /\
    DAIORewardSystem.getitem d "quantum_confidence" (Demo.start ∅ [])
      = (Raise (KeyError "quantum_confidence"), Demo.start ∅ []).
Proof.
  apply (analyze_without_holdings Demo.svc (HoldingError "rpc timeout")
           (Demo.start ∅ []) (Demo.start ∅ [])).
  simpl. tauto.
Defined.

Lemma seed_failure_stops_rewards_witness :
  DAIORewardSystem.calculate_rewards Demo.svc 400 "7xKX" (Demo.start ∅ [])
  = (Raise (ExternalError "simulator unavailable"), Demo.start ∅ []).
Proof.
  apply (seed_failure_stops_rewards Demo.svc 400 "7xKX" (Demo.start ∅ [])
           (inl "simulator unavailable") []).
  - reflexivity.
  - exact I.
Defined.

Section BatchInvariants.
Context {World : Type} (svc : Services World).

Import DAIORewardSystem QuantumAIUtils.

Lemma generate_quantum_seed_world_only wallet :
  world_only (generate_quantum_seed svc wallet).
Proof.
  unfold generate_quantum_seed.
  apply world_only_bind; [apply world_only_call|].
  intros [|[key n] rest]; [apply world_only_raise|].
  destruct (int_base2 key) as [z|e]; [apply world_only_ret|apply world_only_raise].
Qed.

Lemma calculate_rewards_world_only days wallet :
  world_only (calculate_rewards svc days wallet).
Proof.
  unfold calculate_rewards.
  apply world_only_bind; [apply generate_quantum_seed_world_only|]. intros seed.
  destruct (base_tier days) as [tier base].
  apply world_only_bind.
  { unfold quantum_boost_multiplier.
    apply world_only_bind; [apply world_only_call|]. intros c.
    apply world_only_ret. }
  intros boost. apply world_only_ret.
Qed.

Lemma analyze_holding_pattern_extends wallet_data :
  extends_output (analyze_holding_pattern svc wallet_data).
Proof.
  unfold analyze_holding_pattern.
  apply extends_bind; [apply extends_print|]. intros _.
  apply world_only_extends.
  destruct wallet_data as [error|wallet [|h hs]]; try apply world_only_ret.
  apply world_only_bind; [apply world_only_call|]. intros message.
  apply world_only_bind; [apply generate_quantum_seed_world_only|]. intros seed.
  apply world_only_ret.
Qed.

Lemma getitem_world_only d key : world_only (getitem d key : M World pyval).
Proof.
  unfold getitem. destruct (d !! key); [apply world_only_ret|apply world_only_raise].
Qed.

Lemma check_wallet_extends wallet : extends_output (check_wallet svc wallet).
Proof.
  unfold check_wallet.
  apply extends_bind; [apply extends_print|]. intros _.
  apply extends_bind;
    [apply world_only_extends, get_token_holding_duration_world_only|].
  intros [error|wallet' [|h hs]]; try apply extends_print.
  apply extends_bind; [apply analyze_holding_pattern_extends|]. intros d.
  apply extends_bind; [apply world_only_extends, getitem_world_only|]. intros a.
  apply extends_bind; [apply extends_print|]. intros _.
  apply extends_bind; [apply world_only_extends, getitem_world_only|]. intros c.
  apply extends_bind; [apply extends_print|]. intros _.
  apply extends_for_each. intros h'. unfold report_holding.
  apply extends_bind; [apply extends_print|]. intros _.
  apply extends_bind; [apply world_only_extends, calculate_rewards_world_only|].
  intros r. apply extends_print.
Qed.

(** X12: with no wallet tracked, [check_all_wallets] prints its header and
    the notice that no wallet is tracked, and does nothing else: no call
    to any collaborator is made. *)
Theorem check_all_wallets_nothing_tracked (st : state World) :
  wallets_to_track st = ∅ ->
  check_all_wallets svc st
    = (Ok tt,
       mkState ∅ (world st)
         (stdout st ++ [ScheduledCheckHeader;
                        Line "No wallets are currently being tracked."])).
Proof.
  intros Hempty. unfold check_all_wallets.
  erewrite bind_Ok; [|reflexivity].
  erewrite bind_Ok; [|reflexivity].
  cbn [wallets_to_track]. rewrite Hempty, elements_empty.
  unfold print. cbn [wallets_to_track world stdout].
  rewrite <- app_assoc. reflexivity.
Qed.

(** X13: however a run of [check_all_wallets] ends, by a return or by an
    exception, the tracked wallets are after it what they were before, and
    the output is the output before it followed by the header and by what
    the run printed. *)
Theorem check_all_wallets_keeps_wallets (st : state World) :
  wallets_to_track (snd (check_all_wallets svc st)) = wallets_to_track st /\
  exists out,
    stdout (snd (check_all_wallets svc st))
      = (stdout st ++ ScheduledCheckHeader :: out)%list.
Proof.
  destruct (check_all_wallets svc st) as [r st'] eqn:Hrun. cbn [snd].
  unfold check_all_wallets in Hrun.
  erewrite bind_Ok in Hrun; [|reflexivity].
  erewrite bind_Ok in Hrun; [|reflexivity].
  assert (Hrest : extends_output
            (match elements (wallets_to_track (printed st ScheduledCheckHeader)) with
             | [] => print (Line "No wallets are currently being tracked.")
             | wallets => for_each (check_wallet svc) wallets
             end : M World unit)).
  { destruct (elements _); [apply extends_print|].
    apply extends_for_each. intros w. apply check_wallet_extends. }
  destruct (Hrest _ _ _ Hrun) as [Hw (out & Hout)].
  split; [exact Hw|]. exists out. rewrite Hout. cbn [stdout].
  rewrite <- app_assoc. reflexivity.
Qed.

End BatchInvariants.

Lemma check_all_wallets_nothing_tracked_witness :
  DAIORewardSystem.check_all_wallets Demo.svc (Demo.start ∅ Demo.reward_script)
  = (Ok tt,
     mkState ∅ Demo.reward_script
       [ScheduledCheckHeader; Line "No wallets are currently being tracked."]).
Proof.
  apply (check_all_wallets_nothing_tracked Demo.svc
           (Demo.start ∅ Demo.reward_script)).
  reflexivity.
Defined.

(** ** Further properties of the command loop *)

Lemma for_each_print_lines {World} (ws : list string) (st : state World) :
  for_each (fun wallet => print (Line wallet)) ws st
  = (Ok tt, mkState (wallets_to_track st) (world st) (stdout st ++ map Line ws)).
Proof.
  revert st. induction ws as [|w ws IH]; intros st; cbn [for_each map].
  - rewrite app_nil_r. destruct st; reflexivity.
  - erewrite bind_Ok; [|reflexivity]. rewrite IH.
    cbn [wallets_to_track world stdout]. rewrite <- app_assoc. reflexivity.
Qed.

Lemma prefix_chars (p s : string) :
  String.prefix p s = true ->
  exists rest, PyStr.chars s = (PyStr.chars p ++ rest)%list.
Proof.
  revert s. induction p as [|a p IH]; intros s Hpre.
  - exists (PyStr.chars s). reflexivity.
  - apply prefix_head in Hpre as (s' & -> & Hpre).
    destruct (IH s' Hpre) as (rest & Hrest).
    exists rest. unfold PyStr.chars in *. cbn [list_ascii_of_string app].
    rewrite Hrest. reflexivity.
Qed.

Lemma drop_while_head {A} (p : A -> bool) (l : list A) :
  match PyStr.drop_while p l with
  | [] => True
  | x :: _ => p x = false
  end.
Proof.
  induction l as [|x l IH]; cbn [PyStr.drop_while]; [exact I|].
  destruct (p x) eqn:Hx; [exact IH|exact Hx].
Qed.

Lemma existsb_drop_while {A} (p : A -> bool) (l : list A) :
  existsb (fun x => negb (p x)) (PyStr.drop_while p l)
  = existsb (fun x => negb (p x)) l.
Proof.
  induction l as [|x l IH]; cbn [PyStr.drop_while]; [reflexivity|].
  destruct (p x) eqn:Hx; [|reflexivity].
  cbn [existsb]. rewrite Hx. exact IH.
Qed.

Lemma existsb_rev {A} (f : A -> bool) (l : list A) :
  existsb f (rev l) = existsb f l.
Proof.
  induction l as [|x l IH]; [reflexivity|].
  cbn [rev existsb]. rewrite existsb_app, IH. cbn [existsb].
  rewrite orb_false_r. apply orb_comm.
Qed.

Lemma strip_chars_keeps_nonspace (l : list ascii) :
  existsb (fun c => negb (PyStr.isspace c)) (PyStr.strip_chars l)
  = existsb (fun c => negb (PyStr.isspace c)) l.
Proof.
  unfold PyStr.strip_chars.
  rewrite existsb_rev, existsb_drop_while, existsb_rev, existsb_drop_while.
  reflexivity.
Qed.

(** A stripped string does not end in white space. *)
Lemma strip_chars_last (l : list ascii) :
  match rev (PyStr.strip_chars l) with
  | [] => True
  | c :: _ => PyStr.isspace c = false
  end.
Proof.
  unfold PyStr.strip_chars. rewrite rev_involutive. apply drop_while_head.
Qed.

(** What follows the command word in a stripped line holds a character
    that is no white space. *)
Lemma address_part_nonspace (c : address_command) (l rest : list ascii) :
  PyStr.strip_chars l = (PyStr.chars (command_word c) ++ rest)%list ->
  existsb (fun ch => negb (PyStr.isspace ch)) rest = true.
Proof.
  intros Hsplit. pose proof (strip_chars_last l) as Hlast.
  rewrite Hsplit, rev_app_distr in Hlast.
  destruct (rev rest) as [|ch rest'] eqn:Hrev.
  - destruct c; cbn in Hlast; discriminate.
  - cbn [app] in Hlast.
    rewrite <- (existsb_rev _ rest), Hrev. cbn [existsb].
    rewrite Hlast. reflexivity.
Qed.

Lemma chars_strip (s : string) :
  PyStr.chars (PyStr.strip s) = PyStr.strip_chars (PyStr.chars s).
Proof. unfold PyStr.strip. apply chars_of_chars. Qed.

Lemma chars_slice_from (n : nat) (s : string) :
  PyStr.chars (PyStr.slice_from n s) = drop n (PyStr.chars s).
Proof. unfold PyStr.slice_from. apply chars_of_chars. Qed.

Lemma stored_address_nonempty (c : address_command) (line : string) :
  PyStr.startswith (command_word c) (PyStr.lower (PyStr.strip line)) = true ->
  PyStr.strip
    (PyStr.slice_from (length (PyStr.chars (command_word c)))
       (PyStr.lower (PyStr.strip line))) <> "".
Proof.
  intros Hword Hempty.
  apply prefix_chars in Hword as (rest & Hrest).
  assert (Hstripped : PyStr.chars (PyStr.lower (PyStr.strip line))
                      = PyStr.strip_chars (map PyStr.lower_char (PyStr.chars line))).
  { unfold PyStr.lower, PyStr.strip. rewrite !chars_of_chars.
    symmetry. apply strip_chars_lower. }
  rewrite Hstripped in Hrest.
  pose proof (address_part_nonspace c _ _ Hrest) as Hnonspace.
  apply (f_equal PyStr.chars) in Hempty.
  rewrite chars_strip, chars_slice_from, Hstripped, Hrest, drop_app_length
    in Hempty.
  rewrite <- strip_chars_keeps_nonspace, Hempty in Hnonspace. discriminate.
Qed.

Section CommandLoopRuns.
Context {World : Type}.

Import DAIORewardSystem.

(** The run of an [add] or of a [remove]. *)
Lemma main_iteration_address_run (c : address_command) (line : string)
    (st : state World) :
  PyStr.startswith (command_word c) (PyStr.lower (PyStr.strip line)) = true ->
  let address :=
    PyStr.strip
      (PyStr.slice_from (length (PyStr.chars (command_word c)))
         (PyStr.lower (PyStr.strip line))) in
  main_iteration line st
    = (Ok Continue,
       mkState (command_effect c address (wallets_to_track st)) (world st)
         (stdout st ++ [Line (command_message c address)])).
Proof.
  intros Hword address. subst address.
  unfold main_iteration, try_except.
  destruct c; cbn [command_word command_effect command_message] in *;
    change (length (PyStr.chars "add ")) with 4%nat;
    change (length (PyStr.chars "remove ")) with 7%nat;
    unfold PyStr.startswith in *;
    destruct (prefix_head _ _ _ Hword) as (rest & Hcmd & _);
    rewrite Hcmd in *; rewrite Hword; reflexivity.
Qed.

End CommandLoopRuns.

(** ** The command loop on every code point *)

Section CodePoints.
Local Open Scope N_scope.

Import Unicode.

Lemma run_members_In (step first : N) (n k : nat) :
  (k < n)%nat -> In (first + N.of_nat k * step) (run_members first step n).
Proof.
  revert first k. induction n as [|n IH]; intros first k Hk; [lia|].
  destruct k as [|k]; cbn [run_members].
  - left. lia.
  - right.
    replace (first + N.of_nat (S k) * step)
      with ((first + step) + N.of_nat k * step) by lia.
    apply IH. lia.
Qed.

Lemma in_run_bounds (c first last step : N) :
  in_run c (first, last, step) = true ->
  first <= c <= last /\ (c - first) mod step = 0.
Proof.
  unfold in_run.
  destruct (N.leb_spec first c); [|discriminate].
  destruct (N.leb_spec c last); [|discriminate].
  intros Hmod%N.eqb_eq. lia.
Qed.

Lemma in_run_members (c first last step : N) :
  step <> 0 ->
  in_run c (first, last, step) = true -> In c (members (first, last, step)).
Proof.
  intros Hstep [Hbounds Hmod]%in_run_bounds. unfold members.
  pose proof (N.div_mod (c - first) step Hstep) as Hdiv.
  rewrite Hmod, N.add_0_r in Hdiv.
  assert (Hle : (c - first) / step <= (last - first) / step)
    by (apply N.Div0.div_le_mono; lia).
  replace c with (first + N.of_nat (N.to_nat ((c - first) / step)) * step)
    by (rewrite N2Nat.id; lia).
  apply run_members_In. lia.
Qed.

Lemma table_all_sound (p : N -> bool) (table : list (N * N * N)) (c : N) :
  table_all p table = true -> member c table = true -> p c = true.
Proof.
  unfold table_all, member.
  induction table as [|[[first last] step] table IH]; [discriminate|].
  cbn [forallb existsb].
  intros [[Hstep Hall]%andb_true_iff Htable]%andb_true_iff
         [Hrun|Hrest]%orb_true_iff; [|exact (IH Htable Hrest)].
  apply negb_true_iff, N.eqb_neq in Hstep.
  exact (proj1 (forallb_forall _ _) Hall c (in_run_members _ _ _ _ Hstep Hrun)).
Qed.

Lemma lower_table_all_sound (p : N -> N -> bool)
    (table : list (N * N * N * N)) (c l : N) :
  lower_table_all p table = true ->
  lookup_lower c table = Some l -> p c l = true.
Proof.
  unfold lower_table_all.
  induction table as [|[[[first last] step] target] table IH]; [discriminate|].
  cbn [forallb lookup_lower].
  intros [[Hstep Hall]%andb_true_iff Htable]%andb_true_iff.
  destruct (in_run c (first, last, step)) eqn:Hrun; [|exact (IH Htable)].
  intros [= <-].
  apply negb_true_iff, N.eqb_neq in Hstep.
  exact (proj1 (forallb_forall _ _) Hall c (in_run_members _ _ _ _ Hstep Hrun)).
Qed.

(** White space has no other case, and the rule of the final sigma stops
    at it. *)
Lemma isspace_facts (c : N) :
  isspace c = true ->
  (c =? 0x3A3) = false /\ lower_char c = [c] /\ inert c = true.
Proof.
  intros Hspace.
  assert (Hall : table_all
            (fun c => negb (c =? 0x3A3) && negb (c =? 0x130)
                      && bool_decide (lookup_lower c lower_table = None)
                      && inert c) space_table = true)
    by (vm_compute; reflexivity).
  pose proof (table_all_sound _ _ c Hall Hspace) as Hc.
  apply andb_true_iff in Hc as [Hc Hinert].
  apply andb_true_iff in Hc as [Hc Hlookup].
  apply andb_true_iff in Hc as [Hsigma Hdot].
  apply negb_true_iff in Hsigma, Hdot. apply bool_decide_eq_true in Hlookup.
  unfold lower_char. rewrite Hdot, Hlookup. auto.
Qed.

Lemma lower_char_nonempty (c : N) : lower_char c <> [].
Proof.
  unfold lower_char. destruct (c =? 0x130); [discriminate|].
  destruct (lookup_lower c lower_table); discriminate.
Qed.

Lemma lower_char_cases (c : N) :
  lower_char c = [0x69; 0x307] \/ exists l, lower_char c = [l].
Proof.
  unfold lower_char. destruct (c =? 0x130); [auto|].
  destruct (lookup_lower c lower_table); eauto.
Qed.

(** No lower case is white space, unless the code point is. *)
Lemma lower_char_nonspace (c : N) :
  isspace c = false ->
  forallb (fun l => negb (isspace l)) (lower_char c) = true.
Proof.
  intros Hspace. unfold lower_char.
  destruct (c =? 0x130); [vm_compute; reflexivity|].
  destruct (lookup_lower c lower_table) as [l|] eqn:Hlookup.
  - assert (Hall : lower_table_all (fun _ l => negb (isspace l)) lower_table
                   = true) by (vm_compute; reflexivity).
    cbn [forallb]. rewrite (lower_table_all_sound _ _ c l Hall Hlookup).
    reflexivity.
  - cbn [forallb]. rewrite Hspace. reflexivity.
Qed.

Lemma lower_sigma_cases (before after : list N) :
  lower_sigma before after = 0x3C2 \/ lower_sigma before after = 0x3C3.
Proof. unfold lower_sigma. destruct (_ && _); auto. Qed.

(** *** The context of a sigma *)

Lemma next_is_cased_barrier (u : list N) (w : N) (b : list N) :
  inert w = true -> next_is_cased (u ++ w :: b)%list = next_is_cased u.
Proof.
  intros [Hci Hcased]%andb_true_iff. apply negb_true_iff in Hci, Hcased.
  unfold next_is_cased.
  induction u as [|x u IH]; cbn [app drop_while].
  - rewrite Hci. exact Hcased.
  - destruct (case_ignorable x); [exact IH|reflexivity].
Qed.

Lemma lower_from_context (b b' s : list N) :
  (forall u, next_is_cased (u ++ b)%list = next_is_cased (u ++ b')%list) ->
  lower_from b s = lower_from b' s.
Proof.
  revert b b'. induction s as [|c s IH]; intros b b' Hctx; [reflexivity|].
  cbn [lower_from]. unfold lower_sigma.
  pose proof (Hctx []) as Hhere. cbn [app] in Hhere.
  rewrite Hhere. f_equal. apply IH. intros u.
  replace (u ++ c :: b)%list with ((u ++ [c]) ++ b)%list
    by (rewrite <- app_assoc; reflexivity).
  replace (u ++ c :: b')%list with ((u ++ [c]) ++ b')%list
    by (rewrite <- app_assoc; reflexivity).
  apply Hctx.
Qed.

Lemma lower_from_barrier (w : N) (b s : list N) :
  inert w = true -> lower_from (w :: b) s = lower_from [] s.
Proof.
  intros Hinert. apply lower_from_context. intros u.
  rewrite app_nil_r. apply next_is_cased_barrier, Hinert.
Qed.

Lemma next_is_cased_app (x t : list N) :
  tail_inert t -> next_is_cased (x ++ t)%list = next_is_cased x.
Proof.
  destruct t as [|w t]; intros Ht.
  - rewrite app_nil_r. reflexivity.
  - apply next_is_cased_barrier, Ht.
Qed.

Lemma lower_from_app (b s t : list N) :
  tail_inert t ->
  lower_from b (s ++ t)%list
  = (lower_from b s ++ lower_from (rev s ++ b) t)%list.
Proof.
  intros Ht. revert b. induction s as [|c s IH]; intros b; [reflexivity|].
  cbn [app lower_from rev]. unfold lower_sigma.
  rewrite (next_is_cased_app s t Ht), IH, <- !app_assoc. reflexivity.
Qed.

(** *** White space around the lowered text *)

Lemma lower_from_space (b : list N) (w : N) (s : list N) :
  isspace w = true -> lower_from b (w :: s) = w :: lower_from [] s.
Proof.
  intros (Hsigma & Hlower & Hinert)%isspace_facts.
  cbn [lower_from]. rewrite Hsigma, Hlower.
  cbn [app]. f_equal. apply lower_from_barrier, Hinert.
Qed.

Lemma lower_from_nonspace (b : list N) (c : N) (s : list N) :
  isspace c = false ->
  exists o out,
    lower_from b (c :: s) = (o :: out ++ lower_from (c :: b) s)%list /\
    forallb (fun l => negb (isspace l)) (o :: out) = true.
Proof.
  intros Hspace. cbn [lower_from].
  destruct (c =? 0x3A3).
  - exists (lower_sigma b s), []. split; [reflexivity|].
    destruct (lower_sigma_cases b s) as [-> | ->]; vm_compute; reflexivity.
  - pose proof (lower_char_nonspace c Hspace) as Hout.
    destruct (lower_char c) as [|o out] eqn:Hlower;
      [exfalso; exact (lower_char_nonempty c Hlower)|].
    exists o, out. split; [reflexivity|exact Hout].
Qed.

Lemma lower_from_lstrip (s : list N) :
  drop_while isspace (lower_from [] s)
  = lower_from [] (drop_while isspace s).
Proof.
  induction s as [|c s IH]; [reflexivity|].
  cbn [drop_while]. destruct (isspace c) eqn:Hspace.
  - rewrite (lower_from_space _ _ _ Hspace). cbn [drop_while].
    rewrite Hspace. exact IH.
  - destruct (lower_from_nonspace [] c s Hspace) as (o & out & -> & Hout).
    cbn [forallb] in Hout. apply andb_true_iff in Hout as [Ho _].
    apply negb_true_iff in Ho. cbn [drop_while]. rewrite Ho. reflexivity.
Qed.

Lemma lower_from_spaces (b ws : list N) :
  forallb isspace ws = true -> lower_from b ws = ws.
Proof.
  revert b. induction ws as [|w ws IH]; intros b Hws; [reflexivity|].
  cbn [forallb] in Hws. apply andb_true_iff in Hws as [Hw Hws].
  rewrite (lower_from_space _ _ _ Hw), (IH [] Hws). reflexivity.
Qed.

Lemma lower_from_nil (b s : list N) : lower_from b s = [] -> s = [].
Proof.
  destruct s as [|c s]; [reflexivity|]. cbn [lower_from].
  intros [Hout _]%app_eq_nil. destruct (c =? 0x3A3); [discriminate|].
  destruct (lower_char_nonempty c Hout).
Qed.

Lemma ends_nonspace_cons (c : N) (s : list N) :
  s <> [] -> ends_nonspace (c :: s) <-> ends_nonspace s.
Proof.
  intros Hs. unfold ends_nonspace.
  destruct s as [|c' s]; [contradiction|]. rewrite last_cons_cons. reflexivity.
Qed.

Lemma ends_nonspace_app (x y : list N) :
  y <> [] -> ends_nonspace (x ++ y)%list <-> ends_nonspace y.
Proof.
  intros Hy. induction x as [|c x IH]; [reflexivity|].
  cbn [app]. rewrite ends_nonspace_cons; [exact IH|].
  intros [_ ->]%app_eq_nil. contradiction.
Qed.

Lemma ends_nonspace_forallb (o : N) (out : list N) :
  forallb (fun l => negb (isspace l)) (o :: out) = true ->
  ends_nonspace (o :: out).
Proof.
  intros Hall. unfold ends_nonspace.
  destruct (last (o :: out)) as [c|] eqn:Hlast; [|exact I].
  apply last_Some in Hlast as [l' Hl].
  assert (Hin : In c (o :: out)) by (rewrite Hl; apply in_or_app; right; left; reflexivity).
  apply negb_true_iff.
  exact (proj1 (forallb_forall _ _) Hall c Hin).
Qed.

Lemma lower_from_ends_nonspace (b s : list N) :
  ends_nonspace s -> ends_nonspace (lower_from b s).
Proof.
  revert b. induction s as [|c s IH]; intros b Hs; [exact I|].
  destruct s as [|c' s].
  - assert (Hspace : isspace c = false) by exact Hs.
    destruct (lower_from_nonspace b c [] Hspace) as (o & out & -> & Hout).
    cbn [lower_from]. rewrite app_nil_r.
    apply ends_nonspace_forallb, Hout.
  - apply ends_nonspace_cons in Hs; [|discriminate].
    specialize (IH (c :: b) Hs).
    assert (Hrest : lower_from (c :: b) (c' :: s) <> [])
      by (intros Hnil%lower_from_nil; discriminate).
    change (lower_from b (c :: c' :: s))
      with ((if c =? 0x3A3 then [lower_sigma b (c' :: s)] else lower_char c)
            ++ lower_from (c :: b) (c' :: s))%list.
    apply ends_nonspace_app; assumption.
Qed.

Lemma drop_while_all (p : N -> bool) (a b : list N) :
  forallb p a = true -> drop_while p (a ++ b)%list = drop_while p b.
Proof.
  induction a as [|x a IH]; [reflexivity|].
  cbn [forallb app drop_while]. intros [-> Ha]%andb_true_iff. exact (IH Ha).
Qed.

Lemma forallb_rev (p : N -> bool) (l : list N) :
  forallb p (rev l) = forallb p l.
Proof.
  induction l as [|x l IH]; [reflexivity|].
  cbn [rev forallb]. rewrite forallb_app, IH. cbn [forallb].
  rewrite andb_true_r. apply andb_comm.
Qed.

Lemma rstrip_spaces (x ws : list N) :
  forallb isspace ws = true -> rstrip (x ++ ws)%list = rstrip x.
Proof.
  intros Hws. unfold rstrip. rewrite rev_app_distr, drop_while_all;
    [reflexivity|]. rewrite forallb_rev. exact Hws.
Qed.

Lemma rstrip_ends_nonspace (s : list N) : ends_nonspace s -> rstrip s = s.
Proof.
  unfold ends_nonspace, rstrip.
  destruct (last s) as [c|] eqn:Hlast.
  - apply last_Some in Hlast as [s' ->]. intros Hc.
    rewrite rev_app_distr. cbn [rev app drop_while]. rewrite Hc.
    change (c :: rev s') with (rev [c] ++ rev s')%list.
    rewrite <- rev_app_distr. apply rev_involutive.
  - apply last_None in Hlast as ->. reflexivity.
Qed.

(** A text is one that ends in no white space, and white space. *)
Lemma trailing_spaces (s : list N) :
  exists s0 ws,
    s = (s0 ++ ws)%list /\ forallb isspace ws = true /\ ends_nonspace s0.
Proof.
  induction s as [|c s IH] using rev_ind.
  - exists [], []. repeat split.
  - destruct (isspace c) eqn:Hspace.
    + destruct IH as (s0 & ws & -> & Hws & Hs0).
      exists s0, (ws ++ [c])%list. rewrite app_assoc. split; [reflexivity|].
      split; [|exact Hs0].
      rewrite forallb_app, Hws. cbn [forallb]. rewrite Hspace. reflexivity.
    + exists (s ++ [c])%list, []. rewrite app_nil_r. split; [reflexivity|].
      split; [reflexivity|].
      unfold ends_nonspace. rewrite last_snoc. exact Hspace.
Qed.

Lemma lower_from_rstrip (b s : list N) :
  rstrip (lower_from b s) = lower_from b (rstrip s).
Proof.
  destruct (trailing_spaces s) as (s0 & ws & -> & Hws & Hs0).
  assert (Hinert : tail_inert ws).
  { destruct ws as [|w ws]; [exact I|].
    cbn [forallb] in Hws. apply andb_true_iff in Hws as [Hw _].
    apply (isspace_facts w Hw). }
  rewrite (lower_from_app b s0 ws Hinert), (lower_from_spaces _ ws Hws).
  rewrite !(rstrip_spaces _ ws Hws).
  rewrite (rstrip_ends_nonspace s0 Hs0).
  apply rstrip_ends_nonspace, lower_from_ends_nonspace, Hs0.
Qed.

(** Stripping commutes with lowering, on every text. *)
Lemma strip_lower_code_points (s : list N) :
  strip (lower s) = lower (strip s).
Proof.
  unfold lower.
  change (strip (lower_from [] s))
    with (rstrip (drop_while isspace (lower_from [] s))).
  change (strip s) with (rstrip (drop_while isspace s)).
  rewrite lower_from_lstrip. apply lower_from_rstrip.
Qed.

(** *** The command word *)

Lemma startswith_app (p x : list N) : startswith p (p ++ x)%list = true.
Proof.
  induction p as [|a p IH]; [reflexivity|].
  cbn [app startswith]. rewrite N.eqb_refl. exact IH.
Qed.

(** A lowered text that starts with plain code points is the lowering of a
    text whose first code points lower to them, one for one. *)
Lemma lower_from_prefix (word b s : list N) :
  Forall plain word ->
  startswith word (lower_from b s) = true ->
  exists pre rest,
    s = (pre ++ rest)%list /\
    Forall2 (fun c w => lower_char c = [w]) pre word /\
    lower_from b s = (word ++ lower_from (rev pre ++ b) rest)%list.
Proof.
  intros Hplain. revert b s.
  induction Hplain as [|w word (Hi & Hfinal & Hsmall) _ IH]; intros b s Hstart.
  - exists [], s. repeat split. constructor.
  - destruct s as [|c s]; [discriminate|].
    cbn [lower_from] in Hstart |- *.
    destruct (c =? 0x3A3).
    + cbn [app startswith] in Hstart.
      apply andb_true_iff in Hstart as [Hw%N.eqb_eq _].
      destruct (lower_sigma_cases b s) as [Hs|Hs]; rewrite Hs in Hw;
        contradiction.
    + destruct (lower_char_cases c) as [Hc|[l Hc]]; rewrite Hc in Hstart |- *;
        cbn [app startswith] in Hstart;
        apply andb_true_iff in Hstart as [Hw%N.eqb_eq Hstart];
        [contradiction|].
      subst l.
      destruct (IH (c :: b) s Hstart) as (pre & rest & -> & Hpre & Hlower).
      exists (c :: pre), rest. split; [reflexivity|].
      split; [constructor; assumption|].
      cbn [app rev]. rewrite Hlower, <- app_assoc. reflexivity.
Qed.

Lemma command_word_plain (c : address_command) :
  Forall plain (of_str (command_word c)).
Proof.
  destruct c; vm_compute; repeat constructor; discriminate.
Qed.

(** The wallet of an [add] or of a [remove], on every line. *)
Lemma cli_address_run (c : address_command) (line : list N) :
  startswith (of_str (command_word c)) (lower (strip line)) = true ->
  cli_address line
  = Some (c, lower (typed_code_points
                      (length (PyStr.chars (command_word c))) line)).
Proof.
  intros Hword. unfold lower in Hword.
  destruct (lower_from_prefix _ _ _ (command_word_plain c) Hword)
    as (pre & rest & Hline & Hpre & Hlower).
  assert (Hlen : length pre = length (PyStr.chars (command_word c))).
  { rewrite (Forall2_length _ _ _ Hpre). unfold of_str.
    apply length_map. }
  assert (Hbarrier : exists w b, rev pre = w :: b /\ inert w = true).
  { assert (Hlast : exists word', of_str (command_word c) = (word' ++ [0x20])%list)
      by (destruct c; [exists (of_str "add")|exists (of_str "remove")];
          reflexivity).
    destruct Hlast as [word' Hword'].
    rewrite Hword' in Hpre.
    apply Forall2_app_inv_r in Hpre as (pre' & last' & _ & Hlast & ->).
    inversion Hlast as [|w ? ? ? Hw Hnil]; subst.
    inversion Hnil; subst.
    exists w, (rev pre'). split; [apply rev_unit|].
    destruct (isspace w) eqn:Hspace; [apply (isspace_facts w Hspace)|].
    pose proof (lower_char_nonspace w Hspace) as Hout.
    rewrite Hw in Hout. vm_compute in Hout. discriminate. }
  destruct Hbarrier as (w & b & Hrev & Hinert).
  rewrite app_nil_r, Hrev, (lower_from_barrier w b rest Hinert) in Hlower.
  assert (Htyped : typed_code_points
                     (length (PyStr.chars (command_word c))) line
                   = strip rest).
  { unfold typed_code_points, slice_from.
    rewrite Hline, <- Hlen, drop_app_length. reflexivity. }
  rewrite Htyped, <- strip_lower_code_points.
  unfold cli_address, slice_from.
  change (lower (strip line)) with (lower_from [] (strip line)).
  rewrite Hlower. change (lower_from [] rest) with (lower rest).
  destruct c; cbn [command_word] in *.
  - rewrite bool_decide_eq_false_2 by discriminate.
    rewrite startswith_app.
    rewrite (drop_app_length' _ _ 4) by reflexivity. reflexivity.
  - rewrite bool_decide_eq_false_2 by discriminate.
    change (startswith (of_str "add ") (of_str "remove " ++ lower rest)%list)
      with false.
    rewrite startswith_app.
    rewrite (drop_app_length' _ _ 7) by reflexivity. reflexivity.
Qed.

(** *** A text that lowering leaves as it is *)

Lemma lower_from_length (b s : list N) :
  (length s <= length (lower_from b s))%nat.
Proof.
  revert b. induction s as [|c s IH]; intros b; [reflexivity|].
  cbn [lower_from]. rewrite length_app. specialize (IH (c :: b)).
  assert (1 <= length (if (c =? 0x3A3)%N then [lower_sigma b s]
                       else lower_char c))%nat.
  { destruct (c =? 0x3A3); [reflexivity|].
    pose proof (lower_char_nonempty c).
    destruct (lower_char c); [contradiction|cbn; lia]. }
  cbn [length]. lia.
Qed.

Lemma lower_from_fixed (b s : list N) :
  lower_from b s = s -> forall ch, In ch s -> lower [ch] = [ch].
Proof.
  revert b. induction s as [|c s IH]; intros b Hfixed ch Hin; [destruct Hin|].
  cbn [lower_from] in Hfixed.
  pose proof (lower_from_length (c :: b) s) as Hlen.
  assert (Hout : (if c =? 0x3A3 then [lower_sigma b s] else lower_char c)
                 = [c] /\ lower_from (c :: b) s = s).
  { destruct (if c =? 0x3A3 then [lower_sigma b s] else lower_char c)
      as [|o [|o' out]] eqn:Hout.
    - exfalso. destruct (c =? 0x3A3); [discriminate|].
      exact (lower_char_nonempty c Hout).
    - cbn [app] in Hfixed. injection Hfixed as -> Hs. auto.
    - exfalso. apply (f_equal (@length N)) in Hfixed.
      cbn [app length] in Hfixed. rewrite length_app in Hfixed. lia. }
  destruct Hout as [Hout Hs].
  destruct Hin as [<-|Hin]; [|exact (IH _ Hs ch Hin)].
  unfold lower. cbn [lower_from]. rewrite app_nil_r.
  destruct (c =? 0x3A3) eqn:Hsigma; [|exact Hout].
  apply N.eqb_eq in Hsigma. subst c.
  destruct (lower_sigma_cases b s) as [Hs'|Hs']; rewrite Hs' in Hout;
    discriminate.
Qed.

(** *** Lines of the Latin-1 embedding *)

Lemma isspace_of_ascii (c : ascii) :
  isspace (N_of_ascii c) = PyStr.isspace c.
Proof. destruct c as [[] [] [] [] [] [] [] []]; vm_compute; reflexivity. Qed.

Lemma isupper_of_ascii (c : ascii) :
  isupper (N_of_ascii c) = PyStr.isupper c.
Proof. destruct c as [[] [] [] [] [] [] [] []]; vm_compute; reflexivity. Qed.

Lemma lower_char_of_ascii (c : ascii) :
  (N_of_ascii c =? 0x3A3) = false /\
  lower_char (N_of_ascii c) = [N_of_ascii (PyStr.lower_char c)].
Proof.
  destruct c as [[] [] [] [] [] [] [] []]; vm_compute; split; reflexivity.
Qed.

Lemma of_str_of_chars (l : list ascii) :
  of_str (PyStr.of_chars l) = map N_of_ascii l.
Proof. unfold of_str. rewrite chars_of_chars. reflexivity. Qed.

Lemma lower_from_of_chars (b : list N) (l : list ascii) :
  lower_from b (map N_of_ascii l)
  = map N_of_ascii (map PyStr.lower_char l).
Proof.
  revert b. induction l as [|c l IH]; intros b; [reflexivity|].
  cbn [map lower_from].
  destruct (lower_char_of_ascii c) as [-> ->]. cbn [app]. f_equal. apply IH.
Qed.

Lemma lower_of_str (s : string) : lower (of_str s) = of_str (PyStr.lower s).
Proof.
  unfold lower, PyStr.lower. rewrite of_str_of_chars.
  apply lower_from_of_chars.
Qed.

Lemma drop_while_of_chars (l : list ascii) :
  drop_while isspace (map N_of_ascii l)
  = map N_of_ascii (PyStr.drop_while PyStr.isspace l).
Proof.
  induction l as [|c l IH]; [reflexivity|].
  cbn [map drop_while PyStr.drop_while]. rewrite isspace_of_ascii.
  destruct (PyStr.isspace c); [exact IH|reflexivity].
Qed.

Lemma strip_of_str (s : string) : strip (of_str s) = of_str (PyStr.strip s).
Proof.
  unfold strip, PyStr.strip, PyStr.strip_chars. rewrite of_str_of_chars.
  unfold of_str.
  rewrite drop_while_of_chars, <- List.map_rev, drop_while_of_chars,
    <- List.map_rev.
  reflexivity.
Qed.

Lemma slice_from_of_str (n : nat) (s : string) :
  slice_from n (of_str s) = of_str (PyStr.slice_from n s).
Proof.
  unfold slice_from, PyStr.slice_from. rewrite of_str_of_chars.
  unfold of_str. apply List.skipn_map.
Qed.

Lemma startswith_of_str (p s : string) :
  startswith (of_str p) (of_str s) = PyStr.startswith p s.
Proof.
  unfold PyStr.startswith, of_str, PyStr.chars.
  revert s. induction p as [|a p IH]; intros [|b s]; try reflexivity.
  cbn [list_ascii_of_string map startswith String.prefix].
  rewrite IH. destruct (ascii_dec a b) as [->|Hne].
  - rewrite N.eqb_refl. reflexivity.
  - destruct (N.eqb_spec (N_of_ascii a) (N_of_ascii b)) as [Heq|]; [|reflexivity].
    apply (f_equal ascii_of_N) in Heq. rewrite !ascii_N_embedding in Heq.
    contradiction.
Qed.

Lemma has_upper_of_str (s : string) :
  has_upper (of_str s) = PyStr.has_upper s.
Proof.
  unfold has_upper, PyStr.has_upper, of_str.
  induction (PyStr.chars s) as [|c l IH]; [reflexivity|].
  cbn [map existsb]. rewrite isupper_of_ascii, IH. reflexivity.
Qed.

(** On a line of the Latin-1 embedding the two readings of lines 203-212
    agree. *)
Lemma cli_address_of_str (c : address_command) (line : string) :
  PyStr.startswith (command_word c) (PyStr.lower (PyStr.strip line)) = true ->
  cli_address (of_str line)
  = Some (c, of_str (PyStr.lower
                       (typed_address (length (PyStr.chars (command_word c)))
                          line))).
Proof.
  intros Hword.
  rewrite (cli_address_run c (of_str line)).
  - unfold typed_code_points, typed_address.
    rewrite strip_of_str, slice_from_of_str, strip_of_str, lower_of_str.
    reflexivity.
  - rewrite strip_of_str, lower_of_str, startswith_of_str. exact Hword.
Qed.

(** C9: on every line, the wallet that [add] stores and [remove] looks up
    is the lower case of the typed address, as [str.lower] computes it.  An
    address in which some character has another lower case is therefore
    never stored as it was typed. *)
Theorem cli_address_lowers_typed_address (c : address_command)
    (line : list N) :
  startswith (of_str (command_word c)) (lower (strip line)) = true ->
  let typed :=
    typed_code_points (length (PyStr.chars (command_word c))) line in
  let stored := lower typed in
  cli_address line = Some (c, stored) /\
  (forall ch, In ch typed -> lower [ch] <> [ch] -> stored <> typed).
Proof.
  intros Hword typed stored. split; [exact (cli_address_run c line Hword)|].
  intros ch Hin Hch Hfixed.
  exact (Hch (lower_from_fixed [] typed Hfixed ch Hin)).
Qed.

End CodePoints.

Lemma cli_address_lowers_typed_address_witness :
  cli_address [0x20; 0x41; 0x64; 0x44; 0x20; 0x37; 0x78; 0x4B; 0x3A3; 0x20]%N
  = Some (AddCommand, [0x37; 0x78; 0x6B; 0x3C2]%N).
Proof.
  exact (proj1 (cli_address_lowers_typed_address AddCommand
                  [0x20; 0x41; 0x64; 0x44; 0x20; 0x37; 0x78; 0x4B; 0x3A3; 0x20]%N
                  eq_refl)).
Defined.

(** C9 as stated fails: the line [add] followed by the mathematical bold
    capitals A and B (U+1D400, U+1D401) stores the address as it was typed,
    and the line [remove] followed by the Greek upsilon with hook (U+03D2)
    looks it up as it was typed.  The three are upper-case characters, and
    [str.lower] leaves them as they are. *)
Lemma cli_stores_upper_case_address :
  cli_address [0x61; 0x64; 0x64; 0x20; 0x1D400; 0x1D401]%N
  = Some (AddCommand, [0x1D400; 0x1D401]%N) /\
  typed_code_points 4 [0x61; 0x64; 0x64; 0x20; 0x1D400; 0x1D401]%N
  = [0x1D400; 0x1D401]%N /\
  forallb Unicode.isupper [0x1D400; 0x1D401]%N = true /\
  cli_address [0x72; 0x65; 0x6D; 0x6F; 0x76; 0x65; 0x20; 0x3D2]%N
  = Some (RemoveCommand, [0x3D2]%N) /\
  typed_code_points 7 [0x72; 0x65; 0x6D; 0x6F; 0x76; 0x65; 0x20; 0x3D2]%N
  = [0x3D2]%N /\
  Unicode.isupper 0x3D2%N = true.
Proof. vm_compute. repeat split. Qed.

Section CommandLoopLatin1.
Context {World : Type}.

Import DAIORewardSystem.

(** X20: on a line of the Latin-1 embedding, one pass of the command loop
    runs the [add] or the [remove] that [cli_address] reads in the line,
    and the address it stores or looks up is the typed address in lower
    case.  Every upper-case character below U+0100 has another lower case,
    so that address holds no upper-case character, and differs from the
    typed address when that one holds some. *)
Theorem cli_address_is_lowercased (c : address_command) (line : string)
    (st : state World) :
  PyStr.startswith (command_word c) (PyStr.lower (PyStr.strip line)) = true ->
  let typed := typed_address (length (PyStr.chars (command_word c))) line in
  let stored := PyStr.lower typed in
  main_iteration line st
    = (Ok Continue,
       mkState (command_effect c stored (wallets_to_track st)) (world st)
         (stdout st ++ [Line (command_message c stored)])) /\
  cli_address (Unicode.of_str line) = Some (c, Unicode.of_str stored) /\
  PyStr.has_upper stored = false /\
  (PyStr.has_upper typed = true -> stored <> typed).
Proof.
  intros Hword typed stored. subst typed stored.
  split; [|split; [exact (cli_address_of_str c line Hword)|
                   split; [apply lower_has_no_upper|apply lower_changes_upper]]].
  pose proof (main_iteration_address_run c line st Hword) as Hrun.
  cbv zeta in Hrun. rewrite stored_address_lower in Hrun. exact Hrun.
Qed.

End CommandLoopLatin1.

Lemma cli_address_is_lowercased_witness :
  fst (DAIORewardSystem.main_iteration "  Add 7xKXtg2CW  "
         (Demo.start ∅ [])) = Ok DAIORewardSystem.Continue /\
  wallets_to_track
    (snd (DAIORewardSystem.main_iteration "  Add 7xKXtg2CW  "
            (Demo.start ∅ []))) = {[ "7xkxtg2cw" ]} ∪ ∅.
Proof.
  pose proof (cli_address_is_lowercased AddCommand "  Add 7xKXtg2CW  "
                (Demo.start ∅ []) eq_refl) as [Hrun _].
  rewrite Hrun. split; reflexivity.
Defined.

Section CommandLoopProperties.
Context {World : Type}.

Import DAIORewardSystem.

(** X14: one pass of the command loop never raises and calls no
    collaborator: whatever the line, it returns, the world is untouched and
    the output only grows.  It ends the loop exactly when the line, once
    stripped and lowered, is [exit], and then the state is unchanged. *)
Theorem main_iteration_never_raises (line : string) (st : state World) :
  exists c st',
    main_iteration line st = (Ok c, st') /\
    world st' = world st /\
    (exists out, stdout st' = (stdout st ++ out)%list) /\
    (c = Break <-> PyStr.lower (PyStr.strip line) = "exit") /\
    (c = Break -> st' = st).
Proof.
  unfold main_iteration, try_except.
  set (command := PyStr.lower (PyStr.strip line)).
  destruct (String.eqb_spec command "exit") as [Hexit|Hexit].
  { exists Break, st. repeat split; auto. exists []. symmetry. apply app_nil_r. }
  assert (Hno : forall c : control, c = Continue ->
                  (c = Break <-> command = "exit") /\ (c = Break -> False)).
  { intros c ->. split; [split; [discriminate|contradiction]|discriminate]. }
  destruct (PyStr.startswith "add " command).
  { eexists Continue, _. split; [reflexivity|]. cbn [world stdout].
    split; [reflexivity|]. split; [eexists; reflexivity|].
    destruct (Hno Continue eq_refl) as [Hiff Hnot]. split; [exact Hiff|].
    intros Hb. destruct (Hnot Hb). }
  destruct (PyStr.startswith "remove " command).
  { eexists Continue, _. split; [reflexivity|]. cbn [world stdout].
    split; [reflexivity|]. split; [eexists; reflexivity|].
    destruct (Hno Continue eq_refl) as [Hiff Hnot]. split; [exact Hiff|].
    intros Hb. destruct (Hnot Hb). }
  destruct (String.eqb command "list").
  { erewrite bind_Ok; [|reflexivity].
    erewrite bind_Ok; [|reflexivity].
    erewrite bind_Ok; [|apply for_each_print_lines].
    eexists Continue, _. split; [reflexivity|]. cbn [world stdout].
    split; [reflexivity|]. split; [rewrite <- app_assoc; eexists; reflexivity|].
    destruct (Hno Continue eq_refl) as [Hiff Hnot]. split; [exact Hiff|].
    intros Hb. destruct (Hnot Hb). }
  destruct (String.eqb command "check").
  { exists Continue, st. split; [reflexivity|]. split; [reflexivity|].
    split; [exists []; symmetry; apply app_nil_r|].
    destruct (Hno Continue eq_refl) as [Hiff Hnot]. split; [exact Hiff|].
    intros Hb. destruct (Hnot Hb). }
  eexists Continue, _. split; [reflexivity|]. cbn [world stdout].
  split; [reflexivity|]. split; [eexists; reflexivity|].
  destruct (Hno Continue eq_refl) as [Hiff Hnot]. split; [exact Hiff|].
  intros Hb. destruct (Hnot Hb).
Qed.

(** X16: the command [list] prints its header and then every tracked wallet
    on a line of its own, each exactly once and nothing else, and leaves the
    tracked wallets and the world as they were. *)
Theorem list_command_prints_each_wallet_once (line : string) (st : state World) :
  PyStr.lower (PyStr.strip line) = "list" ->
  let listing := map Line (elements (wallets_to_track st)) in
  main_iteration line st
    = (Ok Continue,
       mkState (wallets_to_track st) (world st)
         (stdout st ++ Line (newline ++ "Tracked wallets:") :: listing)) /\
  NoDup listing /\
  (forall wallet, In (Line wallet) listing <-> wallet ∈ wallets_to_track st).
Proof.
  intros Hlist listing. subst listing. split; [|split].
  - unfold main_iteration, try_except. rewrite Hlist.
    change (String.eqb "list" "exit") with false.
    change (PyStr.startswith "add " "list") with false.
    change (PyStr.startswith "remove " "list") with false.
    change (String.eqb "list" "list") with true. cbv iota.
    erewrite bind_Ok; [|reflexivity].
    erewrite bind_Ok; [|reflexivity].
    erewrite bind_Ok; [|apply for_each_print_lines].
    cbn [mret M_ret ret wallets_to_track world stdout].
    rewrite <- app_assoc. reflexivity.
  - apply NoDup_fmap_2; [|apply NoDup_elements].
    intros w1 w2 Heq. inversion Heq. reflexivity.
  - intros wallet. rewrite in_map_iff. split.
    + intros (w & Heq & Hin). inversion Heq; subst.
      apply elem_of_elements, list_elem_of_In. exact Hin.
    + intros Hin. exists wallet. split; [reflexivity|].
      apply list_elem_of_In, elem_of_elements. exact Hin.
Qed.

(** X17: the commands [add] and [remove] never take an empty address: when
    the stripped and lowered line starts with the command word, the address
    the pass adds or removes is not the empty string. *)
Theorem cli_address_is_never_empty (c : address_command) (line : string)
    (st : state World) :
  PyStr.startswith (command_word c) (PyStr.lower (PyStr.strip line)) = true ->
  exists address,
    address <> "" /\
    main_iteration line st
      = (Ok Continue,
         mkState (command_effect c address (wallets_to_track st)) (world st)
           (stdout st ++ [Line (command_message c address)])).
Proof.
  intros Hword. eexists. split.
  - apply (stored_address_nonempty c line Hword).
  - apply (main_iteration_address_run c line st Hword).
Qed.

(** X18: [remove] undoes [add] whatever the case the address is typed in:
    after an [add] and a [remove] whose typed addresses agree once lowered,
    the address is not tracked and every other wallet is tracked exactly
    when it was before. *)
Theorem add_then_remove_untracks (line1 line2 : string) (st : state World) :
  PyStr.startswith "add " (PyStr.lower (PyStr.strip line1)) = true ->
  PyStr.startswith "remove " (PyStr.lower (PyStr.strip line2)) = true ->
  PyStr.lower (typed_address 4 line1) = PyStr.lower (typed_address 7 line2) ->
  let address := PyStr.lower (typed_address 4 line1) in
  let st1 := snd (main_iteration line1 st) in
  let st2 := snd (main_iteration line2 st1) in
  (address ∈ wallets_to_track st1) /\
  (address ∉ wallets_to_track st2) /\
  wallets_to_track st2 = wallets_to_track st ∖ {[ address ]}.
Proof.
  intros Hadd Hremove Hsame address st1 st2. subst address st1 st2.
  rewrite (main_iteration_address_run AddCommand line1 st Hadd). cbn [snd].
  rewrite (main_iteration_address_run RemoveCommand line2 _ Hremove). cbn [snd].
  cbn [command_word command_effect wallets_to_track].
  change (length (PyStr.chars "add ")) with 4%nat.
  change (length (PyStr.chars "remove ")) with 7%nat.
  rewrite !stored_address_lower, <- Hsame.
  split; [|split].
  - apply elem_of_union. left. apply elem_of_singleton. reflexivity.
  - intros Hin. apply elem_of_difference in Hin as [_ Hin].
    apply Hin, elem_of_singleton. reflexivity.
  - apply set_eq. intros w.
    rewrite !elem_of_difference, elem_of_union, elem_of_singleton. tauto.
Qed.

End CommandLoopProperties.

Lemma list_command_prints_each_wallet_once_witness :
  NoDup (map Line (elements ({[ "calm"; "busy" ]} : gset string))) /\
  (In (Line "busy") (map Line (elements ({[ "calm"; "busy" ]} : gset string)))
   <-> "busy" ∈ ({[ "calm"; "busy" ]} : gset string)).
Proof.
  destruct (list_command_prints_each_wallet_once "LIST"
              (Demo.start {[ "calm"; "busy" ]} []) eq_refl)
    as (_ & Hnodup & Hin).
  split; [exact Hnodup|exact (Hin "busy")].
Defined.

Lemma cli_address_is_never_empty_witness :
  exists address,
    address <> "" /\
    DAIORewardSystem.main_iteration "remove  7xKXtg2CW" (Demo.start {[ "calm" ]} [])
    = (Ok DAIORewardSystem.Continue,
       mkState (command_effect RemoveCommand address {[ "calm" ]}) []
         [Line (command_message RemoveCommand address)]).
Proof.
  exact (cli_address_is_never_empty RemoveCommand "remove  7xKXtg2CW"
           (Demo.start {[ "calm" ]} []) eq_refl).
Defined.

Lemma add_then_remove_untracks_witness :
  ("abc" ∈ wallets_to_track
     (snd (DAIORewardSystem.main_iteration "add ABC" (Demo.start ∅ [])))) /\
  ("abc" ∉ wallets_to_track
     (snd (DAIORewardSystem.main_iteration "Remove abc"
             (snd (DAIORewardSystem.main_iteration "add ABC" (Demo.start ∅ [])))))).
Proof.
  destruct (add_then_remove_untracks "add ABC" "Remove abc" (Demo.start ∅ [])
              eq_refl eq_refl eq_refl) as (Hin & Hout & _).
  split; [exact Hin|exact Hout].
Defined.

(** ** The batch check reaches neither the language model nor the simulator *)

Section SameLookup.
Context {World : Type} (svc svc' : Services World).
Hypothesis Hsame : same_lookup svc svc'.

Import DAIORewardSystem.

Lemma scan_accounts_same accounts holding_info (st : state World) :
  scan_accounts svc accounts holding_info st
  = scan_accounts svc' accounts holding_info st.
Proof.
  destruct Hsame as (_ & Hinfo & Hhistory & Htime).
  revert holding_info st.
  induction accounts as [|account_pubkey rest IH]; intros holding_info st;
    cbn [scan_accounts]; [reflexivity|].
  unfold mbind, M_bind, bind, call. rewrite <- Hinfo.
  destruct (get_account_info svc account_pubkey (world st))
    as [[msg|[token_data|]] w1]; [reflexivity| |apply IH].
  cbn [world]. rewrite <- Hinfo.
  destruct (get_account_info svc (av_mint token_data) w1)
    as [[msg|[mint_value|]] w2]; [reflexivity| |apply IH].
  destruct (negb _); [apply IH|].
  cbn [world]. rewrite <- Hhistory.
  destruct (get_signature_for_address svc account_pubkey w2)
    as [[msg|history] w3]; [reflexivity|].
  destruct (last history) as [block_time|]; [|apply IH].
  unfold fromtimestamp, mbind, M_bind, bind, call. cbn [world].
  rewrite <- Htime.
  destruct (localtime svc block_time w3) as [[msg|clock] w4]; reflexivity.
Qed.

Lemma get_token_holding_duration_same wallet (st : state World) :
  get_token_holding_duration svc wallet st
  = get_token_holding_duration svc' wallet st.
Proof.
  destruct Hsame as (Haccounts & _).
  unfold get_token_holding_duration, try_except, holding_duration_body.
  unfold mbind, M_bind, bind, call. rewrite <- Haccounts.
  destruct (get_token_accounts_by_owner svc wallet (world st))
    as [[msg|[|account accounts]] w1]; try reflexivity.
  rewrite scan_accounts_same. reflexivity.
Qed.

Lemma check_wallet_same wallet (st : state World) :
  check_wallet svc wallet st = check_wallet svc' wallet st.
Proof.
  unfold check_wallet, mbind, M_bind, bind, print. cbv beta iota.
  rewrite <- get_token_holding_duration_same.
  destruct (get_token_holding_duration svc wallet _) as [[info|e] st1] eqn:Hrun;
    [|reflexivity].
  destruct (get_token_holding_duration_shape _ _ _ _ _ Hrun) as [(error & ->)| ->];
    reflexivity.
Qed.

Lemma for_each_check_wallet_same wallets (st : state World) :
  for_each (check_wallet svc) wallets st = for_each (check_wallet svc') wallets st.
Proof.
  revert st. induction wallets as [|w ws IH]; intros st; cbn [for_each];
    [reflexivity|].
  unfold mbind, M_bind, bind. rewrite check_wallet_same.
  destruct (check_wallet svc' w st) as [[[]|e] st1]; [apply IH|reflexivity].
Qed.

(** X19: a run of [check_all_wallets] reaches neither the language model
    nor the simulator: with the same RPC node and the same local clock, it
    is the same run whatever those two are, in its result, in what it
    prints and in the state it leaves. *)
Theorem check_all_wallets_ignores_model_and_simulator (st : state World) :
  check_all_wallets svc st = check_all_wallets svc' st.
Proof.
  unfold check_all_wallets, mbind, M_bind, bind, print, get_wallets.
  cbv beta iota.
  destruct (elements _); [reflexivity|apply for_each_check_wallet_same].
Qed.

End SameLookup.

Lemma check_all_wallets_ignores_model_and_simulator_witness :
  DAIORewardSystem.check_all_wallets Demo.svc
    (Demo.start {[ "calm"; "down" ]} Demo.reward_script)
  = DAIORewardSystem.check_all_wallets Demo.offline_svc
      (Demo.start {[ "calm"; "down" ]} Demo.reward_script).
Proof.
  apply (check_all_wallets_ignores_model_and_simulator Demo.svc Demo.offline_svc).
  repeat split; reflexivity.
Defined.
